(** * WinFuse transaction bridge: a shallow embedding of [winfuse/fuse.c]

    The development follows the C source function by function.  Pointers are
    integers, kernel memory is a finite map from addresses to objects, and
    every function of the bridge is a state transformer that either returns
    or stops at an invalid memory access.  What the bridge does towards its
    surroundings (dispatching a handler, waiting, fetching, forwarding,
    finalizing, freeing) is recorded in a trace.  The [ASSERT]s of the source
    are checks of debug builds and take no part in the behaviour modelled
    here. *)

From Stdlib Require Import ZArith List Bool Lia.
From stdpp Require Import base option list gmap.

Local Open Scope Z_scope.

(** * Result codes

    [NTSTATUS] is a signed 32-bit [LONG]; it is kept here as its unsigned
    32-bit pattern and converted where the sign matters. *)

Definition STATUS_SUCCESS : Z := 0x00000000.
Definition STATUS_TIMEOUT : Z := 0x00000102.
Definition STATUS_INVALID_PARAMETER : Z := 0xC000000D.
Definition STATUS_INVALID_DEVICE_REQUEST : Z := 0xC0000010.
Definition STATUS_ACCESS_DENIED : Z := 0xC0000022.
Definition STATUS_BUFFER_TOO_SMALL : Z := 0xC0000023.
Definition STATUS_OBJECT_NAME_NOT_FOUND : Z := 0xC0000034.
Definition STATUS_THREAD_IS_TERMINATING : Z := 0xC000004B.
Definition STATUS_INSUFFICIENT_RESOURCES : Z := 0xC000009A.
Definition STATUS_CANCELLED : Z := 0xC0000120.

(** The value of a 32-bit pattern read as a signed [LONG]. *)
Definition LONG_of (v : Z) : Z :=
  if v <? 0x80000000 then v else v - 0x100000000.

(** [#define NT_SUCCESS(Status) (((NTSTATUS)(Status)) >= 0)] *)
Definition NT_SUCCESS (Status : Z) : bool := 0 <=? LONG_of Status.

(** [(UINT32)v] *)
Definition UINT32_of (v : Z) : Z := v mod 0x100000000.

(** * Status-only contexts *)

(** Modelled from the spec: the macros [FuseContextStatus],
    [FuseContextIsStatus] and [FuseContextToStatus] live in
    [winfuse/driver.h], which is not part of the sources at hand.  The spec
    describes them as encoding a result code as a fake context pointer that
    is recognised by a reserved bit pattern.  The fake pointer keeps the low
    16 bits of the result code, and every pointer value up to [0xFFFF]
    (addresses that are never mapped) counts as a status. *)
Definition FuseContextStatus (Status : Z) : Z :=
  Z.land (UINT32_of Status) 0x0000FFFF.

(** Modelled from the spec: see [FuseContextStatus]. *)
Definition FuseContextIsStatus (C : Z) : bool := C <=? 0x0000FFFF.

(** Modelled from the spec: see [FuseContextStatus]. *)
Definition FuseContextToStatus (C : Z) : Z := Z.lor 0xC0000000 (UINT32_of C).

(** * Status translator *)

Module Errno.

(** One [case E: return S;] line of the table that [FuseNtStatusFromErrno]
    includes ([winfuse/errno.i], taken as a parameter of the function). *)
Definition CASE : Type := Z * Z.

(** [switch (Errno)] over the case lines: the first line whose label is
    [Errno] decides; C requires the labels to be pairwise distinct. *)
Fixpoint switch (cases : list CASE) (Errno : Z) : option Z :=
  match cases with
  | [] => None
  | (E, Status) :: cases' =>
      if Errno =? E then Some Status else switch cases' Errno
  end.

Definition FuseNtStatusFromErrno (errno_i : list CASE) (Errno : Z) : Z :=
  match switch errno_i Errno with
  | Some Status => Status
  | None => STATUS_ACCESS_DENIED
  end.

(** A sample of case lines, used to run the translator. *)
Definition errno_sample : list CASE :=
  [ (0, STATUS_SUCCESS);
    (2, STATUS_OBJECT_NAME_NOT_FOUND);
    (12, STATUS_INSUFFICIENT_RESOURCES);
    (22, STATUS_INVALID_PARAMETER) ].

End Errno.

(** * Data model *)

(** The operation kinds of the host framework that [driver.c] names, in the
    order of the framework's enumeration. *)
Definition FspFsctlTransactReservedKind : Z := 0.
Definition FspFsctlTransactCreateKind : Z := 1.
Definition FspFsctlTransactOverwriteKind : Z := 2.

(** Internal request and response records of the host framework: the fields
    the bridge reads and writes. *)
Record FSP_FSCTL_TRANSACT_REQ : Type := {
  Req_Kind : Z;
  Req_Hint : Z
}.

Record FSP_FSCTL_TRANSACT_RSP : Type := {
  Rsp_Size : Z;
  Rsp_Kind : Z;
  Rsp_Hint : Z;
  Rsp_IoStatus_Status : Z;
  Rsp_IoStatus_Information : Z
}.

(** [RtlZeroMemory(&InternalResponse, sizeof InternalResponse)] *)
Definition zero_RSP : FSP_FSCTL_TRANSACT_RSP :=
  {| Rsp_Size := 0; Rsp_Kind := 0; Rsp_Hint := 0;
     Rsp_IoStatus_Status := 0; Rsp_IoStatus_Information := 0 |}.

(** FUSE wire records, as seen through the exchange buffer. *)
Record FUSE_PROTO_RSP : Type := {
  rsp_len : Z;
  rsp_error : Z;
  rsp_unique : Z;
  rsp_data : list Z
}.

Record FUSE_PROTO_REQ : Type := {
  req_len : Z;
  req_opcode : Z;
  req_unique : Z;
  req_nodeid : Z;
  req_uid : Z;
  req_gid : Z;
  req_pid : Z;
  req_data : list Z
}.

(** [RtlZeroMemory(FuseRequest, FUSE_PROTO_REQ_HEADER_SIZE)]: the header
    fields are cleared, the bytes after the header stay. *)
Definition zero_REQ_header (q : FUSE_PROTO_REQ) : FUSE_PROTO_REQ :=
  {| req_len := 0; req_opcode := 0; req_unique := 0; req_nodeid := 0;
     req_uid := 0; req_gid := 0; req_pid := 0; req_data := req_data q |}.

(** Where [Context->InternalResponse] points: at the buffer embedded in the
    context ([&Context->InternalResponseBuf]) or at a separately allocated
    response. *)
Inductive RSP_PTR : Type :=
| InternalResponseBuf_addr
| Rsp_at (p : Z).

Record FUSE_CONTEXT : Type := {
  DeviceObject : Z;
  InternalRequest : Z;                          (* pointer, 0 when absent *)
  InternalResponse : RSP_PTR;
  InternalResponseBuf : FSP_FSCTL_TRANSACT_RSP;
  Fini : Z;                                     (* function pointer, 0 when unset *)
  FuseRequest : bool;                           (* points at the request slot *)
  FuseResponse : bool                           (* points at the response slot *)
}.

(** What an allocated address holds. *)
Inductive OBJECT : Type :=
| ObjContext (c : FUSE_CONTEXT)
| ObjRequest (r : FSP_FSCTL_TRANSACT_REQ)
| ObjResponse (r : FSP_FSCTL_TRANSACT_RSP).

(** The correlation queue: the pending set in arrival order and the
    processing set keyed by correlation id. *)
Record FUSE_IOQ : Type := {
  PendingList : list Z;
  ProcessTable : gmap Z Z
}.

(** What the bridge does that can be seen from outside, in order. *)
Inductive EVENT : Type :=
| EvDispatch (Context Kind : Z)
| EvWait
| EvFetch
| EvForward (r : FSP_FSCTL_TRANSACT_RSP)
| EvFini (Context fn : Z)
| EvFree (p : Z).

(** What an exchange call works on.  The response and the request slot are
    one buffer, [Irp->AssociatedIrp.SystemBuffer] (lines 112-113).
    [Response] is the response as the caller supplied it in that buffer: the
    bridge reads it at lines 116-118 and 136 and hands it to the handler at
    line 140, all before the buffer is first written, at line 161.
    [Request] is the buffer read as a request, which is what the bridge and
    the handlers write from line 161 on.  The overlap of the two views is
    not modelled: [Response] is never written, so past line 161 it is not
    what the buffer then holds, and past line 161 it is not read either
    (lemma [request_phase_blind]). *)
Record STATE : Type := {
  Heap : gmap Z OBJECT;
  Ioq : FUSE_IOQ;                 (* DeviceExtension->Ioq *)
  VersionMajor : Z;               (* DeviceExtension->VersionMajor *)
  Response : FUSE_PROTO_RSP;      (* the response as the caller supplied it *)
  Request : FUSE_PROTO_REQ;       (* the exchange buffer read as a request *)
  Information : Z;                (* Irp->IoStatus.Information *)
  Trace : list EVENT
}.

Definition set_Heap (h : gmap Z OBJECT) (st : STATE) : STATE :=
  {| Heap := h; Ioq := Ioq st; VersionMajor := VersionMajor st;
     Response := Response st; Request := Request st;
     Information := Information st; Trace := Trace st |}.

Definition set_Ioq (q : FUSE_IOQ) (st : STATE) : STATE :=
  {| Heap := Heap st; Ioq := q; VersionMajor := VersionMajor st;
     Response := Response st; Request := Request st;
     Information := Information st; Trace := Trace st |}.

Definition set_VersionMajor (v : Z) (st : STATE) : STATE :=
  {| Heap := Heap st; Ioq := Ioq st; VersionMajor := v;
     Response := Response st; Request := Request st;
     Information := Information st; Trace := Trace st |}.

Definition set_Request (q : FUSE_PROTO_REQ) (st : STATE) : STATE :=
  {| Heap := Heap st; Ioq := Ioq st; VersionMajor := VersionMajor st;
     Response := Response st; Request := q;
     Information := Information st; Trace := Trace st |}.

Definition set_Information (n : Z) (st : STATE) : STATE :=
  {| Heap := Heap st; Ioq := Ioq st; VersionMajor := VersionMajor st;
     Response := Response st; Request := Request st;
     Information := n; Trace := Trace st |}.

Definition add_Trace (e : EVENT) (st : STATE) : STATE :=
  {| Heap := Heap st; Ioq := Ioq st; VersionMajor := VersionMajor st;
     Response := Response st; Request := Request st;
     Information := Information st; Trace := Trace st ++ [e] |}.

(** * The monad of the bridge: state, and a stop at undefined behaviour *)

Inductive FAULT : Type :=
| BadPointer (p : Z)      (* an access through a pointer that is not allocated *)
| BadIndex (i : Z)        (* an index outside the dispatch table *)
| NullCall (i : Z).       (* a call through an unset dispatch slot *)

Inductive RESULT (A : Type) : Type :=
| Done (a : A) (st : STATE)
| Fault (f : FAULT) (st : STATE).
Arguments Done {A} a st.
Arguments Fault {A} f st.

Definition M (A : Type) : Type := STATE -> RESULT A.

Definition ret {A} (a : A) : M A := fun st => Done a st.

Definition bind {A B} (m : M A) (k : A -> M B) : M B :=
  fun st => match m st with
            | Done a st' => k a st'
            | Fault f st' => Fault f st'
            end.

Definition fault {A} (f : FAULT) : M A := fun st => Fault f st.
Definition get {A} (proj : STATE -> A) : M A := fun st => Done (proj st) st.
Definition modify (f : STATE -> STATE) : M unit := fun st => Done tt (f st).
Definition emit (e : EVENT) : M unit := modify (add_Trace e).

Notation "x <- m ;; k" := (bind m (fun x => k))
  (at level 100, m at next level, right associativity).
Notation "m ;;; k" := (bind m (fun _ => k))
  (at level 100, right associativity).

(** A [goto exit] carries the result and the local variable
    [InternalRequest] of [FuseDeviceTransact] (written [InternalRequest0]
    throughout, to keep it apart from the field of the context), which the
    [exit:] label looks at; otherwise control goes on. *)
Inductive FLOW (A : Type) : Type :=
| Goto_exit (Result InternalRequest0 : Z)
| Next (a : A).
Arguments Goto_exit {A} Result InternalRequest0.
Arguments Next {A} a.

(** * Memory *)

Definition load_context (p : Z) : M FUSE_CONTEXT :=
  fun st => match Heap st !! p with
            | Some (ObjContext c) => Done c st
            | _ => Fault (BadPointer p) st
            end.

Definition load_request (p : Z) : M FSP_FSCTL_TRANSACT_REQ :=
  fun st => match Heap st !! p with
            | Some (ObjRequest r) => Done r st
            | _ => Fault (BadPointer p) st
            end.

Definition store_context (p : Z) (c : FUSE_CONTEXT) : M unit :=
  modify (fun st => set_Heap (<[p := ObjContext c]> (Heap st)) st).

(** [*Context->InternalResponse] *)
Definition load_response (Context : Z) : M FSP_FSCTL_TRANSACT_RSP :=
  c <- load_context Context ;;
  match InternalResponse c with
  | InternalResponseBuf_addr => ret (InternalResponseBuf c)
  | Rsp_at p =>
      fun st => match Heap st !! p with
                | Some (ObjResponse r) => Done r st
                | _ => Fault (BadPointer p) st
                end
  end.

(** [FuseFree(p)]: the pool allocator accepts allocated addresses only. *)
Definition FuseFree (p : Z) : M unit :=
  fun st => match Heap st !! p with
            | Some _ => Done tt (add_Trace (EvFree p) (set_Heap (delete p (Heap st)) st))
            | None => Fault (BadPointer p) st
            end.

(** * The correlation queue *)

(** Modelled from the spec: [FuseIoqStartProcessing] is declared in
    [winfuse/driver.h] and defined outside the sources at hand.  It assigns
    the context a correlation id that is unique among the contexts being
    processed and moves the context into the processing set. *)
Definition FuseIoqStartProcessing (Context : Z) : M unit :=
  modify (fun st =>
    let q := Ioq st in
    set_Ioq {| PendingList := PendingList q;
               ProcessTable := <[fresh (dom (ProcessTable q)) := Context]> (ProcessTable q) |} st).

(** Modelled from the spec: [FuseIoqEndProcessing] (defined outside the
    sources at hand) removes and returns the processing-set context that
    matches the id, or reports none (a null pointer) when there is no such
    context. *)
Definition FuseIoqEndProcessing (Unique : Z) : M Z :=
  fun st =>
    let q := Ioq st in
    match ProcessTable q !! Unique with
    | Some Context =>
        Done Context (set_Ioq {| PendingList := PendingList q;
                                 ProcessTable := delete Unique (ProcessTable q) |} st)
    | None => Done 0 st
    end.

(** Modelled from the spec: [FuseIoqPostPending] (defined outside the
    sources at hand) moves a context that needs another round trip into the
    pending set, behind the contexts already waiting there. *)
Definition FuseIoqPostPending (Context : Z) : M unit :=
  modify (fun st =>
    let q := Ioq st in
    set_Ioq {| PendingList := PendingList q ++ [Context];
               ProcessTable := ProcessTable q |} st).

(** Modelled from the spec: [FuseIoqNextPending] (defined outside the
    sources at hand) removes and returns the oldest pending context, or
    none (a null pointer) when the pending set is empty. *)
Definition FuseIoqNextPending : M Z :=
  fun st =>
    let q := Ioq st in
    match PendingList q with
    | [] => Done 0 st
    | Context :: rest =>
        Done Context (set_Ioq {| PendingList := rest;
                                 ProcessTable := ProcessTable q |} st)
    end.

(** * Collaborators of the bridge *)

(** An operation handler [BOOLEAN (FUSE_CONTEXT *Context)]: it is given the
    context pointer, may read and write kernel memory and the exchange
    buffer, and answers whether another round trip is needed. *)
Definition FUSE_PROCESS_DISPATCH : Type :=
  Z -> gmap Z OBJECT -> FUSE_PROTO_RSP -> FUSE_PROTO_REQ ->
  bool * gmap Z OBJECT * FUSE_PROTO_REQ.

(** What the surroundings answer during one exchange call. *)
Record ENVIRONMENT : Type := {
  (* the result of the cancellable wait on [InitEvent], and the value that the
     negotiation path has left in [VersionMajor] by the time the wait returns *)
  WaitInitEvent : Z * Z;
  (* fetching the next internal request: the result and [*PRequest] *)
  FetchInternalRequest : Z * Z;
  (* forwarding an internal response: the result *)
  ForwardInternalResponse : FSP_FSCTL_TRANSACT_RSP -> Z;
  (* [FuseAlloc(sizeof *Context)]: the new address, or 0 *)
  FuseAlloc : Z
}.

(** The I/O request of one exchange call. *)
Record IRP : Type := {
  InputBufferLength : Z;
  OutputBufferLength : Z
}.

(** * The bridge *)

Section Bridge.

(** Constants of headers that are not part of the sources at hand. *)
Variable FUSE_PROTO_RSP_HEADER_SIZE : Z.
Variable FUSE_PROTO_REQ_SIZEMIN : Z.
Variable sizeof_FSP_FSCTL_TRANSACT_RSP : Z.

(** The global dispatch table, [FspFsctlTransactKindCount] slots long; an
    unset slot is a null function pointer. *)
Variable FuseProcessFunction : list (option FUSE_PROCESS_DISPATCH).

Variable env : ENVIRONMENT.

(** [FuseProcessFunction[Kind]] *)
Definition dispatch_slot (Kind : Z) : M (option FUSE_PROCESS_DISPATCH) :=
  if Kind <? 0 then fault (BadIndex Kind)
  else match FuseProcessFunction !! Z.to_nat Kind with
       | Some slot => ret slot
       | None => fault (BadIndex Kind)
       end.

(** Modelled from the spec: [FuseSendTransactInternalIrp] is defined
    outside the sources at hand.  Called with a response and no request
    pointer it forwards the internal response to the host framework over
    the side channel and returns the result of doing so. *)
Definition FuseSendTransactInternalIrp_Response
    (InternalResponse : FSP_FSCTL_TRANSACT_RSP) : M Z :=
  emit (EvForward InternalResponse) ;;;
  ret (ForwardInternalResponse env InternalResponse).

(** Modelled from the spec: [FuseSendTransactInternalIrp] called with no
    response and a request pointer fetches the next internal request from
    the host framework, leaving a null pointer when there is none. *)
Definition FuseSendTransactInternalIrp_Request : M (Z * Z) :=
  emit EvFetch ;;;
  ret (FetchInternalRequest env).

(** [FsRtlCancellableWaitForSingleObject(&DeviceExtension->InitEvent, 0, Irp)]:
    the calling thread sleeps; what it finds in [VersionMajor] afterwards is
    what the negotiation path has written meanwhile. *)
Definition FsRtlCancellableWaitForSingleObject_InitEvent : M Z :=
  emit EvWait ;;;
  modify (set_VersionMajor (snd (WaitInitEvent env))) ;;;
  ret (fst (WaitInitEvent env)).

Definition FuseContextProcess (Context : Z) (FuseResponse FuseRequest : bool) : M bool :=
  c <- load_context Context ;;
  Kind <- (if InternalRequest c =? 0 then ret FspFsctlTransactReservedKind
           else r <- load_request (InternalRequest c) ;; ret (Req_Kind r)) ;;
  store_context Context
    {| DeviceObject := DeviceObject c;
       InternalRequest := InternalRequest c;
       InternalResponse := InternalResponse c;
       InternalResponseBuf := InternalResponseBuf c;
       Fini := Fini c;
       FuseRequest := FuseRequest;
       FuseResponse := FuseResponse |} ;;;
  slot <- dispatch_slot Kind ;;
  match slot with
  | None => fault (NullCall Kind)
  | Some handler =>
      fun st =>
        let '(Continue, heap', req') :=
          handler Context (Heap st) (Response st) (Request st) in
        Done Continue
          (add_Trace (EvDispatch Context Kind) (set_Request req' (set_Heap heap' st)))
  end.

Definition FuseContextCreate (DeviceObject InternalRequest : Z) : M Z :=
  req <- (if InternalRequest =? 0 then ret None
          else r <- load_request InternalRequest ;; ret (Some r)) ;;
  let Kind := match req with
              | None => FspFsctlTransactReservedKind
              | Some r => Req_Kind r
              end in
  slot <- dispatch_slot Kind ;;
  match slot with
  | None => ret (FuseContextStatus STATUS_INVALID_DEVICE_REQUEST)
  | Some _ =>
      let Context := FuseAlloc env in
      if Context =? 0 then ret (FuseContextStatus STATUS_INSUFFICIENT_RESOURCES)
      else
        store_context Context
          {| DeviceObject := DeviceObject;
             InternalRequest := InternalRequest;
             InternalResponse := InternalResponseBuf_addr;
             InternalResponseBuf :=
               {| Rsp_Size := sizeof_FSP_FSCTL_TRANSACT_RSP;
                  Rsp_Kind := Kind;
                  Rsp_Hint := match req with None => 0 | Some r => Req_Hint r end;
                  Rsp_IoStatus_Status := 0;
                  Rsp_IoStatus_Information := 0 |};
             Fini := 0;
             FuseRequest := false;
             FuseResponse := false |} ;;;
        ret Context
  end.

(** Every [Context->field] is a read of memory as it is at that point.  The
    finalize callback is handler code: its call is recorded, and what it
    cleans up is scratch state of the handler, which memory as modelled here
    does not hold. *)
Definition FuseContextDelete (Context : Z) : M unit :=
  c <- load_context Context ;;
  (if Fini c =? 0 then ret tt else emit (EvFini Context (Fini c))) ;;;
  c <- load_context Context ;;
  (if InternalRequest c =? 0 then ret tt else FuseFree (InternalRequest c)) ;;;
  c <- load_context Context ;;
  (match InternalResponse c with
   | InternalResponseBuf_addr => ret tt
   | Rsp_at p => FuseFree p
   end) ;;;
  FuseFree Context.

(** The completion phase, lines 134-156; [Some Result] is [goto exit].
    [FuseResponse] tells whether the response pointer is non-null. *)
Definition completion_phase (FuseResponse : bool) : M (option Z) :=
  if FuseResponse then
    rsp <- get Response ;;
    Context <- FuseIoqEndProcessing (rsp_unique rsp) ;;
    if Context =? 0 then ret None
    else
      Continue <- FuseContextProcess Context true false ;;
      if Continue : bool then
        FuseIoqPostPending Context ;;; ret None
      else
        c <- load_context Context ;;
        if InternalRequest c =? 0 then
          FuseContextDelete Context ;;; ret None
        else
          r <- load_response Context ;;
          Result <- FuseSendTransactInternalIrp_Response r ;;
          FuseContextDelete Context ;;;
          if negb (NT_SUCCESS Result) then ret (Some Result) else ret None
  else ret None.

(** The bootstrap path of the request phase, lines 166-207: on going on
    it yields [Context], the local [InternalRequest] and [Continue]. *)
Definition bootstrap (DeviceObject : Z) : M (FLOW (Z * Z * bool)) :=
  VersionMajor0 <- get VersionMajor ;;
  woken <- (if VersionMajor0 =? 0 then
              Result <- FsRtlCancellableWaitForSingleObject_InitEvent ;;
              let Result :=
                if (Result =? STATUS_TIMEOUT) || (Result =? STATUS_THREAD_IS_TERMINATING)
                then STATUS_CANCELLED else Result in
              if negb (NT_SUCCESS Result) then ret (Goto_exit Result 0)
              else v <- get VersionMajor ;; ret (Next v)
            else ret (Next VersionMajor0)) ;;
  match woken with
  | Goto_exit Result InternalRequest0 => ret (Goto_exit Result InternalRequest0)
  | Next VersionMajor1 =>
      if VersionMajor1 =? 0xFFFFFFFF then ret (Goto_exit STATUS_ACCESS_DENIED 0)
      else
        fetched <- FuseSendTransactInternalIrp_Request ;;
        let Result := fst fetched in
        let InternalRequest0 := snd fetched in
        if negb (NT_SUCCESS Result) then ret (Goto_exit Result InternalRequest0)
        else if InternalRequest0 =? 0 then
          modify (set_Information 0) ;;; ret (Goto_exit STATUS_SUCCESS InternalRequest0)
        else
          Context <- FuseContextCreate DeviceObject InternalRequest0 ;;
          if negb (FuseContextIsStatus Context) then
            Continue <- FuseContextProcess Context false true ;;
            ret (Next (Context, 0, Continue))
          else ret (Next (Context, InternalRequest0, false))
  end.

(** The request phase, lines 159-245; the answer is [Result] and the local
    [InternalRequest] on arrival at [exit:].  [FuseRequest] tells whether
    the request pointer is non-null.  Line 161 zeroes the header of the
    buffer, which [Request] records; [Response] keeps what the caller had
    supplied (see [STATE]). *)
Definition request_phase (FuseRequest : bool) (DeviceObject : Z) : M (Z * Z) :=
  if FuseRequest then
    modify (fun st => set_Request (zero_REQ_header (Request st)) st) ;;;
    Context <- FuseIoqNextPending ;;
    obtained <- (if Context =? 0 then bootstrap DeviceObject
                 else Continue <- FuseContextProcess Context false true ;;
                      ret (Next (Context, 0, Continue))) ;;
    match obtained with
    | Goto_exit Result InternalRequest0 => ret (Result, InternalRequest0)
    | Next (Context, InternalRequest0, Continue) =>
        routed <-
          (if Continue : bool then
             FuseIoqStartProcessing Context ;;; ret (Next tt)
           else
             c <- load_context Context ;;
             if InternalRequest c =? 0 then ret (Next tt)
             else
               Result <-
                 (if FuseContextIsStatus Context then
                    q <- load_request InternalRequest0 ;;
                    FuseSendTransactInternalIrp_Response
                      {| Rsp_Size := sizeof_FSP_FSCTL_TRANSACT_RSP;
                         Rsp_Kind := Req_Kind q;
                         Rsp_Hint := Req_Hint q;
                         Rsp_IoStatus_Status := FuseContextToStatus Context;
                         Rsp_IoStatus_Information := 0 |}
                  else
                    r <- load_response Context ;;
                    Result <- FuseSendTransactInternalIrp_Response r ;;
                    FuseContextDelete Context ;;;
                    ret Result) ;;
               if negb (NT_SUCCESS Result) then ret (Goto_exit Result InternalRequest0)
               else ret (Next tt)) ;;
        match routed with
        | Goto_exit Result InternalRequest1 => ret (Result, InternalRequest1)
        | Next _ =>
            req <- get Request ;;
            modify (set_Information (req_len req)) ;;;
            ret (STATUS_SUCCESS, InternalRequest0)
        end
    end
  else
    modify (set_Information 0) ;;; ret (STATUS_SUCCESS, 0).

(** The [exit:] label. *)
Definition exit_label (Result InternalRequest0 : Z) : M Z :=
  (if InternalRequest0 =? 0 then ret tt else FuseFree InternalRequest0) ;;;
  ret Result.

Definition FuseDeviceTransact (Irp : IRP) (DeviceObject : Z) : M Z :=
  let FuseResponse := negb (InputBufferLength Irp =? 0) in
  let FuseRequest := negb (OutputBufferLength Irp =? 0) in
  rsp <- get Response ;;
  if FuseResponse &&
     ((FUSE_PROTO_RSP_HEADER_SIZE >? InputBufferLength Irp) ||
      (FUSE_PROTO_RSP_HEADER_SIZE >? rsp_len rsp) ||
      (rsp_len rsp >? InputBufferLength Irp))
  then ret STATUS_INVALID_PARAMETER
  else if FuseRequest && (FUSE_PROTO_REQ_SIZEMIN >? OutputBufferLength Irp)
  then ret STATUS_BUFFER_TOO_SMALL
  else
    completed <- completion_phase FuseResponse ;;
    match completed with
    | Some Result => exit_label Result 0
    | None =>
        at_exit <- request_phase FuseRequest DeviceObject ;;
        exit_label (fst at_exit) (snd at_exit)
    end.

End Bridge.

(** * The dispatch table as [DriverEntry] fills it *)

(** [driver.c] sets the slots of the reserved kind and of the create kind
    and leaves every other slot of the zero-initialised table unset.  The
    two handlers and the number of kinds come from outside. *)
Definition DriverEntry (FspFsctlTransactKindCount : nat)
    (FuseOpReserved FuseOpCreate : FUSE_PROCESS_DISPATCH)
    : list (option FUSE_PROCESS_DISPATCH) :=
  <[Z.to_nat FspFsctlTransactCreateKind := Some FuseOpCreate]>
    (<[Z.to_nat FspFsctlTransactReservedKind := Some FuseOpReserved]>
       (replicate FspFsctlTransactKindCount None)).

(** * Well-formed contexts *)

(** The response that [Context->InternalResponse] designates. *)
Definition response_of (h : gmap Z OBJECT) (c : FUSE_CONTEXT)
    : option FSP_FSCTL_TRANSACT_RSP :=
  match InternalResponse c with
  | InternalResponseBuf_addr => Some (InternalResponseBuf c)
  | Rsp_at p => match h !! p with
                | Some (ObjResponse r) => Some r
                | _ => None
                end
  end.

(** A real context: it is allocated, and what it owns is allocated apart
    from it. *)
Definition valid_context (h : gmap Z OBJECT) (Context : Z) (c : FUSE_CONTEXT) : Prop :=
  h !! Context = Some (ObjContext c) ∧
  (InternalRequest c ≠ 0 →
     InternalRequest c ≠ Context ∧ is_Some (h !! InternalRequest c)) ∧
  (∀ p, InternalResponse c = Rsp_at p →
     p ≠ Context ∧ p ≠ InternalRequest c ∧ is_Some (h !! p)).

(** Two states that differ in memory and trace at most. *)
Definition same_device (st st' : STATE) : Prop :=
  Ioq st' = Ioq st ∧ VersionMajor st' = VersionMajor st ∧
  Response st' = Response st ∧ Request st' = Request st ∧
  Information st' = Information st.

Definition is_forward (e : EVENT) : bool :=
  match e with EvForward _ => true | _ => false end.

Definition is_dispatch (e : EVENT) : bool :=
  match e with EvDispatch _ _ => true | _ => false end.

Definition is_free (e : EVENT) : bool :=
  match e with EvFree _ => true | _ => false end.

(** * Sample runs

    Concrete values for what comes from outside the sources at hand, used to
    run the bridge. *)
Module Sample.

(** The state in which a run ended, and what it answered. *)
Definition state_of {A} (r : RESULT A) : STATE :=
  match r with Done _ st | Fault _ st => st end.

Definition RSP_HEADER_SIZE : Z := 16.
Definition REQ_SIZEMIN : Z := 8192.
Definition RSP_SIZE : Z := 96.
Definition KindCount : nat := 22.

(** A handler of the reserved kind that completes at once. *)
Definition FuseOpReserved : FUSE_PROCESS_DISPATCH :=
  fun Context heap rsp req => (false, heap, req).

(** A handler of the create kind: given the request slot it writes a
    request and asks for the answer; given the answer it records a result
    in the internal response and completes. *)
Definition FuseOpCreate : FUSE_PROCESS_DISPATCH :=
  fun Context heap rsp req =>
    match heap !! Context with
    | Some (ObjContext c) =>
        if FuseRequest c then
          (true, heap,
           {| req_len := 64; req_opcode := 35; req_unique := Context;
              req_nodeid := 1; req_uid := 0; req_gid := 0; req_pid := 0;
              req_data := req_data req |})
        else
          (false,
           <[Context := ObjContext
               {| DeviceObject := DeviceObject c;
                  InternalRequest := InternalRequest c;
                  InternalResponse := InternalResponse c;
                  InternalResponseBuf :=
                    {| Rsp_Size := Rsp_Size (InternalResponseBuf c);
                       Rsp_Kind := Rsp_Kind (InternalResponseBuf c);
                       Rsp_Hint := Rsp_Hint (InternalResponseBuf c);
                       Rsp_IoStatus_Status :=
                         Errno.FuseNtStatusFromErrno Errno.errno_sample (- rsp_error rsp);
                       Rsp_IoStatus_Information := 0 |};
                  Fini := Fini c;
                  FuseRequest := FuseRequest c;
                  FuseResponse := FuseResponse c |}]> heap,
           req)
    | _ => (false, heap, req)
    end.

Definition table : list (option FUSE_PROCESS_DISPATCH) :=
  DriverEntry KindCount FuseOpReserved FuseOpCreate.

Definition Transact (env : ENVIRONMENT) : IRP → Z → M Z :=
  FuseDeviceTransact RSP_HEADER_SIZE REQ_SIZEMIN RSP_SIZE table env.

Definition no_response : FUSE_PROTO_RSP :=
  {| rsp_len := 0; rsp_error := 0; rsp_unique := 0; rsp_data := [] |}.

Definition response (unique : Z) : FUSE_PROTO_RSP :=
  {| rsp_len := 16; rsp_error := 0; rsp_unique := unique; rsp_data := [] |}.

Definition stale_request : FUSE_PROTO_REQ :=
  {| req_len := 16; req_opcode := 0; req_unique := 5; req_nodeid := 0;
     req_uid := 0; req_gid := 0; req_pid := 0; req_data := [] |}.

Definition empty_Ioq : FUSE_IOQ := {| PendingList := []; ProcessTable := ∅ |}.

(** A mounted volume with version 7 negotiated, an empty queue, and in
    memory one internal request of kind [Kind] that the host framework is
    about to hand out. *)
Definition host_request_at : Z := 0x20000.

Definition idle_volume (Kind : Z) : STATE :=
  {| Heap := {[ host_request_at := ObjRequest {| Req_Kind := Kind; Req_Hint := 77 |} ]};
     Ioq := empty_Ioq;
     VersionMajor := 7;
     Response := no_response;
     Request := stale_request;
     Information := 99;
     Trace := [] |}.

(** The surroundings: the host framework hands out the request at
    [host_request_at], forwarding answers [forwarded], the allocator
    answers [allocated]. *)
Definition surroundings (forwarded allocated : Z) : ENVIRONMENT :=
  {| WaitInitEvent := (STATUS_CANCELLED, 0);
     FetchInternalRequest := (STATUS_SUCCESS, host_request_at);
     ForwardInternalResponse := fun _ => forwarded;
     FuseAlloc := allocated |}.

(** A call that only asks for a request, and one that also brings a
    response. *)
Definition poll : IRP := {| InputBufferLength := 0; OutputBufferLength := 8192 |}.
Definition exchange : IRP := {| InputBufferLength := 16; OutputBufferLength := 8192 |}.

Definition context_at : Z := 0x30000.
Definition response_buffer_at : Z := 0x40000.

(** A create context that has been sent to the server under id 5. *)
Definition create_context : FUSE_CONTEXT :=
  {| DeviceObject := 1;
     InternalRequest := host_request_at;
     InternalResponse := InternalResponseBuf_addr;
     InternalResponseBuf :=
       {| Rsp_Size := RSP_SIZE; Rsp_Kind := FspFsctlTransactCreateKind; Rsp_Hint := 77;
          Rsp_IoStatus_Status := 0; Rsp_IoStatus_Information := 0 |};
     Fini := 0;
     FuseRequest := true;
     FuseResponse := false |}.

Definition processing_volume : STATE :=
  {| Heap := {[ host_request_at :=
                  ObjRequest {| Req_Kind := FspFsctlTransactCreateKind; Req_Hint := 77 |};
                context_at := ObjContext create_context ]};
     Ioq := {| PendingList := []; ProcessTable := {[ 5 := context_at ]} |};
     VersionMajor := 7;
     Response := response 5;
     Request := stale_request;
     Information := 99;
     Trace := [] |}.

(** The same volume when the response at hand carries id 6, which nothing
    being processed has, with [version] in [VersionMajor]. *)
Definition stray_volume (version : Z) : STATE :=
  {| Heap := Heap processing_volume;
     Ioq := Ioq processing_volume;
     VersionMajor := version;
     Response := response 6;
     Request := stale_request;
     Information := 99;
     Trace := [] |}.

(** A create context that waits in the pending set for its turn. *)
Definition pending_volume : STATE :=
  {| Heap := Heap processing_volume;
     Ioq := {| PendingList := [context_at]; ProcessTable := ∅ |};
     VersionMajor := 7;
     Response := no_response;
     Request := stale_request;
     Information := 99;
     Trace := [] |}.

(** A table whose create handler completes at once. *)
Definition quick_table : list (option FUSE_PROCESS_DISPATCH) :=
  DriverEntry KindCount FuseOpReserved FuseOpReserved.

(** The pending context leaves the pending set, the request header is
    zeroed, then the handler runs on the request slot. *)
Definition taken : STATE :=
  set_Ioq empty_Ioq (set_Request (zero_REQ_header stale_request) pending_volume).

Definition resumed : STATE :=
  state_of (FuseContextProcess quick_table context_at false true taken).

(** A context with a finalize callback and a separately allocated
    response. *)
Definition rich_context : FUSE_CONTEXT :=
  {| DeviceObject := 1;
     InternalRequest := host_request_at;
     InternalResponse := Rsp_at response_buffer_at;
     InternalResponseBuf := zero_RSP;
     Fini := 0x1000;
     FuseRequest := false;
     FuseResponse := false |}.

Definition rich_volume : STATE :=
  {| Heap := {[ host_request_at :=
                  ObjRequest {| Req_Kind := FspFsctlTransactCreateKind; Req_Hint := 77 |};
                context_at := ObjContext rich_context;
                response_buffer_at := ObjResponse zero_RSP ]};
     Ioq := empty_Ioq;
     VersionMajor := 7;
     Response := no_response;
     Request := stale_request;
     Information := 99;
     Trace := [] |}.

Definition context_in (st : STATE) (Context : Z) : FUSE_CONTEXT :=
  match Heap st !! Context with
  | Some (ObjContext c) => c
  | _ => create_context
  end.

(** The matched context leaves the processing set, then its handler runs
    on the response. *)
Definition matched : STATE :=
  state_of (FuseIoqEndProcessing 5 processing_volume).


End Sample.

(** * Device lifecycle

    [FuseDeviceInit], [FuseDeviceFini] and [FuseDeviceExpirationRoutine]
    handle the queue and the cache of a volume through their handles only;
    what they ask of the queue, the cache and the kernel is recorded in a
    log. *)
Module Device.

Inductive DEVICE_EVENT : Type :=
| DevIoqCreate
| DevCacheCreate (ExpirationHint : Z) (CaseInsensitive : bool)
| DevInitializeEvent (State : bool)   (* KeInitializeEvent(_, NotificationEvent, State) *)
| DevCacheDelete (Cache : Z)
| DevIoqDelete (Ioq : Z)
| DevCacheInvalidateExpired (Cache ExpirationTime DeviceObject : Z).

Record FUSE_DEVICE_EXTENSION : Type := {
  Ioq : Z;                        (* handle of the queue, 0 when absent *)
  Cache : Z;                      (* handle of the cache, 0 when absent *)
  InitEvent : option bool;        (* the init gate: not initialised, or its state *)
  CaseSensitiveSearch : bool      (* VolumeParams->CaseSensitiveSearch *)
}.

Record DEVICE : Type := {
  Extension : FUSE_DEVICE_EXTENSION;
  Log : list DEVICE_EVENT
}.

(** What the constructors of the queue and of the cache answer: the result,
    and what they store through the pointer they are given, if anything. *)
Record CREATORS : Type := {
  FuseIoqCreate : Z * option Z;
  FuseCacheCreate : Z → bool → Z * option Z
}.

Definition log (e : DEVICE_EVENT) (dev : DEVICE) : DEVICE :=
  {| Extension := Extension dev; Log := Log dev ++ [e] |}.

Definition set_Ioq (p : option Z) (dev : DEVICE) : DEVICE :=
  {| Extension :=
       {| Ioq := match p with Some q => q | None => Ioq (Extension dev) end;
          Cache := Cache (Extension dev);
          InitEvent := InitEvent (Extension dev);
          CaseSensitiveSearch := CaseSensitiveSearch (Extension dev) |};
     Log := Log dev |}.

Definition set_Cache (p : option Z) (dev : DEVICE) : DEVICE :=
  {| Extension :=
       {| Ioq := Ioq (Extension dev);
          Cache := match p with Some c => c | None => Cache (Extension dev) end;
          InitEvent := InitEvent (Extension dev);
          CaseSensitiveSearch := CaseSensitiveSearch (Extension dev) |};
     Log := Log dev |}.

Definition set_InitEvent (State : bool) (dev : DEVICE) : DEVICE :=
  {| Extension :=
       {| Ioq := Ioq (Extension dev);
          Cache := Cache (Extension dev);
          InitEvent := Some State;
          CaseSensitiveSearch := CaseSensitiveSearch (Extension dev) |};
     Log := Log dev |}.

Definition FuseDeviceInit (mk : CREATORS) (dev : DEVICE) : Z * DEVICE :=
  let dev := set_Ioq (snd (FuseIoqCreate mk)) (log DevIoqCreate dev) in
  let Result := fst (FuseIoqCreate mk) in
  if negb (NT_SUCCESS Result) then (Result, dev)
  else
    let CaseInsensitive := negb (CaseSensitiveSearch (Extension dev)) in
    let made := FuseCacheCreate mk 0 CaseInsensitive in
    let dev := set_Cache (snd made) (log (DevCacheCreate 0 CaseInsensitive) dev) in
    let Result := fst made in
    if negb (NT_SUCCESS Result) then (Result, dev)
    else
      (STATUS_SUCCESS, set_InitEvent false (log (DevInitializeEvent false) dev)).

Definition FuseDeviceFini (dev : DEVICE) : DEVICE :=
  let dev := if Cache (Extension dev) =? 0 then dev
             else log (DevCacheDelete (Cache (Extension dev))) dev in
  if Ioq (Extension dev) =? 0 then dev
  else log (DevIoqDelete (Ioq (Extension dev))) dev.

Definition FuseDeviceExpirationRoutine (DeviceObject ExpirationTime : Z)
    (dev : DEVICE) : DEVICE :=
  log (DevCacheInvalidateExpired (Cache (Extension dev)) ExpirationTime DeviceObject) dev.

(** A volume as the host framework hands it to [FuseDeviceInit]: the
    extension is zeroed, nothing is logged. *)
Definition blank (CaseSensitive : bool) : DEVICE :=
  {| Extension := {| Ioq := 0; Cache := 0; InitEvent := None;
                     CaseSensitiveSearch := CaseSensitive |};
     Log := [] |}.

(** An assumption on the constructors, whose code is not among these
    sources: they store a handle exactly when they succeed. *)
Definition creators (IoqResult IoqHandle CacheResult CacheHandle : Z) : CREATORS :=
  {| FuseIoqCreate :=
       (IoqResult, if NT_SUCCESS IoqResult then Some IoqHandle else None);
     FuseCacheCreate := fun _ _ =>
       (CacheResult, if NT_SUCCESS CacheResult then Some CacheHandle else None) |}.

End Device.

(** * What a run adds to the trace *)

(** The state in which a run ended. *)
Definition final_state {A} (r : RESULT A) : STATE :=
  match r with Done _ st | Fault _ st => st end.

Definition is_wait (e : EVENT) : bool :=
  match e with EvWait => true | _ => false end.

Definition is_fetch (e : EVENT) : bool :=
  match e with EvFetch => true | _ => false end.

Definition is_fini (e : EVENT) : bool :=
  match e with EvFini _ _ => true | _ => false end.

(** How many of the events satisfy [f]. *)
Definition count_events (f : EVENT → bool) (evs : list EVENT) : nat :=
  length (List.filter f evs).

(** A price per kind of event, and the price of a list of events. *)
Record PRICES : Type := {
  per_dispatch : nat;
  per_wait : nat;
  per_fetch : nat;
  per_forward : nat;
  per_fini : nat;
  per_free : nat
}.

Definition price (w : PRICES) (e : EVENT) : nat :=
  match e with
  | EvDispatch _ _ => per_dispatch w
  | EvWait => per_wait w
  | EvFetch => per_fetch w
  | EvForward _ => per_forward w
  | EvFini _ _ => per_fini w
  | EvFree _ => per_free w
  end.

Fixpoint total (w : PRICES) (evs : list EVENT) : nat :=
  match evs with
  | [] => 0
  | e :: evs' => price w e + total w evs'
  end.

(** Whatever the state it starts in, the run only appends to the trace, and
    what it appends costs at most [n]; this covers the runs that stop at an
    invalid access. *)
Definition spends {A} (w : PRICES) (n : nat) (m : M A) : Prop :=
  ∀ st, ∃ evs,
    Trace (final_state (m st)) = Trace st ++ evs ∧ (total w evs ≤ n)%nat.

(** * Contexts in the queue *)

(** The contexts that the queue holds, pending ones first. *)
Definition queued (q : FUSE_IOQ) : list Z :=
  PendingList q ++ (map_to_list (ProcessTable q)).*2.

(** No context is held twice: not twice in one set, not in both sets. *)
Definition exclusive (q : FUSE_IOQ) : Prop := NoDup (queued q).

(** * A context as it is created *)

(** What lines 279-285 of [FuseContextCreate] leave in a new context for a
    request of kind [Kind] that carries [Hint]. *)
Definition created_context (RSP_SIZE DeviceObject0 InternalRequest0 Kind Hint : Z)
    : FUSE_CONTEXT :=
  {| DeviceObject := DeviceObject0;
     InternalRequest := InternalRequest0;
     InternalResponse := InternalResponseBuf_addr;
     InternalResponseBuf :=
       {| Rsp_Size := RSP_SIZE; Rsp_Kind := Kind; Rsp_Hint := Hint;
          Rsp_IoStatus_Status := 0; Rsp_IoStatus_Information := 0 |};
     Fini := 0;
     FuseRequest := false;
     FuseResponse := false |}.

(** The same context when it is dispatched against the given buffers. *)
Definition entered_context (c : FUSE_CONTEXT) (FuseResponse0 FuseRequest0 : bool)
    : FUSE_CONTEXT :=
  {| DeviceObject := DeviceObject c;
     InternalRequest := InternalRequest c;
     InternalResponse := InternalResponse c;
     InternalResponseBuf := InternalResponseBuf c;
     Fini := Fini c;
     FuseRequest := FuseRequest0;
     FuseResponse := FuseResponse0 |}.

(** The kind and the hint that an internal request pointer stands for: those
    of the request, or the reserved kind and no hint for a null pointer. *)
Definition request_kind (h : gmap Z OBJECT) (InternalRequest0 : Z) : option (Z * Z) :=
  if InternalRequest0 =? 0 then Some (FspFsctlTransactReservedKind, 0)
  else match h !! InternalRequest0 with
       | Some (ObjRequest r) => Some (Req_Kind r, Req_Hint r)
       | _ => None
       end.

(** A run that returns leaves the queue as it found it. *)
Definition keeps_queue {A} (m : M A) : Prop :=
  ∀ st a st', m st = Done a st' → Ioq st' = Ioq st.


(** * The response as the caller supplied it *)

Definition set_Response (r : FUSE_PROTO_RSP) (st : STATE) : STATE :=
  {| Heap := Heap st; Ioq := Ioq st; VersionMajor := VersionMajor st;
     Response := r; Request := Request st;
     Information := Information st; Trace := Trace st |}.

(** The same result, with [r] put in place of the response. *)
Definition with_Response {A} (r : FUSE_PROTO_RSP) (res : RESULT A) : RESULT A :=
  match res with
  | Done a st => Done a (set_Response r st)
  | Fault f st => Fault f (set_Response r st)
  end.

(** A run that does not look at the response: whatever is put in its place
    beforehand, the run does the same and leaves it there. *)
Definition blind {A} (m : M A) : Prop :=
  ∀ r st, m (set_Response r st) = with_Response r (m st).

(** A handler that reads no response when its context carries no response
    pointer ([Context->FuseResponse] is null). *)
Definition reads_no_null_response (handler : FUSE_PROCESS_DISPATCH) : Prop :=
  ∀ Context heap c rsp rsp' req,
    heap !! Context = Some (ObjContext c) →
    FuseResponse c = false →
    handler Context heap rsp req = handler Context heap rsp' req.
(** * More sample runs *)
Module Sample2.

Import Sample.

(** Calls with a request slot that is too short, and with no slot at all. *)
Definition short_poll : IRP := {| InputBufferLength := 0; OutputBufferLength := 100 |}.
Definition empty_call : IRP := {| InputBufferLength := 0; OutputBufferLength := 0 |}.

(** Surroundings in which the host framework has nothing to hand out, or
    fails to hand out, leaving what it had allocated. *)
Definition idle_surroundings (allocated : Z) : ENVIRONMENT :=
  {| WaitInitEvent := (STATUS_CANCELLED, 0);
     FetchInternalRequest := (STATUS_SUCCESS, 0);
     ForwardInternalResponse := fun _ => STATUS_SUCCESS;
     FuseAlloc := allocated |}.

Definition failing_surroundings : ENVIRONMENT :=
  {| WaitInitEvent := (STATUS_CANCELLED, 0);
     FetchInternalRequest := (STATUS_INSUFFICIENT_RESOURCES, host_request_at);
     ForwardInternalResponse := fun _ => STATUS_SUCCESS;
     FuseAlloc := context_at |}.

(** The pending context of [pending_volume] after its dispatch by the
    sample create handler, which asks for another round trip. *)
Definition sent : STATE :=
  state_of (FuseContextProcess table context_at false true taken).

(** A handler that always asks for another round trip, and a table with it
    in the create slot. *)
Definition FuseOpMore : FUSE_PROCESS_DISPATCH :=
  fun Context heap rsp req =>
    (true, heap,
     {| req_len := 48; req_opcode := 1; req_unique := Context;
        req_nodeid := 1; req_uid := 0; req_gid := 0; req_pid := 0;
        req_data := req_data req |}).

Definition eager_table : list (option FUSE_PROCESS_DISPATCH) :=
  DriverEntry KindCount FuseOpReserved FuseOpMore.

(** The matched context of [processing_volume] after its handler has asked
    for more, and after it has been dispatched again in the same call. *)
Definition asked_again : STATE :=
  state_of (FuseContextProcess eager_table context_at true false matched).

Definition sent_again : STATE :=
  state_of
    (FuseContextProcess eager_table context_at false true
       (set_Ioq {| PendingList := []; ProcessTable := ProcessTable (Ioq asked_again) |}
          (set_Request (zero_REQ_header (Request asked_again)) asked_again))).

(** A context of the reserved kind, without internal request, waiting in
    the pending set. *)
Definition reserved_context : FUSE_CONTEXT :=
  {| DeviceObject := 1;
     InternalRequest := 0;
     InternalResponse := InternalResponseBuf_addr;
     InternalResponseBuf :=
       {| Rsp_Size := RSP_SIZE; Rsp_Kind := FspFsctlTransactReservedKind; Rsp_Hint := 0;
          Rsp_IoStatus_Status := 0; Rsp_IoStatus_Information := 0 |};
     Fini := 0;
     FuseRequest := false;
     FuseResponse := false |}.

Definition reserved_volume : STATE :=
  {| Heap := {[ context_at := ObjContext reserved_context ]};
     Ioq := {| PendingList := [context_at]; ProcessTable := ∅ |};
     VersionMajor := 7;
     Response := no_response;
     Request := stale_request;
     Information := 99;
     Trace := [] |}.

Definition reserved_done : STATE :=
  state_of
    (FuseContextProcess table context_at false true
       (set_Ioq empty_Ioq (set_Request (zero_REQ_header stale_request) reserved_volume))).

(** Where a call on [processing_volume] ends when the handler keeps asking
    for more and the allocator would give [response_buffer_at]. *)
Definition exchanged : RESULT Z :=
  FuseDeviceTransact RSP_HEADER_SIZE REQ_SIZEMIN RSP_SIZE eager_table
    (idle_surroundings response_buffer_at) exchange 1 processing_volume.

Definition exchanged_result : Z :=
  match exchanged with Done Result _ => Result | Fault _ _ => 0 end.

End Sample2.

(** * Proof support *)

(** An event that differs from every member of a list is not in the list. *)
Ltac apart :=
  let Hin := fresh "Hin" in
  intros Hin;
  repeat (apply elem_of_cons in Hin as [Hin | Hin]; [congruence |]);
  now apply elem_of_nil in Hin.

(** * Facts *)

Lemma bind_Done {A B} (m : M A) (k : A -> M B) st a st' :
  m st = Done a st' → bind m k st = k a st'.
Proof. intros H. unfold bind. now rewrite H. Qed.

Lemma bind_Fault {A B} (m : M A) (k : A -> M B) st f st' :
  m st = Fault f st' → bind m k st = Fault f st'.
Proof. intros H. unfold bind. now rewrite H. Qed.

Lemma same_device_refl st : same_device st st.
Proof. now repeat split. Qed.

Lemma same_device_trans st1 st2 st3 :
  same_device st1 st2 → same_device st2 st3 → same_device st1 st3.
Proof. unfold same_device. intuition congruence. Qed.

(** ** The status translator *)

Lemma switch_hit cases E Status :
  NoDup cases.*1 → (E, Status) ∈ cases → Errno.switch cases E = Some Status.
Proof.
  induction cases as [|[E' S'] cases IH]; simpl; intros Hnd Hin.
  - now apply elem_of_nil in Hin.
  - apply NoDup_cons in Hnd as [Hfresh Hnd].
    apply elem_of_cons in Hin as [Heq | Hin].
    + injection Heq as <- <-. now rewrite Z.eqb_refl.
    + destruct (Z.eqb_spec E E') as [-> | _]; [| now apply IH].
      exfalso. apply Hfresh. apply list_elem_of_fmap. now exists (E', Status).
Qed.

Lemma switch_miss cases E :
  E ∉ cases.*1 → Errno.switch cases E = None.
Proof.
  induction cases as [|[E' S'] cases IH]; simpl; intros Hout; [reflexivity |].
  apply not_elem_of_cons in Hout as [Hne Hout].
  destruct (Z.eqb_spec E E'); [contradiction | now apply IH].
Qed.

(** C8: the status translator is a function of the errno alone, defined on
    every errno: an errno that is a case label of the included table yields
    the result code of that case, and every other errno yields
    [STATUS_ACCESS_DENIED]. *)
Theorem FuseNtStatusFromErrno_table (errno_i : list Errno.CASE) :
  NoDup errno_i.*1 →
  (∀ E Status, (E, Status) ∈ errno_i →
     Errno.FuseNtStatusFromErrno errno_i E = Status) ∧
  (∀ E, E ∉ errno_i.*1 →
     Errno.FuseNtStatusFromErrno errno_i E = STATUS_ACCESS_DENIED).
Proof.
  intros Hnd. unfold Errno.FuseNtStatusFromErrno. split.
  - intros E Status Hin. now rewrite (switch_hit _ _ _ Hnd Hin).
  - intros E Hout. now rewrite (switch_miss _ _ Hout).
Qed.

Lemma FuseNtStatusFromErrno_table_witness :
  NoDup Errno.errno_sample.*1 ∧
  ((∀ E Status, (E, Status) ∈ Errno.errno_sample →
      Errno.FuseNtStatusFromErrno Errno.errno_sample E = Status) ∧
   (∀ E, E ∉ Errno.errno_sample.*1 →
      Errno.FuseNtStatusFromErrno Errno.errno_sample E = STATUS_ACCESS_DENIED)).
Proof.
  assert (Hnd : NoDup Errno.errno_sample.*1) by (apply (bool_decide_unpack _); vm_compute; reflexivity).
  split; [exact Hnd | exact (FuseNtStatusFromErrno_table Errno.errno_sample Hnd)].
Defined.

(** ** Context destruction *)

(** What destruction leaves in the trace, and what it leaves allocated. *)
Lemma FuseContextDelete_runs st Context c :
  valid_context (Heap st) Context c →
  ∃ st',
    FuseContextDelete Context st = Done tt st' ∧
    same_device st st' ∧
    Heap st' =
      delete Context
        (match InternalResponse c with
         | InternalResponseBuf_addr => λ h, h
         | Rsp_at p => delete p
         end (if InternalRequest c =? 0 then Heap st
              else delete (InternalRequest c) (Heap st))) ∧
    Trace st' =
      Trace st ++
      (if Fini c =? 0 then [] else [EvFini Context (Fini c)]) ++
      (if InternalRequest c =? 0 then [] else [EvFree (InternalRequest c)]) ++
      (match InternalResponse c with
       | InternalResponseBuf_addr => []
       | Rsp_at p => [EvFree p]
       end) ++
      [EvFree Context].
Proof.
  intros (Hc & Hreq & Hrsp). unfold FuseContextDelete.
  (* the finalize callback *)
  set (st1 := if Fini c =? 0 then st else add_Trace (EvFini Context (Fini c)) st).
  assert (H1 : Heap st1 = Heap st) by (unfold st1; now destruct (Fini c =? 0)).
  rewrite (bind_Done _ _ st c st) by (unfold load_context; now rewrite Hc).
  rewrite (bind_Done _ _ st tt st1) by (unfold st1; now destruct (Fini c =? 0)).
  rewrite (bind_Done _ _ st1 c st1) by (unfold load_context; now rewrite H1, Hc).
  (* the internal request *)
  set (st2 := if InternalRequest c =? 0 then st1
              else add_Trace (EvFree (InternalRequest c))
                     (set_Heap (delete (InternalRequest c) (Heap st1)) st1)).
  assert (H2 : Heap st2 = if InternalRequest c =? 0 then Heap st
                          else delete (InternalRequest c) (Heap st)).
  { unfold st2. destruct (InternalRequest c =? 0); simpl; now rewrite H1. }
  assert (Hc2 : Heap st2 !! Context = Some (ObjContext c)).
  { rewrite H2. destruct (Z.eqb_spec (InternalRequest c) 0) as [|Hne]; [exact Hc |].
    destruct (Hreq Hne) as [Hd _]. now rewrite lookup_delete_ne. }
  rewrite (bind_Done _ _ st1 tt st2).
  2:{ unfold st2. destruct (Z.eqb_spec (InternalRequest c) 0) as [|Hne]; [reflexivity |].
      destruct (Hreq Hne) as [_ [o Ho]]. unfold FuseFree. now rewrite H1, Ho. }
  rewrite (bind_Done _ _ st2 c st2) by (unfold load_context; now rewrite Hc2).
  (* the internal response *)
  set (st3 := match InternalResponse c with
              | InternalResponseBuf_addr => st2
              | Rsp_at p => add_Trace (EvFree p) (set_Heap (delete p (Heap st2)) st2)
              end).
  assert (H3 : Heap st3 = match InternalResponse c with
                          | InternalResponseBuf_addr => λ h, h
                          | Rsp_at p => delete p
                          end (Heap st2)).
  { unfold st3. now destruct (InternalResponse c). }
  assert (Hc3 : Heap st3 !! Context = Some (ObjContext c)).
  { rewrite H3. destruct (InternalResponse c) as [|p] eqn:E; [exact Hc2 |].
    destruct (Hrsp p eq_refl) as (Hd & _ & _). now rewrite lookup_delete_ne. }
  rewrite (bind_Done _ _ st2 tt st3).
  2:{ unfold st3. destruct (InternalResponse c) as [|p] eqn:E; [reflexivity |].
      destruct (Hrsp p eq_refl) as (_ & Hd & [o Ho]). unfold FuseFree.
      assert (Heap st2 !! p = Some o) as ->; [| reflexivity].
      rewrite H2. destruct (Z.eqb_spec (InternalRequest c) 0); [exact Ho |].
      now rewrite lookup_delete_ne. }
  (* the context itself *)
  unfold FuseFree at 1. rewrite Hc3.
  eexists. split; [reflexivity |]. split.
  { unfold same_device, st3, st2, st1.
    destruct (Fini c =? 0), (InternalRequest c =? 0), (InternalResponse c);
      now repeat split. }
  split.
  { simpl. now rewrite H3, H2. }
  simpl. unfold st3, st2, st1.
  destruct (Fini c =? 0), (InternalRequest c =? 0), (InternalResponse c);
    simpl; rewrite <- ?app_assoc; reflexivity.
Qed.

(** C7: destroying a real context returns, and what it does is, in this
    order: the finalize callback if one is set, the release of the internal
    request if there is one, the release of the internal response if it is
    not the embedded buffer, the release of the context.  Nothing is done
    twice, and what was released is no longer allocated. *)
Theorem FuseContextDelete_order st Context c :
  valid_context (Heap st) Context c →
  ∃ st' done,
    FuseContextDelete Context st = Done tt st' ∧
    Trace st' = Trace st ++ done ∧
    done =
      (if Fini c =? 0 then [] else [EvFini Context (Fini c)]) ++
      (if InternalRequest c =? 0 then [] else [EvFree (InternalRequest c)]) ++
      (match InternalResponse c with
       | InternalResponseBuf_addr => []
       | Rsp_at p => [EvFree p]
       end) ++
      [EvFree Context] ∧
    NoDup done ∧
    Heap st' !! Context = None ∧
    (InternalRequest c ≠ 0 → Heap st' !! InternalRequest c = None) ∧
    (∀ p, InternalResponse c = Rsp_at p → Heap st' !! p = None).
Proof.
  intros Hv. destruct (FuseContextDelete_runs st Context c Hv) as (st' & Erun & _ & Eh & Et).
  destruct Hv as (Hc & Hreq & Hrsp).
  exists st'. eexists. split; [exact Erun |]. split; [exact Et |].
  split; [reflexivity |]. split; [| split; [| split]].
  - destruct (Z.eqb_spec (InternalRequest c) 0) as [|Hne];
      destruct (InternalResponse c) as [|p] eqn:E; destruct (Fini c =? 0); simpl;
      try (destruct (Hreq Hne) as [? _]);
      try (destruct (Hrsp p eq_refl) as (? & ? & _));
      repeat (apply NoDup_cons; split; [apart |]); apply NoDup_nil_2.
  - rewrite Eh. apply lookup_delete_eq.
  - intros Hne. rewrite Eh. destruct (Hreq Hne) as [Hd _].
    rewrite lookup_delete_ne by congruence.
    destruct (Z.eqb_spec (InternalRequest c) 0); [contradiction |].
    destruct (InternalResponse c) as [|p] eqn:E.
    + apply lookup_delete_eq.
    + destruct (Hrsp p eq_refl) as (_ & Hd' & _).
      rewrite lookup_delete_ne by congruence. apply lookup_delete_eq.
  - intros p E. rewrite Eh, E. destruct (Hrsp p E) as (Hd & _ & _).
    rewrite lookup_delete_ne by congruence. apply lookup_delete_eq.
Qed.

(** ** The bridge, for any constants, dispatch table and surroundings *)

Section BridgeFacts.

Variables (RSP_HEADER_SIZE REQ_SIZEMIN RSP_SIZE : Z).
Variable table : list (option FUSE_PROCESS_DISPATCH).
Variable env : ENVIRONMENT.

Local Abbreviation Transact := (FuseDeviceTransact RSP_HEADER_SIZE REQ_SIZEMIN RSP_SIZE table env).
Local Abbreviation Create := (FuseContextCreate RSP_SIZE table env).
Local Abbreviation Process := (FuseContextProcess table).
Local Abbreviation Completion := (completion_phase table env).
Local Abbreviation Bootstrap := (bootstrap RSP_SIZE table env).
Local Abbreviation RequestPhase := (request_phase RSP_SIZE table env).
Local Abbreviation Forward := (ForwardInternalResponse env).

(** ** Parameter validation *)

(** C5: when an input region is present and the minimum response header
    size exceeds its length, or the declared [len] is below that minimum,
    or [len] exceeds the input length, the call returns
    [STATUS_INVALID_PARAMETER] and the whole state (memory, both sets of
    the queue, the exchange buffer, the trace) is as it was. *)
Theorem FuseDeviceTransact_rejects_bad_response Irp DeviceObject st :
  InputBufferLength Irp ≠ 0 →
  RSP_HEADER_SIZE > InputBufferLength Irp ∨
  rsp_len (Response st) < RSP_HEADER_SIZE ∨
  rsp_len (Response st) > InputBufferLength Irp →
  Transact Irp DeviceObject st = Done STATUS_INVALID_PARAMETER st.
Proof.
  intros Hin Hbad. unfold FuseDeviceTransact, bind, get, ret.
  destruct (Z.eqb_spec (InputBufferLength Irp) 0) as [|_]; [contradiction |].
  simpl negb. rewrite andb_true_l.
  replace ((RSP_HEADER_SIZE >? InputBufferLength Irp)
           || (RSP_HEADER_SIZE >? rsp_len (Response st))
           || (rsp_len (Response st) >? InputBufferLength Irp)) with true; [reflexivity |].
  symmetry. rewrite !orb_true_iff, !Z.gtb_gt. lia.
Qed.

(** ** Context creation *)

Lemma dispatch_slot_in_range Kind st :
  0 ≤ Kind < Z.of_nat (length table) →
  ∃ slot, table !! Z.to_nat Kind = Some slot ∧
          dispatch_slot table Kind st = Done slot st.
Proof.
  intros HK. unfold dispatch_slot.
  destruct (Z.ltb_spec Kind 0); [lia |].
  destruct (table !! Z.to_nat Kind) as [slot|] eqn:E; [now exists slot |].
  apply lookup_ge_None in E. lia.
Qed.

(** C9: context creation returns, and what it returns is not a null
    pointer, whether it is called with a null internal request or with a
    request of a kind of the table, with the slot set or unset, and
    whether or not the allocation succeeds.  The result is an encoded
    status (with the state untouched) or the address that the allocator
    gave, now holding the new context. *)
Theorem FuseContextCreate_not_null DeviceObject InternalRequest0 st :
  (0 < length table)%nat →
  (InternalRequest0 = 0 ∨
   InternalRequest0 ≠ 0 ∧
   ∃ r, Heap st !! InternalRequest0 = Some (ObjRequest r) ∧
        0 ≤ Req_Kind r < Z.of_nat (length table)) →
  ∃ Context st',
    Create DeviceObject InternalRequest0 st = Done Context st' ∧
    Context ≠ 0 ∧
    ((FuseContextIsStatus Context = true ∧ st' = st ∧
      (Context = FuseContextStatus STATUS_INVALID_DEVICE_REQUEST ∨
       Context = FuseContextStatus STATUS_INSUFFICIENT_RESOURCES)) ∨
     (Context = FuseAlloc env ∧
      ∃ c, Heap st' !! Context = Some (ObjContext c) ∧
           InternalRequest c = InternalRequest0)).
Proof.
  intros Hlen Hreq. unfold FuseContextCreate.
  assert (∃ req,
    (if InternalRequest0 =? 0 then ret None
     else r <- load_request InternalRequest0 ;; ret (Some r)) st = Done req st ∧
    0 ≤ match req with
        | None => FspFsctlTransactReservedKind
        | Some r => Req_Kind r
        end < Z.of_nat (length table)) as (req & Eload & HK).
  { destruct Hreq as [-> | (Hne & r & Hr & HK)].
    - exists None. split; [reflexivity |].
      unfold FspFsctlTransactReservedKind. lia.
    - exists (Some r). split; [| exact HK].
      destruct (Z.eqb_spec InternalRequest0 0); [contradiction |].
      unfold bind, load_request. now rewrite Hr. }
  rewrite (bind_Done _ _ _ _ _ Eload). cbv zeta.
  destruct (dispatch_slot_in_range _ st HK) as (slot & _ & Eslot).
  rewrite (bind_Done _ _ _ _ _ Eslot).
  destruct slot as [handler|].
  - destruct (Z.eqb_spec (FuseAlloc env) 0) as [E0|Hne].
    + eexists _, _. split; [reflexivity |]. split; [discriminate |].
      left. repeat split. now right.
    + eexists _, _. split; [reflexivity |]. split; [exact Hne |].
      right. split; [reflexivity |]. eexists. split.
      * simpl. apply lookup_insert_eq.
      * reflexivity.
  - eexists _, _. split; [reflexivity |]. split; [discriminate |].
    left. repeat split. now left.
Qed.


(** ** The call after validation *)

Lemma FuseDeviceTransact_unfold Irp DeviceObject st :
  Transact Irp DeviceObject st =
  (if negb (InputBufferLength Irp =? 0) &&
      ((RSP_HEADER_SIZE >? InputBufferLength Irp) ||
       (RSP_HEADER_SIZE >? rsp_len (Response st)) ||
       (rsp_len (Response st) >? InputBufferLength Irp))
   then ret STATUS_INVALID_PARAMETER
   else if negb (OutputBufferLength Irp =? 0) &&
           (REQ_SIZEMIN >? OutputBufferLength Irp)
   then ret STATUS_BUFFER_TOO_SMALL
   else
     completed <- Completion (negb (InputBufferLength Irp =? 0)) ;;
     match completed with
     | Some Result => exit_label Result 0
     | None =>
         at_exit <- RequestPhase (negb (OutputBufferLength Irp =? 0)) DeviceObject ;;
         exit_label (fst at_exit) (snd at_exit)
     end) st.
Proof. reflexivity. Qed.

Lemma FuseDeviceTransact_valid Irp DeviceObject st :
  (InputBufferLength Irp = 0 ∨
   RSP_HEADER_SIZE ≤ rsp_len (Response st) ≤ InputBufferLength Irp) →
  (OutputBufferLength Irp = 0 ∨ REQ_SIZEMIN ≤ OutputBufferLength Irp) →
  Transact Irp DeviceObject st =
  (completed <- Completion (negb (InputBufferLength Irp =? 0)) ;;
   match completed with
   | Some Result => exit_label Result 0
   | None =>
       at_exit <- RequestPhase (negb (OutputBufferLength Irp =? 0)) DeviceObject ;;
       exit_label (fst at_exit) (snd at_exit)
   end) st.
Proof.
  intros Hin Hout. unfold FuseDeviceTransact.
  unfold bind at 1, get at 1.
  replace (negb (InputBufferLength Irp =? 0) && _) with false.
  2:{ symmetry. destruct Hin as [-> | Hin]; [reflexivity |].
      apply andb_false_iff. right. rewrite !orb_false_iff.
      repeat split; rewrite Z.gtb_ltb; apply Z.ltb_ge; lia. }
  replace (negb (OutputBufferLength Irp =? 0) && _) with false; [reflexivity |].
  symmetry. destruct Hout as [-> | Hout]; [reflexivity |].
  apply andb_false_iff. right. rewrite Z.gtb_ltb. apply Z.ltb_ge. lia.
Qed.

(** ** The completion phase *)


(** ** The negotiation gate *)

(** A [goto exit] out of the bootstrap path that has no internal request
    in hand ends the call with its result. *)
Lemma bootstrap_exit_returns Irp DeviceObject st st1 Result st2 :
  (InputBufferLength Irp = 0 ∨
   RSP_HEADER_SIZE ≤ rsp_len (Response st) ≤ InputBufferLength Irp) →
  OutputBufferLength Irp ≠ 0 →
  REQ_SIZEMIN ≤ OutputBufferLength Irp →
  Completion (negb (InputBufferLength Irp =? 0)) st = Done None st1 →
  PendingList (Ioq st1) = [] →
  Bootstrap DeviceObject (set_Request (zero_REQ_header (Request st1)) st1)
    = Done (Goto_exit Result 0) st2 →
  Transact Irp DeviceObject st = Done Result st2.
Proof.
  intros Hin Hnz Hout Hcompl Hpend Hboot.
  rewrite FuseDeviceTransact_valid by (auto; right; lia).
  rewrite (bind_Done _ _ _ _ _ Hcompl).
  destruct (Z.eqb_spec (OutputBufferLength Irp) 0); [contradiction |].
  simpl negb. unfold request_phase.
  unfold bind at 1. unfold bind at 1. unfold modify at 1.
  unfold bind at 1. unfold FuseIoqNextPending at 1.
  replace (PendingList (Ioq (set_Request (zero_REQ_header (Request st1)) st1)))
    with (@nil Z) by (symmetry; exact Hpend).
  simpl (0 =? 0). cbv iota.
  rewrite (bind_Done _ _ _ _ _ Hboot). reflexivity.
Qed.

(** C3: on the bootstrap path (nothing pending), a call that finds the
    failure sentinel in [VersionMajor] returns [STATUS_ACCESS_DENIED]
    without waiting and without fetching.  A call that finds 0 waits on the
    init gate; when the wait is cancelled or times out the call returns
    [STATUS_CANCELLED], which is a failure; when the wait succeeds the
    version is read again, so that a sentinel written meanwhile gives
    [STATUS_ACCESS_DENIED] before any fetch, and a negotiated version lets
    the call go on to fetch. *)
Theorem bootstrap_version_gate Irp DeviceObject st st1 :
  (InputBufferLength Irp = 0 ∨
   RSP_HEADER_SIZE ≤ rsp_len (Response st) ≤ InputBufferLength Irp) →
  OutputBufferLength Irp ≠ 0 →
  REQ_SIZEMIN ≤ OutputBufferLength Irp →
  Completion (negb (InputBufferLength Irp =? 0)) st = Done None st1 →
  PendingList (Ioq st1) = [] →
  let zeroed := set_Request (zero_REQ_header (Request st1)) st1 in
  let woken :=
    set_VersionMajor (snd (WaitInitEvent env)) (add_Trace EvWait zeroed) in
  (VersionMajor st1 = 0xFFFFFFFF →
     Transact Irp DeviceObject st = Done STATUS_ACCESS_DENIED zeroed) ∧
  (VersionMajor st1 = 0 →
     (fst (WaitInitEvent env) = STATUS_CANCELLED ∨
      fst (WaitInitEvent env) = STATUS_TIMEOUT ∨
      fst (WaitInitEvent env) = STATUS_THREAD_IS_TERMINATING →
        Transact Irp DeviceObject st = Done STATUS_CANCELLED woken ∧
        NT_SUCCESS STATUS_CANCELLED = false) ∧
     (fst (WaitInitEvent env) = STATUS_SUCCESS →
      snd (WaitInitEvent env) = 0xFFFFFFFF →
        Transact Irp DeviceObject st = Done STATUS_ACCESS_DENIED woken) ∧
     (fst (WaitInitEvent env) = STATUS_SUCCESS →
      snd (WaitInitEvent env) ≠ 0xFFFFFFFF →
      FetchInternalRequest env = (STATUS_SUCCESS, 0) →
        Transact Irp DeviceObject st =
        Done STATUS_SUCCESS (set_Information 0 (add_Trace EvFetch woken)))).
Proof.
  intros Hin Hnz Hout Hcompl Hpend zeroed woken.
  assert (Hexit : ∀ Result st2,
            Bootstrap DeviceObject zeroed = Done (Goto_exit Result 0) st2 →
            Transact Irp DeviceObject st = Done Result st2)
    by (intros; now apply (bootstrap_exit_returns Irp DeviceObject st st1)).
  split; [| intros Hzero; split; [| split]].
  - intros Hdenied. apply Hexit. unfold bootstrap.
    unfold bind at 1, get at 1. replace (VersionMajor zeroed) with 0xFFFFFFFF.
    reflexivity.
  - intros Hwait. split; [| reflexivity]. apply Hexit. unfold bootstrap.
    unfold bind at 1, get at 1. replace (VersionMajor zeroed) with 0.
    simpl (0 =? 0). unfold bind at 1. unfold bind at 1.
    unfold FsRtlCancellableWaitForSingleObject_InitEvent.
    unfold bind, emit, modify, ret. fold woken.
    destruct Hwait as [-> | [-> | ->]]; reflexivity.
  - intros Hwait Hsentinel. apply Hexit. unfold bootstrap.
    unfold bind at 1, get at 1. replace (VersionMajor zeroed) with 0.
    simpl (0 =? 0). unfold bind at 1. unfold bind at 1.
    unfold FsRtlCancellableWaitForSingleObject_InitEvent.
    unfold bind, emit, modify, ret, get. fold woken. rewrite Hwait.
    simpl. rewrite Hsentinel. reflexivity.
  - intros Hwait Hversion Hidle. apply Hexit. unfold bootstrap.
    unfold bind at 1, get at 1. replace (VersionMajor zeroed) with 0.
    simpl (0 =? 0). unfold bind at 1. unfold bind at 1.
    unfold FsRtlCancellableWaitForSingleObject_InitEvent,
      FuseSendTransactInternalIrp_Request.
    unfold bind, emit, modify, ret, get. fold woken. rewrite Hwait.
    simpl. destruct (Z.eqb_spec (snd (WaitInitEvent env)) 4294967295); [contradiction |].
    rewrite Hidle. reflexivity.
Qed.

(** ** A response that matches nothing *)

(** C6: a valid response whose [unique] matches no context of the
    processing set is no error and is ignored: the completion phase returns
    without failure and with the state, both sets of the queue included, as
    it was; the call then behaves as the same call made without a response,
    and when the request slot passes validation the request phase runs from
    that unchanged state. *)
Theorem unknown_unique_ignored Irp DeviceObject st :
  InputBufferLength Irp ≠ 0 →
  RSP_HEADER_SIZE ≤ rsp_len (Response st) ≤ InputBufferLength Irp →
  ProcessTable (Ioq st) !! rsp_unique (Response st) = None →
  Completion true st = Done None st ∧
  Transact Irp DeviceObject st =
    Transact {| InputBufferLength := 0;
                OutputBufferLength := OutputBufferLength Irp |} DeviceObject st ∧
  (OutputBufferLength Irp = 0 ∨ REQ_SIZEMIN ≤ OutputBufferLength Irp →
     Transact Irp DeviceObject st =
     (at_exit <- RequestPhase (negb (OutputBufferLength Irp =? 0)) DeviceObject ;;
      exit_label (fst at_exit) (snd at_exit)) st).
Proof.
  intros Hin Hlen Hmiss.
  assert (Ecompl : Completion true st = Done None st).
  { unfold completion_phase. unfold bind at 1, get at 1.
    unfold bind at 1, FuseIoqEndProcessing at 1. now rewrite Hmiss. }
  split; [exact Ecompl |]. split.
  - rewrite !FuseDeviceTransact_unfold.
    cbn [InputBufferLength OutputBufferLength].
    destruct (Z.eqb_spec (InputBufferLength Irp) 0); [contradiction |].
    change (negb (0 =? 0)) with false. change (negb false) with true.
    rewrite andb_false_l, andb_true_l.
    replace ((RSP_HEADER_SIZE >? InputBufferLength Irp)
             || (RSP_HEADER_SIZE >? rsp_len (Response st))
             || (rsp_len (Response st) >? InputBufferLength Irp)) with false.
    2:{ symmetry. rewrite !orb_false_iff.
        repeat split; rewrite Z.gtb_ltb; apply Z.ltb_ge; lia. }
    destruct (negb (OutputBufferLength Irp =? 0)
              && (REQ_SIZEMIN >? OutputBufferLength Irp)); [reflexivity |].
    now rewrite (bind_Done _ _ _ _ _ Ecompl).
  - intros Hout. rewrite FuseDeviceTransact_valid by (auto; right; exact Hlen).
    destruct (Z.eqb_spec (InputBufferLength Irp) 0); [contradiction |].
    simpl negb at 1. now rewrite (bind_Done _ _ _ _ _ Ecompl).
Qed.

(** ** The status-only context in the request phase *)

(** The request phase once nothing is pending: the header is zeroed and the
    bootstrap path decides. *)
Lemma request_phase_bootstrap DeviceObject st1 :
  PendingList (Ioq st1) = [] →
  RequestPhase true DeviceObject st1 =
  (obtained <- Bootstrap DeviceObject ;;
   match obtained with
   | Goto_exit Result InternalRequest0 => ret (Result, InternalRequest0)
   | Next (Context, InternalRequest0, Continue) =>
       routed <-
         (if Continue : bool then
            FuseIoqStartProcessing Context ;;; ret (Next tt)
          else
            c <- load_context Context ;;
            if InternalRequest c =? 0 then ret (Next tt)
            else
              Result <-
                (if FuseContextIsStatus Context then
                   q <- load_request InternalRequest0 ;;
                   FuseSendTransactInternalIrp_Response env
                     {| Rsp_Size := RSP_SIZE;
                        Rsp_Kind := Req_Kind q;
                        Rsp_Hint := Req_Hint q;
                        Rsp_IoStatus_Status := FuseContextToStatus Context;
                        Rsp_IoStatus_Information := 0 |}
                 else
                   r <- load_response Context ;;
                   Result <- FuseSendTransactInternalIrp_Response env r ;;
                   FuseContextDelete Context ;;;
                   ret Result) ;;
              if negb (NT_SUCCESS Result) then ret (Goto_exit Result InternalRequest0)
              else ret (Next tt)) ;;
       match routed with
       | Goto_exit Result InternalRequest1 => ret (Result, InternalRequest1)
       | Next _ =>
           req <- get Request ;;
           modify (set_Information (req_len req)) ;;;
           ret (STATUS_SUCCESS, InternalRequest0)
       end
   end) (set_Request (zero_REQ_header (Request st1)) st1).
Proof.
  intros Hpend. unfold request_phase.
  unfold bind at 1. unfold modify at 1.
  unfold bind at 1. unfold FuseIoqNextPending at 1.
  replace (PendingList (Ioq (set_Request (zero_REQ_header (Request st1)) st1)))
    with (@nil Z) by (symmetry; exact Hpend).
  reflexivity.
Qed.

(** X17: whenever the bootstrap path obtains a status-only context, for a kind
    whose slot is unset or after a failed allocation, the call stops at the
    read of [Context->InternalRequest] through the encoded status, right
    after the fetch: no address up to [0xFFFF] is ever allocated. *)
Lemma status_only_read_faults Irp DeviceObject st st1 p r :
  (InputBufferLength Irp = 0 ∨
   RSP_HEADER_SIZE ≤ rsp_len (Response st) ≤ InputBufferLength Irp) →
  OutputBufferLength Irp ≠ 0 →
  REQ_SIZEMIN ≤ OutputBufferLength Irp →
  Completion (negb (InputBufferLength Irp =? 0)) st = Done None st1 →
  PendingList (Ioq st1) = [] →
  VersionMajor st1 ≠ 0 →
  VersionMajor st1 ≠ 0xFFFFFFFF →
  FetchInternalRequest env = (STATUS_SUCCESS, p) →
  p ≠ 0 →
  Heap st1 !! p = Some (ObjRequest r) →
  0 ≤ Req_Kind r →
  (table !! Z.to_nat (Req_Kind r) = Some None ∨
   (∃ handler, table !! Z.to_nat (Req_Kind r) = Some (Some handler)) ∧
   FuseAlloc env = 0) →
  (∀ a, 0 ≤ a ≤ 0xFFFF → Heap st1 !! a = None) →
  ∃ Status,
    (Status = STATUS_INVALID_DEVICE_REQUEST ∨ Status = STATUS_INSUFFICIENT_RESOURCES) ∧
    Transact Irp DeviceObject st =
    Fault (BadPointer (FuseContextStatus Status))
      (add_Trace EvFetch (set_Request (zero_REQ_header (Request st1)) st1)).
Proof.
  intros Hin Hnz Hout Hcompl Hpend Hv0 Hv1 Hfetch Hp Hr HK Hslot Hlow.
  set (zeroed := set_Request (zero_REQ_header (Request st1)) st1).
  set (fetched := add_Trace EvFetch zeroed).
  assert (Hcreate : ∃ Status,
            (Status = STATUS_INVALID_DEVICE_REQUEST ∨
             Status = STATUS_INSUFFICIENT_RESOURCES) ∧
            Create DeviceObject p fetched = Done (FuseContextStatus Status) fetched).
  { unfold FuseContextCreate.
    destruct (Z.eqb_spec p 0); [contradiction |].
    assert (Eload : load_request p fetched = Done r fetched)
      by (unfold load_request; simpl; now rewrite Hr).
    unfold bind at 1. unfold bind at 1. rewrite Eload. unfold ret at 1.
    unfold bind at 1, dispatch_slot.
    destruct (Z.ltb_spec (Req_Kind r) 0); [lia |].
    destruct Hslot as [-> | [[handler ->] Halloc]].
    - exists STATUS_INVALID_DEVICE_REQUEST. split; [now left | reflexivity].
    - exists STATUS_INSUFFICIENT_RESOURCES. split; [now right |].
      unfold ret at 1. cbv zeta. now rewrite Halloc. }
  destruct Hcreate as (Status & HStatus & Ecreate). exists Status.
  split; [exact HStatus |].
  assert (Hsmall : 0 ≤ FuseContextStatus Status ≤ 0xFFFF)
    by (destruct HStatus as [-> | ->]; vm_compute; split; discriminate).
  assert (Eboot : Bootstrap DeviceObject zeroed =
                  Done (Next (FuseContextStatus Status, p, false)) fetched).
  { unfold bootstrap. unfold bind at 1, get at 1.
    destruct (Z.eqb_spec (VersionMajor zeroed) 0); [contradiction |].
    unfold bind at 1, ret at 1.
    destruct (Z.eqb_spec (VersionMajor zeroed) 4294967295); [contradiction |].
    unfold bind at 1. unfold FuseSendTransactInternalIrp_Request.
    unfold bind at 1, emit, modify, ret at 1. fold fetched.
    rewrite Hfetch. cbn [fst snd]. change (negb (NT_SUCCESS STATUS_SUCCESS)) with false.
    cbv iota. destruct (Z.eqb_spec p 0); [contradiction |].
    rewrite (bind_Done _ _ _ _ _ Ecreate).
    replace (FuseContextIsStatus (FuseContextStatus Status)) with true; [reflexivity |].
    destruct HStatus as [-> | ->]; reflexivity. }
  rewrite FuseDeviceTransact_valid by (auto; right; lia).
  rewrite (bind_Done _ _ _ _ _ Hcompl).
  destruct (Z.eqb_spec (OutputBufferLength Irp) 0); [contradiction |].
  simpl negb. unfold bind at 1. rewrite (request_phase_bootstrap _ _ Hpend).
  fold zeroed. rewrite (bind_Done _ _ _ _ _ Eboot).
  unfold bind at 1. unfold bind at 1. unfold load_context at 1.
  replace (Heap fetched !! FuseContextStatus Status) with (@None OBJECT); [reflexivity |].
  symmetry. apply (Hlow _ Hsmall).
Qed.

(** X18: the other half of the request phase's routing: a real context taken
    from the pending set whose handler answers "complete" and which has an
    internal request gets its own internal response forwarded and is then
    destroyed; the call returns the forwarding failure if there is one, and
    the length of the request otherwise. *)
Lemma request_phase_forwards_real_context Irp DeviceObject st st1 Context rest st2 c r :
  (InputBufferLength Irp = 0 ∨
   RSP_HEADER_SIZE ≤ rsp_len (Response st) ≤ InputBufferLength Irp) →
  OutputBufferLength Irp ≠ 0 →
  REQ_SIZEMIN ≤ OutputBufferLength Irp →
  Completion (negb (InputBufferLength Irp =? 0)) st = Done None st1 →
  PendingList (Ioq st1) = Context :: rest →
  Context ≠ 0 →
  FuseContextIsStatus Context = false →
  Process Context false true
    (set_Ioq {| PendingList := rest; ProcessTable := ProcessTable (Ioq st1) |}
       (set_Request (zero_REQ_header (Request st1)) st1)) = Done false st2 →
  valid_context (Heap st2) Context c →
  InternalRequest c ≠ 0 →
  response_of (Heap st2) c = Some r →
  ∃ st3 done,
    same_device st2 st3 ∧
    Heap st3 !! Context = None ∧
    Trace st3 = Trace st2 ++ EvForward r :: done ∧
    EvFree Context ∈ done ∧
    forallb (λ e, negb (is_forward e)) done = true ∧
    Transact Irp DeviceObject st =
      if NT_SUCCESS (Forward r)
      then Done STATUS_SUCCESS (set_Information (req_len (Request st3)) st3)
      else Done (Forward r) st3.
Proof.
  intros Hin Hnz Hout Hcompl Hpend Hctx Hreal Hproc Hv Hreq Hr.
  assert (Hc : Heap st2 !! Context = Some (ObjContext c)) by apply Hv.
  assert (Eresp : load_response Context st2 = Done r st2).
  { unfold load_response. rewrite (bind_Done _ _ st2 c st2)
      by (unfold load_context; now rewrite Hc).
    unfold response_of in Hr. destruct (InternalResponse c) as [|q].
    - now injection Hr as ->.
    - destruct (Heap st2 !! q) as [[| |r']|]; try discriminate.
      now injection Hr as ->. }
  set (st2' := add_Trace (EvForward r) st2).
  destruct (FuseContextDelete_runs st2' Context c Hv) as (st3 & Erun & Hsame & Eh & Et).
  exists st3. eexists.
  split; [exact Hsame |].
  split; [rewrite Eh; apply lookup_delete_eq |].
  split; [rewrite Et; simpl; rewrite <- app_assoc; reflexivity |].
  split; [rewrite !elem_of_app; right; right; right; apply elem_of_cons; now left |].
  split; [destruct (Fini c =? 0), (InternalRequest c =? 0), (InternalResponse c);
          reflexivity |].
  rewrite FuseDeviceTransact_valid by (auto; right; lia).
  rewrite (bind_Done _ _ _ _ _ Hcompl).
  destruct (Z.eqb_spec (OutputBufferLength Irp) 0); [contradiction |].
  simpl negb. unfold bind at 1. unfold request_phase.
  unfold bind at 1. unfold modify at 1.
  unfold bind at 1. unfold FuseIoqNextPending at 1.
  replace (PendingList (Ioq (set_Request (zero_REQ_header (Request st1)) st1)))
    with (Context :: rest) by (symmetry; exact Hpend).
  cbv iota. destruct (Z.eqb_spec Context 0); [contradiction |].
  unfold bind at 1. unfold bind at 1.
  change (Ioq (set_Request (zero_REQ_header (Request st1)) st1)) with (Ioq st1).
  rewrite Hproc. unfold ret at 1. cbv iota.
  unfold bind at 1. unfold bind at 1.
  replace (load_context Context st2) with (Done c st2)
    by (unfold load_context; now rewrite Hc).
  destruct (Z.eqb_spec (InternalRequest c) 0); [contradiction |].
  rewrite Hreal. unfold bind at 1. unfold bind at 1. rewrite Eresp.
  unfold bind at 1. unfold FuseSendTransactInternalIrp_Response at 1.
  unfold bind at 1, emit at 1, modify at 1. fold st2'. unfold ret at 1.
  unfold bind at 1. rewrite Erun. unfold ret at 1.
  destruct (NT_SUCCESS (Forward r)); reflexivity.
Qed.
End BridgeFacts.

(** * Runs *)

Import Sample.

Lemma FuseDeviceTransact_rejects_bad_response_witness :
  InputBufferLength {| InputBufferLength := 8; OutputBufferLength := 8192 |} ≠ 0 ∧
  Transact (surroundings STATUS_SUCCESS context_at)
    {| InputBufferLength := 8; OutputBufferLength := 8192 |} 1 processing_volume
  = Done STATUS_INVALID_PARAMETER processing_volume.
Proof.
  assert (H : InputBufferLength {| InputBufferLength := 8; OutputBufferLength := 8192 |} ≠ 0)
    by (simpl; lia).
  split; [exact H |].
  apply (FuseDeviceTransact_rejects_bad_response RSP_HEADER_SIZE REQ_SIZEMIN RSP_SIZE table
           (surroundings STATUS_SUCCESS context_at) _ 1 processing_volume H).
  left. unfold RSP_HEADER_SIZE. simpl. lia.
Defined.

Lemma FuseContextCreate_not_null_witness :
  ∃ Context st',
    FuseContextCreate RSP_SIZE table (surroundings STATUS_SUCCESS context_at)
      1 host_request_at (idle_volume FspFsctlTransactCreateKind) = Done Context st' ∧
    Context ≠ 0 ∧
    ((FuseContextIsStatus Context = true ∧
      st' = idle_volume FspFsctlTransactCreateKind ∧
      (Context = FuseContextStatus STATUS_INVALID_DEVICE_REQUEST ∨
       Context = FuseContextStatus STATUS_INSUFFICIENT_RESOURCES)) ∨
     (Context = FuseAlloc (surroundings STATUS_SUCCESS context_at) ∧
      ∃ c, Heap st' !! Context = Some (ObjContext c) ∧
           InternalRequest c = host_request_at)).
Proof.
  apply (FuseContextCreate_not_null RSP_SIZE table (surroundings STATUS_SUCCESS context_at)
           1 host_request_at (idle_volume FspFsctlTransactCreateKind)).
  - vm_compute. lia.
  - right. split; [vm_compute; discriminate |].
    exists {| Req_Kind := FspFsctlTransactCreateKind; Req_Hint := 77 |}.
    split; [vm_compute; reflexivity |].
    split; [vm_compute; discriminate | vm_compute; reflexivity].
Defined.

Lemma rich_context_valid : valid_context (Heap rich_volume) context_at rich_context.
Proof.
  split; [vm_compute; reflexivity |]. split.
  - intros _. split; [vm_compute; discriminate | vm_compute; eexists; reflexivity].
  - intros p E. injection E as <-.
    repeat split; [vm_compute; discriminate | vm_compute; discriminate |].
    vm_compute. eexists; reflexivity.
Defined.

Lemma FuseContextDelete_order_witness :
  ∃ st',
    FuseContextDelete context_at rich_volume = Done tt st' ∧
    Trace st' = [EvFini context_at 0x1000; EvFree host_request_at;
                 EvFree response_buffer_at; EvFree context_at].
Proof.
  destruct (FuseContextDelete_order rich_volume context_at rich_context rich_context_valid)
    as (st' & done & Erun & Etrace & Edone & _).
  exists st'. split; [exact Erun |]. rewrite Etrace, Edone. reflexivity.
Defined.



Lemma bootstrap_version_gate_witness :
  Transact (surroundings STATUS_SUCCESS context_at) poll 1
    (set_VersionMajor 0 (idle_volume FspFsctlTransactCreateKind))
  = Done STATUS_CANCELLED
      (set_VersionMajor 0
         (add_Trace EvWait
            (set_Request (zero_REQ_header stale_request)
               (set_VersionMajor 0 (idle_volume FspFsctlTransactCreateKind))))).
Proof.
  destruct (bootstrap_version_gate RSP_HEADER_SIZE REQ_SIZEMIN RSP_SIZE table
              (surroundings STATUS_SUCCESS context_at) poll 1
              (set_VersionMajor 0 (idle_volume FspFsctlTransactCreateKind))
              (set_VersionMajor 0 (idle_volume FspFsctlTransactCreateKind)))
    as [_ Hzero].
  - left. reflexivity.
  - vm_compute. discriminate.
  - vm_compute. discriminate.
  - vm_compute. reflexivity.
  - reflexivity.
  - destruct (Hzero eq_refl) as [Hcancel _].
    destruct (Hcancel (or_introl eq_refl)) as [Hcall _]. exact Hcall.
Defined.

Lemma unknown_unique_ignored_witness :
  completion_phase table (surroundings STATUS_SUCCESS context_at) true (stray_volume 7)
  = Done None (stray_volume 7).
Proof.
  destruct (unknown_unique_ignored RSP_HEADER_SIZE REQ_SIZEMIN RSP_SIZE table
              (surroundings STATUS_SUCCESS context_at) exchange 1 (stray_volume 7))
    as [Hcompl _].
  - vm_compute. discriminate.
  - vm_compute. split; discriminate.
  - vm_compute. reflexivity.
  - exact Hcompl.
Defined.

(** ** The status-only context, run *)

(** C2 at a failing input: the host framework hands out a request of the
    overwrite kind, whose slot is unset.  Context creation answers the encoded
    [STATUS_INVALID_DEVICE_REQUEST]; line 217 then reads
    [Context->InternalRequest] through that encoded value, which is no
    allocated address, and the call stops there: nothing has been
    synthesized or forwarded. *)
Theorem status_only_context_dereferenced :
  Transact (surroundings STATUS_SUCCESS context_at) poll 1
    (idle_volume FspFsctlTransactOverwriteKind)
  = Fault (BadPointer (FuseContextStatus STATUS_INVALID_DEVICE_REQUEST))
      (add_Trace EvFetch
         (set_Request (zero_REQ_header stale_request)
            (idle_volume FspFsctlTransactOverwriteKind))).
Proof. vm_compute. reflexivity. Qed.

(** C4 at two failing inputs, an unsupported kind and a failed allocation:
    context creation does answer a status-only context that carries the
    expected result code and leaves the state untouched, but the call then
    stops at the read of [Context->InternalRequest] through the encoded
    status, before anything is delivered to the host framework, and does not
    return. *)
Theorem status_only_failure_not_delivered :
  let env_ok := surroundings STATUS_SUCCESS context_at in
  let env_nomem := surroundings STATUS_SUCCESS 0 in
  let unsupported := idle_volume FspFsctlTransactOverwriteKind in
  let supported := idle_volume FspFsctlTransactCreateKind in
  (FuseContextCreate RSP_SIZE table env_ok 1 host_request_at unsupported
   = Done (FuseContextStatus STATUS_INVALID_DEVICE_REQUEST) unsupported ∧
   FuseContextToStatus (FuseContextStatus STATUS_INVALID_DEVICE_REQUEST)
   = STATUS_INVALID_DEVICE_REQUEST ∧
   ∃ st', Transact env_ok poll 1 unsupported
          = Fault (BadPointer (FuseContextStatus STATUS_INVALID_DEVICE_REQUEST)) st' ∧
          forallb (λ e, negb (is_forward e) && negb (is_dispatch e)) (Trace st') = true) ∧
  (FuseContextCreate RSP_SIZE table env_nomem 1 host_request_at supported
   = Done (FuseContextStatus STATUS_INSUFFICIENT_RESOURCES) supported ∧
   FuseContextToStatus (FuseContextStatus STATUS_INSUFFICIENT_RESOURCES)
   = STATUS_INSUFFICIENT_RESOURCES ∧
   ∃ st', Transact env_nomem poll 1 supported
          = Fault (BadPointer (FuseContextStatus STATUS_INSUFFICIENT_RESOURCES)) st' ∧
          forallb (λ e, negb (is_forward e) && negb (is_dispatch e)) (Trace st') = true).
Proof.
  cbv zeta. split.
  - split; [vm_compute; reflexivity |]. split; [vm_compute; reflexivity |].
    eexists. split; vm_compute; reflexivity.
  - split; [vm_compute; reflexivity |]. split; [vm_compute; reflexivity |].
    eexists. split; vm_compute; reflexivity.
Qed.

(** C10 at a failing input, a failed allocation on the bootstrap path: no
    handler has been dispatched, but the call does not get to report a
    length: it stops at the read of [Context->InternalRequest] through the
    encoded status with [Information] still holding what it held on entry
    (99 here, not 0), although the request header has been zeroed. *)
Theorem status_only_call_reports_nothing :
  ∃ st',
    Transact (surroundings STATUS_SUCCESS 0) poll 1
      (idle_volume FspFsctlTransactCreateKind)
    = Fault (BadPointer (FuseContextStatus STATUS_INSUFFICIENT_RESOURCES)) st' ∧
    forallb (λ e, negb (is_dispatch e)) (Trace st') = true ∧
    req_len (Request st') = 0 ∧
    Information st' = 99.
Proof. eexists. repeat split; vm_compute; reflexivity. Qed.

(** The general statement about status-only contexts applies to the sample
    volume. *)
Lemma status_only_read_faults_sample :
  ∃ Status,
    (Status = STATUS_INVALID_DEVICE_REQUEST ∨ Status = STATUS_INSUFFICIENT_RESOURCES) ∧
    Transact (surroundings STATUS_SUCCESS 0) poll 1 (idle_volume FspFsctlTransactCreateKind)
    = Fault (BadPointer (FuseContextStatus Status))
        (add_Trace EvFetch
           (set_Request (zero_REQ_header stale_request)
              (idle_volume FspFsctlTransactCreateKind))).
Proof.
  apply (status_only_read_faults RSP_HEADER_SIZE REQ_SIZEMIN RSP_SIZE table
           (surroundings STATUS_SUCCESS 0) poll 1
           (idle_volume FspFsctlTransactCreateKind)
           (idle_volume FspFsctlTransactCreateKind)
           host_request_at
           {| Req_Kind := FspFsctlTransactCreateKind; Req_Hint := 77 |}).
  - left. reflexivity.
  - vm_compute. discriminate.
  - vm_compute. discriminate.
  - reflexivity.
  - reflexivity.
  - vm_compute. discriminate.
  - vm_compute. discriminate.
  - reflexivity.
  - vm_compute. discriminate.
  - vm_compute. reflexivity.
  - vm_compute. discriminate.
  - right. split; [eexists; vm_compute; reflexivity | reflexivity].
  - intros a Ha. apply lookup_singleton_ne. unfold host_request_at. lia.
Defined.

Lemma resumed_context_valid :
  valid_context (Heap resumed) context_at (context_in resumed context_at).
Proof.
  split; [vm_compute; reflexivity |]. split.
  - intros _. split; [vm_compute; discriminate | vm_compute; eexists; reflexivity].
  - intros p E. vm_compute in E. discriminate E.
Qed.

(** The routing of a real context applies to the sample volume: the pending
    context is forwarded and destroyed, and a failed forwarding is what the
    call returns. *)
Lemma request_phase_forwards_real_context_sample :
  ∃ st3,
    FuseDeviceTransact RSP_HEADER_SIZE REQ_SIZEMIN RSP_SIZE quick_table
      (surroundings STATUS_INSUFFICIENT_RESOURCES 0) poll 1 pending_volume
    = Done STATUS_INSUFFICIENT_RESOURCES st3 ∧
    Heap st3 !! context_at = None.
Proof.
  destruct (request_phase_forwards_real_context RSP_HEADER_SIZE REQ_SIZEMIN RSP_SIZE
              quick_table (surroundings STATUS_INSUFFICIENT_RESOURCES 0) poll 1
              pending_volume pending_volume context_at [] resumed
              (context_in resumed context_at)
              (InternalResponseBuf (context_in resumed context_at)))
    as (st3 & done & _ & Hgone & _ & _ & _ & Hcall).
  - left. reflexivity.
  - vm_compute. discriminate.
  - vm_compute. discriminate.
  - reflexivity.
  - reflexivity.
  - vm_compute. discriminate.
  - reflexivity.
  - vm_compute. reflexivity.
  - exact resumed_context_valid.
  - vm_compute. discriminate.
  - reflexivity.
  - exists st3. split; [exact Hcall | exact Hgone].
Defined.

(** * More of the bridge *)

(** ** Inverting a run *)

Lemma bind_inv {A B} (m : M A) (k : A → M B) st b st2 :
  bind m k st = Done b st2 →
  ∃ a st1, m st = Done a st1 ∧ k a st1 = Done b st2.
Proof.
  unfold bind. destruct (m st) as [a st1 | f st1]; [| discriminate].
  intros H. now exists a, st1.
Qed.

Lemma bind_assoc {A B C} (m : M A) (f : A → M B) (g : B → M C) st :
  bind (bind m f) g st = bind m (fun a => bind (f a) g) st.
Proof. unfold bind. now destruct (m st). Qed.

Lemma bind_ret {A B} (a : A) (k : A → M B) st : bind (ret a) k st = k a st.
Proof. reflexivity. Qed.

Lemma bind_ext {A B} (m : M A) (k1 k2 : A → M B) st :
  (∀ a st', k1 a st' = k2 a st') → bind m k1 st = bind m k2 st.
Proof. intros H. unfold bind. destruct (m st); [apply H | reflexivity]. Qed.

Lemma load_context_inv p st c st' :
  load_context p st = Done c st' → st' = st ∧ Heap st !! p = Some (ObjContext c).
Proof.
  unfold load_context. destruct (Heap st !! p) as [[c'| |]|]; try discriminate.
  intros H. injection H as <- <-. now split.
Qed.

Lemma load_request_inv p st r st' :
  load_request p st = Done r st' → st' = st ∧ Heap st !! p = Some (ObjRequest r).
Proof.
  unfold load_request. destruct (Heap st !! p) as [[|r'|]|]; try discriminate.
  intros H. injection H as <- <-. now split.
Qed.

Section BridgeMore.

Variables (RSP_HEADER_SIZE REQ_SIZEMIN RSP_SIZE : Z).
Variable table : list (option FUSE_PROCESS_DISPATCH).
Variable env : ENVIRONMENT.

Local Abbreviation Transact := (FuseDeviceTransact RSP_HEADER_SIZE REQ_SIZEMIN RSP_SIZE table env).
Local Abbreviation Create := (FuseContextCreate RSP_SIZE table env).
Local Abbreviation Process := (FuseContextProcess table).
Local Abbreviation Completion := (completion_phase table env).
Local Abbreviation Bootstrap := (bootstrap RSP_SIZE table env).
Local Abbreviation RequestPhase := (request_phase RSP_SIZE table env).
Local Abbreviation Forward := (ForwardInternalResponse env).
Local Abbreviation valid_call := (FuseDeviceTransact_valid RSP_HEADER_SIZE REQ_SIZEMIN RSP_SIZE table env).

(** ** Validation of the request slot, and calls without one *)

(** X1: a request slot that is present but shorter than the minimum request
    size makes the call return [STATUS_BUFFER_TOO_SMALL], when the response,
    if there is one, has passed its own checks; the whole state is as it
    was, so that the response has not been looked up. *)
Theorem FuseDeviceTransact_rejects_small_output Irp DeviceObject st :
  (InputBufferLength Irp = 0 ∨
   RSP_HEADER_SIZE ≤ rsp_len (Response st) ≤ InputBufferLength Irp) →
  OutputBufferLength Irp ≠ 0 →
  OutputBufferLength Irp < REQ_SIZEMIN →
  Transact Irp DeviceObject st = Done STATUS_BUFFER_TOO_SMALL st.
Proof.
  intros Hin Hnz Hsmall.
  rewrite (FuseDeviceTransact_unfold RSP_HEADER_SIZE REQ_SIZEMIN RSP_SIZE table env).
  replace (negb (InputBufferLength Irp =? 0) && _) with false.
  2:{ symmetry. destruct Hin as [-> | Hin]; [reflexivity |].
      apply andb_false_iff. right. rewrite !orb_false_iff.
      repeat split; rewrite Z.gtb_ltb; apply Z.ltb_ge; lia. }
  destruct (Z.eqb_spec (OutputBufferLength Irp) 0); [contradiction |].
  replace (REQ_SIZEMIN >? OutputBufferLength Irp) with true; [reflexivity |].
  symmetry. apply Z.gtb_gt. lia.
Qed.

(** X2: a call without request slot reports zero bytes and success once its
    completion phase has gone through: the pending set is not consulted,
    nothing is fetched, and no request header is written.  Without a
    response either, the call changes nothing but the reported length. *)
Theorem FuseDeviceTransact_without_request_slot Irp DeviceObject st st1 :
  (InputBufferLength Irp = 0 ∨
   RSP_HEADER_SIZE ≤ rsp_len (Response st) ≤ InputBufferLength Irp) →
  OutputBufferLength Irp = 0 →
  Completion (negb (InputBufferLength Irp =? 0)) st = Done None st1 →
  Transact Irp DeviceObject st = Done STATUS_SUCCESS (set_Information 0 st1) ∧
  (InputBufferLength Irp = 0 → st1 = st).
Proof.
  intros Hin Hout Hcompl. split.
  - rewrite valid_call by (auto; now left).
    rewrite (bind_Done _ _ _ _ _ Hcompl). rewrite Hout. reflexivity.
  - intros E. rewrite E in Hcompl. simpl in Hcompl. now injection Hcompl as <-.
Qed.

(** ** The bootstrap path *)

(** The state when the bootstrap path is entered: the request header has
    been zeroed. *)
Lemma bootstrap_exit_call Irp DeviceObject st st1 Result InternalRequest0 st2 :
  (InputBufferLength Irp = 0 ∨
   RSP_HEADER_SIZE ≤ rsp_len (Response st) ≤ InputBufferLength Irp) →
  OutputBufferLength Irp ≠ 0 →
  REQ_SIZEMIN ≤ OutputBufferLength Irp →
  Completion (negb (InputBufferLength Irp =? 0)) st = Done None st1 →
  PendingList (Ioq st1) = [] →
  Bootstrap DeviceObject (set_Request (zero_REQ_header (Request st1)) st1)
    = Done (Goto_exit Result InternalRequest0) st2 →
  Transact Irp DeviceObject st = exit_label Result InternalRequest0 st2.
Proof.
  intros Hin Hnz Hout Hcompl Hpend Hboot.
  rewrite valid_call by (auto; right; lia).
  rewrite (bind_Done _ _ _ _ _ Hcompl).
  destruct (Z.eqb_spec (OutputBufferLength Irp) 0); [contradiction |].
  simpl negb. unfold bind at 1.
  rewrite (request_phase_bootstrap RSP_SIZE table env _ _ Hpend).
  rewrite (bind_Done _ _ _ _ _ Hboot). reflexivity.
Qed.

(** What the bootstrap path does up to the fetch, once a version has been
    negotiated. *)
Lemma bootstrap_fetches DeviceObject st :
  VersionMajor st ≠ 0 →
  VersionMajor st ≠ 0xFFFFFFFF →
  Bootstrap DeviceObject st =
  (let Result := fst (FetchInternalRequest env) in
   let InternalRequest0 := snd (FetchInternalRequest env) in
   if negb (NT_SUCCESS Result) then ret (Goto_exit Result InternalRequest0)
   else if InternalRequest0 =? 0 then
     modify (set_Information 0) ;;; ret (Goto_exit STATUS_SUCCESS InternalRequest0)
   else
     Context <- Create DeviceObject InternalRequest0 ;;
     if negb (FuseContextIsStatus Context) then
       Continue <- Process Context false true ;;
       ret (Next (Context, 0, Continue))
     else ret (Next (Context, InternalRequest0, false))) (add_Trace EvFetch st).
Proof.
  intros Hv0 Hv1. unfold bootstrap. unfold bind at 1, get at 1.
  destruct (Z.eqb_spec (VersionMajor st) 0); [contradiction |].
  unfold bind at 1, ret at 1.
  destruct (Z.eqb_spec (VersionMajor st) 4294967295); [contradiction |].
  reflexivity.
Qed.

(** X3: an idle poll.  With nothing pending, a version negotiated and a host
    framework that has no request to hand out (whatever success code the
    fetch returns), the call returns [STATUS_SUCCESS] and reports zero
    bytes; it has fetched once and has neither created nor dispatched nor
    forwarded anything. *)
Theorem FuseDeviceTransact_idle_poll Irp DeviceObject st st1 :
  (InputBufferLength Irp = 0 ∨
   RSP_HEADER_SIZE ≤ rsp_len (Response st) ≤ InputBufferLength Irp) →
  OutputBufferLength Irp ≠ 0 →
  REQ_SIZEMIN ≤ OutputBufferLength Irp →
  Completion (negb (InputBufferLength Irp =? 0)) st = Done None st1 →
  PendingList (Ioq st1) = [] →
  VersionMajor st1 ≠ 0 →
  VersionMajor st1 ≠ 0xFFFFFFFF →
  NT_SUCCESS (fst (FetchInternalRequest env)) = true →
  snd (FetchInternalRequest env) = 0 →
  Transact Irp DeviceObject st =
  Done STATUS_SUCCESS
    (set_Information 0
       (add_Trace EvFetch (set_Request (zero_REQ_header (Request st1)) st1))).
Proof.
  intros Hin Hnz Hout Hcompl Hpend Hv0 Hv1 Hok Hnone.
  rewrite (bootstrap_exit_call Irp DeviceObject st st1 STATUS_SUCCESS 0
             (set_Information 0
                (add_Trace EvFetch (set_Request (zero_REQ_header (Request st1)) st1))));
    auto.
  rewrite bootstrap_fetches by assumption.
  cbv zeta. rewrite Hok, Hnone. reflexivity.
Qed.

(** X4: a failed fetch.  With nothing pending and a version negotiated, a
    fetch that fails makes the call return that failure; no context is
    created and nothing is dispatched or forwarded.  A request that the
    failed fetch has nevertheless left behind is released on the way out. *)
Theorem FuseDeviceTransact_fetch_fails Irp DeviceObject st st1 :
  (InputBufferLength Irp = 0 ∨
   RSP_HEADER_SIZE ≤ rsp_len (Response st) ≤ InputBufferLength Irp) →
  OutputBufferLength Irp ≠ 0 →
  REQ_SIZEMIN ≤ OutputBufferLength Irp →
  Completion (negb (InputBufferLength Irp =? 0)) st = Done None st1 →
  PendingList (Ioq st1) = [] →
  VersionMajor st1 ≠ 0 →
  VersionMajor st1 ≠ 0xFFFFFFFF →
  NT_SUCCESS (fst (FetchInternalRequest env)) = false →
  let Result := fst (FetchInternalRequest env) in
  let left_behind := snd (FetchInternalRequest env) in
  let fetched := add_Trace EvFetch (set_Request (zero_REQ_header (Request st1)) st1) in
  (left_behind = 0 → Transact Irp DeviceObject st = Done Result fetched) ∧
  (left_behind ≠ 0 → is_Some (Heap st1 !! left_behind) →
     Transact Irp DeviceObject st =
     Done Result
       (add_Trace (EvFree left_behind)
          (set_Heap (delete left_behind (Heap st1)) fetched))).
Proof.
  intros Hin Hnz Hout Hcompl Hpend Hv0 Hv1 Hfail Result left_behind fetched.
  assert (Hcall : Transact Irp DeviceObject st = exit_label Result left_behind fetched).
  { apply (bootstrap_exit_call Irp DeviceObject st st1); auto.
    rewrite bootstrap_fetches by assumption.
    cbv zeta. rewrite Hfail. reflexivity. }
  rewrite Hcall. split.
  - intros ->. reflexivity.
  - intros Hne [o Ho]. unfold exit_label.
    destruct (Z.eqb_spec left_behind 0); [contradiction |].
    unfold bind, FuseFree. simpl. rewrite Ho. reflexivity.
Qed.

(** ** Dispatch *)

(** A dispatch that returns has called the handler of the context's kind on
    memory in which the context points at the buffer it was given, and has
    changed memory and the request slot as the handler said, nothing else. *)
Lemma FuseContextProcess_inv Context FuseResponse0 FuseRequest0 st Continue st' :
  Process Context FuseResponse0 FuseRequest0 st = Done Continue st' →
  ∃ c Kind handler,
    Heap st !! Context = Some (ObjContext c) ∧
    (InternalRequest c = 0 ∧ Kind = FspFsctlTransactReservedKind ∨
     InternalRequest c ≠ 0 ∧
     ∃ r, Heap st !! InternalRequest c = Some (ObjRequest r) ∧ Kind = Req_Kind r) ∧
    0 ≤ Kind ∧
    table !! Z.to_nat Kind = Some (Some handler) ∧
    let entered :=
      <[Context := ObjContext
          {| DeviceObject := DeviceObject c;
             InternalRequest := InternalRequest c;
             InternalResponse := InternalResponse c;
             InternalResponseBuf := InternalResponseBuf c;
             Fini := Fini c;
             FuseRequest := FuseRequest0;
             FuseResponse := FuseResponse0 |}]> (Heap st) in
    let answer := handler Context entered (Response st) (Request st) in
    Continue = answer.1.1 ∧
    st' = add_Trace (EvDispatch Context Kind)
            (set_Request answer.2 (set_Heap answer.1.2 (set_Heap entered st))).
Proof.
  unfold FuseContextProcess. intros H.
  apply bind_inv in H as (c & st1 & Hc & H).
  apply load_context_inv in Hc as [-> Hc].
  apply bind_inv in H as (Kind & st1 & HK & H).
  assert (st1 = st ∧
          (InternalRequest c = 0 ∧ Kind = FspFsctlTransactReservedKind ∨
           InternalRequest c ≠ 0 ∧
           ∃ r, Heap st !! InternalRequest c = Some (ObjRequest r) ∧ Kind = Req_Kind r))
    as [-> HKind].
  { destruct (Z.eqb_spec (InternalRequest c) 0) as [E0 | Hne].
    - injection HK as <- <-. split; [reflexivity | now left].
    - apply bind_inv in HK as (r & st2 & Hr & HK).
      apply load_request_inv in Hr as [-> Hr]. injection HK as <- <-.
      split; [reflexivity |]. right. split; [exact Hne |]. now exists r. }
  apply bind_inv in H as ([] & st1 & Hstore & H).
  injection Hstore as <-.
  apply bind_inv in H as (slot & st1 & Hslot & H).
  unfold dispatch_slot in Hslot.
  destruct (Z.ltb_spec Kind 0); [discriminate |].
  destruct (table !! Z.to_nat Kind) as [slot'|] eqn:Etable; [| discriminate].
  injection Hslot as <- <-.
  destruct slot' as [handler|]; [| discriminate].
  exists c, Kind, handler. split; [exact Hc |]. split; [exact HKind |].
  split; [lia |]. split; [exact Etable |]. cbv zeta.
  cbn [Heap Response Request set_Heap] in H.
  destruct (handler Context _ (Response st) (Request st)) as [[Continue' heap'] req'] eqn:E.
  injection H as <- <-. cbn [fst snd]. split; reflexivity.
Qed.

Lemma FuseContextProcess_keeps Context FuseResponse0 FuseRequest0 st Continue st' :
  Process Context FuseResponse0 FuseRequest0 st = Done Continue st' →
  Ioq st' = Ioq st ∧ VersionMajor st' = VersionMajor st ∧
  Response st' = Response st ∧ Information st' = Information st ∧
  ∃ Kind, Trace st' = Trace st ++ [EvDispatch Context Kind].
Proof.
  intros H. apply FuseContextProcess_inv in H
    as (c & Kind & handler & _ & _ & _ & _ & _ & ->).
  repeat split. now exists Kind.
Qed.

(** ** The pending path of the request phase *)

(** The request phase when a context is pending: the header is zeroed, the
    oldest pending context leaves the pending set and is dispatched against
    the request slot. *)
Lemma request_phase_pending DeviceObject st1 Context rest :
  PendingList (Ioq st1) = Context :: rest →
  Context ≠ 0 →
  RequestPhase true DeviceObject st1 =
  (Continue <- Process Context false true ;;
   routed <-
     (if Continue : bool then
        FuseIoqStartProcessing Context ;;; ret (Next tt)
      else
        c <- load_context Context ;;
        if InternalRequest c =? 0 then ret (Next tt)
        else
          Result <-
            (if FuseContextIsStatus Context then
               q <- load_request 0 ;;
               FuseSendTransactInternalIrp_Response env
                 {| Rsp_Size := RSP_SIZE;
                    Rsp_Kind := Req_Kind q;
                    Rsp_Hint := Req_Hint q;
                    Rsp_IoStatus_Status := FuseContextToStatus Context;
                    Rsp_IoStatus_Information := 0 |}
             else
               r <- load_response Context ;;
               Result <- FuseSendTransactInternalIrp_Response env r ;;
               FuseContextDelete Context ;;;
               ret Result) ;;
          if negb (NT_SUCCESS Result) then ret (Goto_exit Result 0)
          else ret (Next tt)) ;;
   match routed with
   | Goto_exit Result InternalRequest1 => ret (Result, InternalRequest1)
   | Next _ =>
       req <- get Request ;;
       modify (set_Information (req_len req)) ;;;
       ret (STATUS_SUCCESS, 0)
   end)
    (set_Ioq {| PendingList := rest; ProcessTable := ProcessTable (Ioq st1) |}
       (set_Request (zero_REQ_header (Request st1)) st1)).
Proof.
  intros Hpend Hctx. unfold request_phase.
  unfold bind at 1. unfold modify at 1.
  unfold bind at 1. unfold FuseIoqNextPending at 1.
  replace (PendingList (Ioq (set_Request (zero_REQ_header (Request st1)) st1)))
    with (Context :: rest) by (symmetry; exact Hpend).
  cbv iota. destruct (Z.eqb_spec Context 0); [contradiction |].
  change (Ioq (set_Request (zero_REQ_header (Request st1)) st1)) with (Ioq st1).
  rewrite bind_assoc. apply bind_ext. intros Continue st2. reflexivity.
Qed.

(** The call when a context is pending after the completion phase. *)
Lemma pending_call Irp DeviceObject st st1 Context rest Continue st2 :
  (InputBufferLength Irp = 0 ∨
   RSP_HEADER_SIZE ≤ rsp_len (Response st) ≤ InputBufferLength Irp) →
  OutputBufferLength Irp ≠ 0 →
  REQ_SIZEMIN ≤ OutputBufferLength Irp →
  Completion (negb (InputBufferLength Irp =? 0)) st = Done None st1 →
  PendingList (Ioq st1) = Context :: rest →
  Context ≠ 0 →
  Process Context false true
    (set_Ioq {| PendingList := rest; ProcessTable := ProcessTable (Ioq st1) |}
       (set_Request (zero_REQ_header (Request st1)) st1)) = Done Continue st2 →
  (Continue = true →
     Transact Irp DeviceObject st =
     Done STATUS_SUCCESS
       (set_Information (req_len (Request st2))
          (final_state (FuseIoqStartProcessing Context st2)))) ∧
  (Continue = false →
     ∀ c, Heap st2 !! Context = Some (ObjContext c) →
          InternalRequest c = 0 →
     Transact Irp DeviceObject st =
     Done STATUS_SUCCESS (set_Information (req_len (Request st2)) st2)).
Proof.
  intros Hin Hnz Hout Hcompl Hpend Hctx Hproc.
  assert (Ecall : Transact Irp DeviceObject st =
                  (at_exit <- RequestPhase true DeviceObject ;;
                   exit_label (fst at_exit) (snd at_exit)) st1).
  { rewrite valid_call by (auto; right; lia).
    rewrite (bind_Done _ _ _ _ _ Hcompl).
    now destruct (Z.eqb_spec (OutputBufferLength Irp) 0). }
  rewrite Ecall. split.
  - intros ->. unfold bind at 1.
    rewrite (request_phase_pending _ _ _ _ Hpend Hctx).
    rewrite (bind_Done _ _ _ _ _ Hproc). reflexivity.
  - intros -> c Hc E0. unfold bind at 1.
    rewrite (request_phase_pending _ _ _ _ Hpend Hctx).
    rewrite (bind_Done _ _ _ _ _ Hproc). cbv beta iota. rewrite bind_assoc.
    rewrite (bind_Done _ _ st2 c st2) by (unfold load_context; now rewrite Hc).
    rewrite E0. reflexivity.
Qed.

(** X5: a pending context whose handler asks for another round trip.  The
    call takes the oldest pending context, dispatches it against the zeroed
    request slot and, on [Continue], moves it into the processing set under
    an id that no context being processed has; it reports the length that
    the handler wrote, and after the dispatch it neither forwards nor frees
    nor fetches anything. *)
Theorem request_phase_starts_processing Irp DeviceObject st st1 Context rest st2 :
  (InputBufferLength Irp = 0 ∨
   RSP_HEADER_SIZE ≤ rsp_len (Response st) ≤ InputBufferLength Irp) →
  OutputBufferLength Irp ≠ 0 →
  REQ_SIZEMIN ≤ OutputBufferLength Irp →
  Completion (negb (InputBufferLength Irp =? 0)) st = Done None st1 →
  PendingList (Ioq st1) = Context :: rest →
  Context ≠ 0 →
  Process Context false true
    (set_Ioq {| PendingList := rest; ProcessTable := ProcessTable (Ioq st1) |}
       (set_Request (zero_REQ_header (Request st1)) st1)) = Done true st2 →
  ∃ id st3 Kind,
    Transact Irp DeviceObject st = Done STATUS_SUCCESS st3 ∧
    ProcessTable (Ioq st1) !! id = None ∧
    ProcessTable (Ioq st3) = <[id := Context]> (ProcessTable (Ioq st1)) ∧
    PendingList (Ioq st3) = rest ∧
    Information st3 = req_len (Request st2) ∧
    Request st3 = Request st2 ∧
    Heap st3 = Heap st2 ∧
    Trace st3 = Trace st1 ++ [EvDispatch Context Kind].
Proof.
  intros Hin Hnz Hout Hcompl Hpend Hctx Hproc.
  destruct (pending_call Irp DeviceObject st st1 Context rest true st2
              Hin Hnz Hout Hcompl Hpend Hctx Hproc) as [Hcall _].
  destruct (FuseContextProcess_keeps _ _ _ _ _ _ Hproc) as (HIoq & _ & _ & _ & Kind & HTrace).
  exists (fresh (dom (ProcessTable (Ioq st1)))). eexists. exists Kind.
  split; [exact (Hcall eq_refl) |].
  split; [apply not_elem_of_dom, is_fresh |].
  simpl. rewrite HIoq. simpl. repeat split. exact HTrace.
Qed.

(** X7: a pending context without internal request whose handler completes.
    Unlike the completion phase, the request phase leaves such a context
    alone: the call succeeds and reports the request length, and the context
    is still allocated but is in neither set of the queue any more; nothing
    has been forwarded, finalized or freed. *)
Theorem request_phase_ignores_completed_context Irp DeviceObject st st1 Context rest st2 c :
  (InputBufferLength Irp = 0 ∨
   RSP_HEADER_SIZE ≤ rsp_len (Response st) ≤ InputBufferLength Irp) →
  OutputBufferLength Irp ≠ 0 →
  REQ_SIZEMIN ≤ OutputBufferLength Irp →
  Completion (negb (InputBufferLength Irp =? 0)) st = Done None st1 →
  PendingList (Ioq st1) = Context :: rest →
  Context ≠ 0 →
  Process Context false true
    (set_Ioq {| PendingList := rest; ProcessTable := ProcessTable (Ioq st1) |}
       (set_Request (zero_REQ_header (Request st1)) st1)) = Done false st2 →
  Heap st2 !! Context = Some (ObjContext c) →
  InternalRequest c = 0 →
  ∃ st3 Kind,
    Transact Irp DeviceObject st = Done STATUS_SUCCESS st3 ∧
    Heap st3 !! Context = Some (ObjContext c) ∧
    PendingList (Ioq st3) = rest ∧
    ProcessTable (Ioq st3) = ProcessTable (Ioq st1) ∧
    Information st3 = req_len (Request st2) ∧
    Trace st3 = Trace st1 ++ [EvDispatch Context Kind].
Proof.
  intros Hin Hnz Hout Hcompl Hpend Hctx Hproc Hc E0.
  destruct (pending_call Irp DeviceObject st st1 Context rest false st2
              Hin Hnz Hout Hcompl Hpend Hctx Hproc) as [_ Hcall].
  destruct (FuseContextProcess_keeps _ _ _ _ _ _ Hproc) as (HIoq & _ & _ & _ & Kind & HTrace).
  eexists. exists Kind.
  split; [exact (Hcall eq_refl c Hc E0) |].
  simpl. rewrite HIoq. simpl. repeat split; assumption.
Qed.

(** X6: a round trip that goes on within one call.  When nothing else is
    pending and the handler of the matched context answers [Continue] in
    the completion phase, the request phase of the same call takes that very
    context from the pending set and dispatches it again, now against the
    request slot, instead of fetching from the host framework; on a second
    [Continue] the context is back in the processing set. *)
Theorem reposted_context_dispatched_again Irp DeviceObject st Context st0 st1 st2 :
  InputBufferLength Irp ≠ 0 →
  RSP_HEADER_SIZE ≤ rsp_len (Response st) ≤ InputBufferLength Irp →
  OutputBufferLength Irp ≠ 0 →
  REQ_SIZEMIN ≤ OutputBufferLength Irp →
  PendingList (Ioq st) = [] →
  FuseIoqEndProcessing (rsp_unique (Response st)) st = Done Context st0 →
  Context ≠ 0 →
  Process Context true false st0 = Done true st1 →
  Process Context false true
    (set_Ioq {| PendingList := []; ProcessTable := ProcessTable (Ioq st1) |}
       (set_Request (zero_REQ_header (Request st1)) st1)) = Done true st2 →
  ∃ id st3 Kind1 Kind2,
    Transact Irp DeviceObject st = Done STATUS_SUCCESS st3 ∧
    ProcessTable (Ioq st3) !! id = Some Context ∧
    PendingList (Ioq st3) = [] ∧
    Information st3 = req_len (Request st2) ∧
    Trace st3 = Trace st ++ [EvDispatch Context Kind1; EvDispatch Context Kind2].
Proof.
  intros Hin Hlen Hnz Hout Hpend Hend Hctx Hproc1 Hproc2.
  destruct (FuseContextProcess_keeps _ _ _ _ _ _ Hproc1)
    as (HIoq1 & _ & _ & _ & Kind1 & HTrace1).
  assert (Hst0 : PendingList (Ioq st0) = [] ∧ Trace st0 = Trace st).
  { unfold FuseIoqEndProcessing in Hend.
    destruct (ProcessTable (Ioq st) !! rsp_unique (Response st));
      injection Hend as <- <-; now split. }
  destruct Hst0 as [Hpend0 HTrace0].
  set (posted := set_Ioq {| PendingList := PendingList (Ioq st1) ++ [Context];
                            ProcessTable := ProcessTable (Ioq st1) |} st1).
  assert (Hcompl : Completion (negb (InputBufferLength Irp =? 0)) st = Done None posted).
  { destruct (Z.eqb_spec (InputBufferLength Irp) 0); [contradiction |].
    simpl negb. unfold completion_phase. unfold bind at 1, get at 1.
    rewrite (bind_Done _ _ _ _ _ Hend).
    destruct (Z.eqb_spec Context 0); [contradiction |].
    rewrite (bind_Done _ _ _ _ _ Hproc1). reflexivity. }
  assert (Hposted : PendingList (Ioq posted) = Context :: []).
  { simpl. rewrite HIoq1, Hpend0. reflexivity. }
  destruct (pending_call Irp DeviceObject st posted Context [] true st2)
    as [Hcall _]; auto.
  destruct (FuseContextProcess_keeps _ _ _ _ _ _ Hproc2)
    as (HIoq2 & _ & _ & _ & Kind2 & HTrace2).
  exists (fresh (dom (ProcessTable (Ioq st1)))). eexists. exists Kind1, Kind2.
  split; [exact (Hcall eq_refl) |].
  simpl. rewrite HIoq2. simpl.
  split; [apply lookup_insert_eq |].
  split; [reflexivity |]. split; [reflexivity |].
  rewrite HTrace2. simpl. rewrite HTrace1, HTrace0, <- app_assoc. reflexivity.
Qed.

(** ** Creation, dispatch and destruction together *)

(** Context creation when the kind has a handler and the allocation
    succeeds: the new context is stored at the address the allocator gave,
    and nothing else changes. *)
Lemma FuseContextCreate_real DeviceObject0 InternalRequest0 st Kind Hint
    (handler : FUSE_PROCESS_DISPATCH) :
  request_kind (Heap st) InternalRequest0 = Some (Kind, Hint) →
  0 ≤ Kind →
  table !! Z.to_nat Kind = Some (Some handler) →
  FuseAlloc env ≠ 0 →
  Create DeviceObject0 InternalRequest0 st =
  Done (FuseAlloc env)
    (set_Heap
       (<[FuseAlloc env :=
            ObjContext (created_context RSP_SIZE DeviceObject0 InternalRequest0 Kind Hint)]>
          (Heap st)) st).
Proof.
  intros Hreq HK Hslot Halloc. unfold FuseContextCreate, request_kind in *.
  assert (Eslot : ∀ st0, dispatch_slot table Kind st0 = Done (Some handler) st0).
  { intros st0. unfold dispatch_slot. destruct (Z.ltb_spec Kind 0); [lia |].
    now rewrite Hslot. }
  destruct (Z.eqb_spec InternalRequest0 0) as [E0 | Hne].
  - injection Hreq as <- <-. unfold bind at 1, ret at 1. cbv zeta.
    rewrite (bind_Done _ _ _ _ _ (Eslot st)).
    destruct (Z.eqb_spec (FuseAlloc env) 0); [contradiction |]. reflexivity.
  - destruct (Heap st !! InternalRequest0) as [[|r|]|] eqn:Er; try discriminate.
    injection Hreq as <- <-.
    rewrite (bind_Done _ _ st (Some r) st)
      by (unfold bind, load_request; now rewrite Er).
    cbv zeta. rewrite (bind_Done _ _ _ _ _ (Eslot st)).
    destruct (Z.eqb_spec (FuseAlloc env) 0); [contradiction |]. reflexivity.
Qed.

(** A dispatch on a context that is allocated and whose kind has a handler
    returns what the handler answers. *)
Lemma FuseContextProcess_runs Context FuseResponse0 FuseRequest0 st c Kind Hint
    (handler : FUSE_PROCESS_DISPATCH) :
  Heap st !! Context = Some (ObjContext c) →
  request_kind (Heap st) (InternalRequest c) = Some (Kind, Hint) →
  0 ≤ Kind →
  table !! Z.to_nat Kind = Some (Some handler) →
  let entered :=
    <[Context := ObjContext (entered_context c FuseResponse0 FuseRequest0)]> (Heap st) in
  let answer := handler Context entered (Response st) (Request st) in
  Process Context FuseResponse0 FuseRequest0 st =
  Done answer.1.1
    (add_Trace (EvDispatch Context Kind)
       (set_Request answer.2 (set_Heap answer.1.2 st))).
Proof.
  intros Hc Hreq HK Hslot entered answer. unfold FuseContextProcess.
  rewrite (bind_Done _ _ st c st) by (unfold load_context; now rewrite Hc).
  assert (EK : (if InternalRequest c =? 0 then ret FspFsctlTransactReservedKind
                else r <- load_request (InternalRequest c) ;; ret (Req_Kind r)) st
               = Done Kind st).
  { unfold request_kind in Hreq. destruct (Z.eqb_spec (InternalRequest c) 0).
    - now injection Hreq as <- <-.
    - destruct (Heap st !! InternalRequest c) as [[|r|]|] eqn:Er; try discriminate.
      injection Hreq as <- <-. unfold bind, load_request. now rewrite Er. }
  rewrite (bind_Done _ _ _ _ _ EK).
  assert (Eslot : ∀ st0, dispatch_slot table Kind st0 = Done (Some handler) st0).
  { intros st0. unfold dispatch_slot. destruct (Z.ltb_spec Kind 0); [lia |].
    now rewrite Hslot. }
  unfold bind at 1, store_context at 1, modify at 1.
  rewrite (bind_Done _ _ _ _ _ (Eslot _)).
  cbn [Heap Response Request set_Heap].
  fold (entered_context c FuseResponse0 FuseRequest0). fold entered. fold answer.
  destruct answer as [[Continue heap'] req']. reflexivity.
Qed.

(** X8: creation guards dispatch.  A real context that [FuseContextCreate]
    has just returned can be dispatched: the slot of its kind is set and its
    request is readable, so [FuseContextProcess] reaches the handler (it
    does not index outside the table, call through an unset slot or read
    through a bad pointer) and records exactly one dispatch, of the kind of
    the request. *)
Theorem created_context_dispatches DeviceObject0 InternalRequest0 st Kind Hint
    (handler : FUSE_PROCESS_DISPATCH) FuseResponse0 FuseRequest0 :
  request_kind (Heap st) InternalRequest0 = Some (Kind, Hint) →
  0 ≤ Kind →
  table !! Z.to_nat Kind = Some (Some handler) →
  FuseAlloc env ≠ 0 →
  Heap st !! FuseAlloc env = None →
  ∃ st1 Continue st2,
    Create DeviceObject0 InternalRequest0 st = Done (FuseAlloc env) st1 ∧
    Process (FuseAlloc env) FuseResponse0 FuseRequest0 st1 = Done Continue st2 ∧
    Trace st2 = Trace st ++ [EvDispatch (FuseAlloc env) Kind].
Proof.
  intros Hreq HK Hslot Halloc Hfresh.
  set (c := created_context RSP_SIZE DeviceObject0 InternalRequest0 Kind Hint).
  set (st1 := set_Heap (<[FuseAlloc env := ObjContext c]> (Heap st)) st).
  assert (Hc : Heap st1 !! FuseAlloc env = Some (ObjContext c)) by apply lookup_insert_eq.
  assert (Hreq1 : request_kind (Heap st1) (InternalRequest c) = Some (Kind, Hint)).
  { cbn [Heap st1 set_Heap c created_context InternalRequest].
    unfold request_kind in *. destruct (Z.eqb_spec InternalRequest0 0); [exact Hreq |].
    rewrite lookup_insert_ne; [exact Hreq |].
    intros E. rewrite <- E in Hreq. now rewrite Hfresh in Hreq. }
  pose proof (FuseContextProcess_runs (FuseAlloc env) FuseResponse0 FuseRequest0 st1 c
                Kind Hint handler Hc Hreq1 HK Hslot) as Hrun.
  cbv zeta in Hrun.
  exists st1. eexists. eexists.
  split; [exact (FuseContextCreate_real _ _ _ _ _ _ Hreq HK Hslot Halloc) |].
  split; [exact Hrun | reflexivity].
Qed.

(** X9: creation undone.  Destroying a real context right after its
    creation returns and releases the internal request (if there is one) and
    then the context, once each; memory is then what it was before the
    creation, less the request that the context had taken over. *)
Theorem created_context_deletes DeviceObject0 InternalRequest0 st Kind Hint
    (handler : FUSE_PROCESS_DISPATCH) :
  request_kind (Heap st) InternalRequest0 = Some (Kind, Hint) →
  0 ≤ Kind →
  table !! Z.to_nat Kind = Some (Some handler) →
  FuseAlloc env ≠ 0 →
  Heap st !! FuseAlloc env = None →
  ∃ st1 st2,
    Create DeviceObject0 InternalRequest0 st = Done (FuseAlloc env) st1 ∧
    FuseContextDelete (FuseAlloc env) st1 = Done tt st2 ∧
    Heap st2 = (if InternalRequest0 =? 0 then Heap st
                else delete InternalRequest0 (Heap st)) ∧
    Trace st2 = Trace st ++
                (if InternalRequest0 =? 0 then [] else [EvFree InternalRequest0]) ++
                [EvFree (FuseAlloc env)] ∧
    same_device st st2.
Proof.
  intros Hreq HK Hslot Halloc Hfresh.
  set (c := created_context RSP_SIZE DeviceObject0 InternalRequest0 Kind Hint).
  set (st1 := set_Heap (<[FuseAlloc env := ObjContext c]> (Heap st)) st).
  assert (Hne : InternalRequest0 ≠ 0 →
                InternalRequest0 ≠ FuseAlloc env ∧ is_Some (Heap st !! InternalRequest0)).
  { intros Hnz. unfold request_kind in Hreq.
    destruct (Z.eqb_spec InternalRequest0 0); [contradiction |].
    destruct (Heap st !! InternalRequest0) as [o|] eqn:Er; [| discriminate].
    split; [| now exists o]. intros E. rewrite E in Er. now rewrite Hfresh in Er. }
  assert (Hv : valid_context (Heap st1) (FuseAlloc env) c).
  { split; [apply lookup_insert_eq |]. split.
    - intros Hnz. destruct (Hne Hnz) as [Hd Hs]. split; [exact Hd |].
      simpl. now rewrite lookup_insert_ne.
    - intros p E. discriminate E. }
  destruct (FuseContextDelete_runs st1 (FuseAlloc env) c Hv)
    as (st2 & Erun & Hsame & Eh & Et).
  exists st1, st2.
  split; [exact (FuseContextCreate_real _ _ _ _ _ _ Hreq HK Hslot Halloc) |].
  split; [exact Erun |]. split; [| split].
  - rewrite Eh. cbn [InternalResponse InternalRequest c created_context Heap st1 set_Heap].
    destruct (Z.eqb_spec InternalRequest0 0) as [E0 | Hnz].
    + now apply delete_insert_id.
    + destruct (Hne Hnz) as [Hd _].
      rewrite delete_insert_ne by exact Hd.
      apply delete_insert_id. now rewrite lookup_delete_ne.
  - rewrite Et. reflexivity.
  - exact Hsame.
Qed.

(** ** The bootstrap path with a real context *)

(** The call once the bootstrap path has obtained a real context and has
    dispatched it. *)
Lemma bootstrap_next_call Irp DeviceObject st st1 Context Continue st2 :
  (InputBufferLength Irp = 0 ∨
   RSP_HEADER_SIZE ≤ rsp_len (Response st) ≤ InputBufferLength Irp) →
  OutputBufferLength Irp ≠ 0 →
  REQ_SIZEMIN ≤ OutputBufferLength Irp →
  Completion (negb (InputBufferLength Irp =? 0)) st = Done None st1 →
  PendingList (Ioq st1) = [] →
  Bootstrap DeviceObject (set_Request (zero_REQ_header (Request st1)) st1)
    = Done (Next (Context, 0, Continue)) st2 →
  FuseContextIsStatus Context = false →
  (Continue = true →
     Transact Irp DeviceObject st =
     Done STATUS_SUCCESS
       (set_Information (req_len (Request st2))
          (final_state (FuseIoqStartProcessing Context st2)))) ∧
  (Continue = false →
     ∀ c r st3, Heap st2 !! Context = Some (ObjContext c) →
       InternalRequest c ≠ 0 →
       response_of (Heap st2) c = Some r →
       FuseContextDelete Context (add_Trace (EvForward r) st2) = Done tt st3 →
     Transact Irp DeviceObject st =
     if NT_SUCCESS (Forward r)
     then Done STATUS_SUCCESS (set_Information (req_len (Request st3)) st3)
     else Done (Forward r) st3).
Proof.
  intros Hin Hnz Hout Hcompl Hpend Hboot Hreal.
  assert (Ecall : Transact Irp DeviceObject st =
                  (at_exit <- RequestPhase true DeviceObject ;;
                   exit_label (fst at_exit) (snd at_exit)) st1).
  { rewrite valid_call by (auto; right; lia).
    rewrite (bind_Done _ _ _ _ _ Hcompl).
    now destruct (Z.eqb_spec (OutputBufferLength Irp) 0). }
  rewrite Ecall. split.
  - intros ->. unfold bind at 1.
    rewrite (request_phase_bootstrap RSP_SIZE table env _ _ Hpend).
    rewrite (bind_Done _ _ _ _ _ Hboot). reflexivity.
  - intros -> c r st3 Hc Hreq Hr Hdel. unfold bind at 1.
    rewrite (request_phase_bootstrap RSP_SIZE table env _ _ Hpend).
    rewrite (bind_Done _ _ _ _ _ Hboot). cbv beta iota. rewrite bind_assoc.
    rewrite (bind_Done _ _ st2 c st2) by (unfold load_context; now rewrite Hc).
    destruct (Z.eqb_spec (InternalRequest c) 0); [contradiction |].
    rewrite Hreal.
    assert (Eresp : load_response Context st2 = Done r st2).
    { unfold load_response. rewrite (bind_Done _ _ st2 c st2)
        by (unfold load_context; now rewrite Hc).
      unfold response_of in Hr. destruct (InternalResponse c) as [|q].
      - now injection Hr as ->.
      - destruct (Heap st2 !! q) as [[| |r']|]; try discriminate.
        now injection Hr as ->. }
    rewrite !bind_assoc. rewrite (bind_Done _ _ _ _ _ Eresp).
    rewrite !bind_assoc.
    rewrite (bind_Done _ _ st2 (Forward r) (add_Trace (EvForward r) st2)) by reflexivity.
    rewrite !bind_assoc. rewrite (bind_Done _ _ _ _ _ Hdel).
    rewrite bind_ret. destruct (NT_SUCCESS (Forward r)); reflexivity.
Qed.

(** The bootstrap path up to the first dispatch of a new real context. *)
Lemma bootstrap_creates DeviceObject st1 Kind Hint (handler : FUSE_PROCESS_DISPATCH) :
  VersionMajor st1 ≠ 0 →
  VersionMajor st1 ≠ 0xFFFFFFFF →
  NT_SUCCESS (fst (FetchInternalRequest env)) = true →
  snd (FetchInternalRequest env) ≠ 0 →
  request_kind (Heap st1) (snd (FetchInternalRequest env)) = Some (Kind, Hint) →
  0 ≤ Kind →
  table !! Z.to_nat Kind = Some (Some handler) →
  0xFFFF < FuseAlloc env →
  Heap st1 !! FuseAlloc env = None →
  let entered :=
    <[FuseAlloc env :=
        ObjContext
          (entered_context
             (created_context RSP_SIZE DeviceObject (snd (FetchInternalRequest env)) Kind Hint)
             false true)]> (Heap st1) in
  let answer := handler (FuseAlloc env) entered (Response st1) (Request st1) in
  Bootstrap DeviceObject st1 =
  Done (Next (FuseAlloc env, 0, answer.1.1))
    (add_Trace (EvDispatch (FuseAlloc env) Kind)
       (set_Request answer.2 (set_Heap answer.1.2 (add_Trace EvFetch st1)))).
Proof.
  intros Hv0 Hv1 Hok Hp Hreq HK Hslot Hhigh Hfresh entered answer.
  rewrite bootstrap_fetches by assumption. cbv zeta. rewrite Hok.
  destruct (Z.eqb_spec (snd (FetchInternalRequest env)) 0); [contradiction |].
  change (negb true) with false. cbv iota.
  set (p := snd (FetchInternalRequest env)) in *.
  set (c := created_context RSP_SIZE DeviceObject p Kind Hint) in *.
  set (fetched := add_Trace EvFetch st1).
  set (st2 := set_Heap (<[FuseAlloc env := ObjContext c]> (Heap fetched)) fetched).
  assert (Ecreate : Create DeviceObject p fetched = Done (FuseAlloc env) st2)
    by (apply (FuseContextCreate_real _ _ _ Kind Hint handler); auto; lia).
  rewrite (bind_Done _ _ _ _ _ Ecreate).
  replace (FuseContextIsStatus (FuseAlloc env)) with false
    by (symmetry; apply Z.leb_gt; exact Hhigh).
  change (negb false) with true. cbv iota.
  assert (Hc : Heap st2 !! FuseAlloc env = Some (ObjContext c)) by apply lookup_insert_eq.
  assert (Hreq2 : request_kind (Heap st2) (InternalRequest c) = Some (Kind, Hint)).
  { cbn [Heap st2 fetched add_Trace set_Heap c created_context InternalRequest].
    unfold request_kind in *. destruct (Z.eqb_spec p 0); [contradiction |].
    rewrite lookup_insert_ne; [exact Hreq |].
    intros E. rewrite <- E in Hreq. now rewrite Hfresh in Hreq. }
  pose proof (FuseContextProcess_runs (FuseAlloc env) false true st2 c
                Kind Hint handler Hc Hreq2 HK Hslot) as Hrun.
  cbv zeta in Hrun. rewrite (bind_Done _ _ _ _ _ Hrun).
  cbn [Heap Response Request st2 fetched add_Trace set_Heap].
  rewrite insert_insert_eq. fold entered. fold answer. reflexivity.
Qed.

(** X10: the first dispatch of a fetched request.  With nothing pending and
    a version negotiated, the call fetches a request of a supported kind,
    creates its context at the address the allocator gives, and dispatches
    it against the zeroed request slot; the handler sees the context with
    the request attached, the embedded response carrying the request's kind
    and hint, no finalize callback, and the request pointer set.  On
    [Continue] the context enters the processing set under an unused id and
    the call reports the length the handler wrote; the request stays with
    the context: after the dispatch the bridge frees and forwards nothing. *)
Theorem bootstrap_first_dispatch_continues Irp DeviceObject st st1 Kind Hint
    (handler : FUSE_PROCESS_DISPATCH) :
  (InputBufferLength Irp = 0 ∨
   RSP_HEADER_SIZE ≤ rsp_len (Response st) ≤ InputBufferLength Irp) →
  OutputBufferLength Irp ≠ 0 →
  REQ_SIZEMIN ≤ OutputBufferLength Irp →
  Completion (negb (InputBufferLength Irp =? 0)) st = Done None st1 →
  PendingList (Ioq st1) = [] →
  VersionMajor st1 ≠ 0 →
  VersionMajor st1 ≠ 0xFFFFFFFF →
  NT_SUCCESS (fst (FetchInternalRequest env)) = true →
  snd (FetchInternalRequest env) ≠ 0 →
  request_kind (Heap st1) (snd (FetchInternalRequest env)) = Some (Kind, Hint) →
  0 ≤ Kind →
  table !! Z.to_nat Kind = Some (Some handler) →
  0xFFFF < FuseAlloc env →
  Heap st1 !! FuseAlloc env = None →
  let entered :=
    <[FuseAlloc env :=
        ObjContext
          (entered_context
             (created_context RSP_SIZE DeviceObject (snd (FetchInternalRequest env)) Kind Hint)
             false true)]> (Heap st1) in
  let answer :=
    handler (FuseAlloc env) entered (Response st1) (zero_REQ_header (Request st1)) in
  answer.1.1 = true →
  ∃ id st3,
    Transact Irp DeviceObject st = Done STATUS_SUCCESS st3 ∧
    ProcessTable (Ioq st1) !! id = None ∧
    ProcessTable (Ioq st3) = <[id := FuseAlloc env]> (ProcessTable (Ioq st1)) ∧
    PendingList (Ioq st3) = [] ∧
    Heap st3 = answer.1.2 ∧
    Request st3 = answer.2 ∧
    Information st3 = req_len answer.2 ∧
    Trace st3 = Trace st1 ++ [EvFetch; EvDispatch (FuseAlloc env) Kind].
Proof.
  intros Hin Hnz Hout Hcompl Hpend Hv0 Hv1 Hok Hp Hreq HK Hslot Hhigh Hfresh
    entered answer Hcont.
  set (zeroed := set_Request (zero_REQ_header (Request st1)) st1).
  pose proof (bootstrap_creates DeviceObject zeroed Kind Hint handler
                Hv0 Hv1 Hok Hp Hreq HK Hslot Hhigh Hfresh) as Hboot.
  cbv zeta in Hboot. cbn [Heap Response Request zeroed set_Request] in Hboot.
  fold entered in Hboot. fold answer in Hboot. rewrite Hcont in Hboot.
  destruct (bootstrap_next_call Irp DeviceObject st st1 _ _ _
              Hin Hnz Hout Hcompl Hpend Hboot) as [Hcall _].
  { apply Z.leb_gt. exact Hhigh. }
  exists (fresh (dom (ProcessTable (Ioq st1)))). eexists.
  split; [exact (Hcall eq_refl) |].
  split; [apply not_elem_of_dom, is_fresh |].
  simpl. rewrite Hpend, <- app_assoc. repeat split.
Qed.

(** X11: a fetched request that is completed at once.  When the handler of
    the new context answers "complete" and leaves memory as it found it, the
    call forwards a response that echoes the kind and the hint of the
    request, then frees the request and the context, once each, so that
    memory is what it was before the call less the request; the queue is
    untouched.  The call returns the forwarding failure if there is one and
    otherwise reports the length found in the request slot. *)
Theorem bootstrap_completes_at_once Irp DeviceObject st st1 Kind Hint
    (handler : FUSE_PROCESS_DISPATCH) :
  (InputBufferLength Irp = 0 ∨
   RSP_HEADER_SIZE ≤ rsp_len (Response st) ≤ InputBufferLength Irp) →
  OutputBufferLength Irp ≠ 0 →
  REQ_SIZEMIN ≤ OutputBufferLength Irp →
  Completion (negb (InputBufferLength Irp =? 0)) st = Done None st1 →
  PendingList (Ioq st1) = [] →
  VersionMajor st1 ≠ 0 →
  VersionMajor st1 ≠ 0xFFFFFFFF →
  NT_SUCCESS (fst (FetchInternalRequest env)) = true →
  snd (FetchInternalRequest env) ≠ 0 →
  request_kind (Heap st1) (snd (FetchInternalRequest env)) = Some (Kind, Hint) →
  0 ≤ Kind →
  table !! Z.to_nat Kind = Some (Some handler) →
  0xFFFF < FuseAlloc env →
  Heap st1 !! FuseAlloc env = None →
  let p := snd (FetchInternalRequest env) in
  let entered :=
    <[FuseAlloc env :=
        ObjContext
          (entered_context (created_context RSP_SIZE DeviceObject p Kind Hint) false true)]>
      (Heap st1) in
  let answer :=
    handler (FuseAlloc env) entered (Response st1) (zero_REQ_header (Request st1)) in
  let echo :=
    {| Rsp_Size := RSP_SIZE; Rsp_Kind := Kind; Rsp_Hint := Hint;
       Rsp_IoStatus_Status := 0; Rsp_IoStatus_Information := 0 |} in
  answer.1.1 = false →
  answer.1.2 = entered →
  ∃ st3,
    Heap st3 = delete p (Heap st1) ∧
    Ioq st3 = Ioq st1 ∧
    Request st3 = answer.2 ∧
    Trace st3 = Trace st1 ++ [EvFetch; EvDispatch (FuseAlloc env) Kind;
                              EvForward echo; EvFree p; EvFree (FuseAlloc env)] ∧
    Transact Irp DeviceObject st =
    if NT_SUCCESS (Forward echo)
    then Done STATUS_SUCCESS (set_Information (req_len answer.2) st3)
    else Done (Forward echo) st3.
Proof.
  intros Hin Hnz Hout Hcompl Hpend Hv0 Hv1 Hok Hp Hreq HK Hslot Hhigh Hfresh
    p entered answer echo Hdone Hmem.
  set (zeroed := set_Request (zero_REQ_header (Request st1)) st1).
  pose proof (bootstrap_creates DeviceObject zeroed Kind Hint handler
                Hv0 Hv1 Hok Hp Hreq HK Hslot Hhigh Hfresh) as Hboot.
  fold p in Hreq, Hp.
  cbv zeta in Hboot. cbn [Heap Response Request zeroed set_Request] in Hboot.
  fold p in Hboot. fold entered in Hboot. fold answer in Hboot.
  rewrite Hdone, Hmem in Hboot.
  set (c := entered_context (created_context RSP_SIZE DeviceObject p Kind Hint) false true)
    in *.
  set (st2 := add_Trace (EvDispatch (FuseAlloc env) Kind)
                (set_Request answer.2 (set_Heap entered (add_Trace EvFetch zeroed)))) in *.
  assert (Hpne : p ≠ FuseAlloc env ∧ is_Some (Heap st1 !! p)).
  { unfold request_kind in Hreq. destruct (Z.eqb_spec p 0); [contradiction |].
    destruct (Heap st1 !! p) as [o|] eqn:Er; [| discriminate].
    split; [| now exists o]. intros E. rewrite E in Er. now rewrite Hfresh in Er. }
  destruct Hpne as [Hpa Hps].
  assert (Hv : valid_context (Heap (add_Trace (EvForward echo) st2)) (FuseAlloc env) c).
  { split; [apply lookup_insert_eq |]. split.
    - intros _. split; [exact Hpa |]. simpl. unfold entered.
      now rewrite lookup_insert_ne.
    - intros q E. discriminate E. }
  destruct (FuseContextDelete_runs _ (FuseAlloc env) c Hv)
    as (st3 & Erun & Hsame & Eh & Et).
  destruct (bootstrap_next_call Irp DeviceObject st st1 _ _ _
              Hin Hnz Hout Hcompl Hpend Hboot) as [_ Hcall].
  { apply Z.leb_gt. exact Hhigh. }
  specialize (Hcall eq_refl c echo st3 (lookup_insert_eq _ _ _) Hp eq_refl Erun).
  destruct Hsame as (HIoq & _ & _ & HReq & _).
  exists st3. split; [| split; [| split; [| split]]].
  - rewrite Eh. cbn [InternalResponse InternalRequest c entered_context created_context].
    destruct (Z.eqb_spec p 0); [contradiction |].
    cbn [Heap add_Trace st2 set_Request set_Heap]. unfold entered.
    rewrite delete_insert_ne by exact Hpa.
    apply delete_insert_id. now rewrite lookup_delete_ne.
  - rewrite HIoq. reflexivity.
  - rewrite HReq. reflexivity.
  - rewrite Et. cbn [InternalResponse InternalRequest Fini c entered_context created_context].
    destruct (Z.eqb_spec p 0); [contradiction |].
    simpl. rewrite <- !app_assoc. reflexivity.
  - rewrite Hcall. rewrite HReq. reflexivity.
Qed.

(** ** What a call adds to the trace *)

Lemma total_app w evs1 evs2 : total w (evs1 ++ evs2) = (total w evs1 + total w evs2)%nat.
Proof. induction evs1 as [|e evs1 IH]; simpl; [reflexivity | rewrite IH; lia]. Qed.

Lemma spends_weaken {A} w n n' (m : M A) :
  spends w n m → (n ≤ n')%nat → spends w n' m.
Proof.
  intros H Hle st. destruct (H st) as (evs & E & Hn). exists evs. split; [exact E | lia].
Qed.

Lemma spends_ret {A} w (a : A) : spends w 0 (ret a).
Proof. intros st. exists []. split; [now rewrite app_nil_r | reflexivity]. Qed.

Lemma spends_fault {A} w f : spends w 0 (@fault A f).
Proof. intros st. exists []. split; [now rewrite app_nil_r | reflexivity]. Qed.

Lemma spends_quiet {A} w (m : M A) :
  (∀ st, Trace (final_state (m st)) = Trace st) → spends w 0 m.
Proof.
  intros H st. exists []. split; [now rewrite app_nil_r, H | reflexivity].
Qed.

Lemma spends_bind {A B} w a b n (m : M A) (k : A → M B) :
  spends w a m → (∀ x, spends w b (k x)) → (a + b ≤ n)%nat → spends w n (bind m k).
Proof.
  intros Hm Hk Hle st. unfold bind. destruct (Hm st) as (evs1 & E1 & H1).
  destruct (m st) as [x st1 | f st1]; simpl in E1.
  - destruct (Hk x st1) as (evs2 & E2 & H2). exists (evs1 ++ evs2). split.
    + now rewrite E2, E1, app_assoc.
    + rewrite total_app. lia.
  - exists evs1. split; [exact E1 | lia].
Qed.

Lemma spends_emit w e : spends w (price w e) (emit e).
Proof. intros st. exists [e]. split; [reflexivity | simpl; lia]. Qed.

Lemma spends_load_context w p : spends w 0 (load_context p).
Proof.
  apply spends_quiet. intros st. unfold load_context.
  now destruct (Heap st !! p) as [[| |]|].
Qed.

Lemma spends_load_request w p : spends w 0 (load_request p).
Proof.
  apply spends_quiet. intros st. unfold load_request.
  now destruct (Heap st !! p) as [[| |]|].
Qed.

Lemma spends_load_response w Context : spends w 0 (load_response Context).
Proof.
  unfold load_response. apply (spends_bind w 0 0); [apply spends_load_context | | lia].
  intros c. destruct (InternalResponse c) as [|p]; [apply spends_ret |].
  apply spends_quiet. intros st. now destruct (Heap st !! p) as [[| |]|].
Qed.

Lemma spends_FuseFree w p : spends w (per_free w) (FuseFree p).
Proof.
  intros st. unfold FuseFree. destruct (Heap st !! p).
  - exists [EvFree p]. split; [reflexivity | simpl; lia].
  - exists []. split; [now rewrite app_nil_r | simpl; lia].
Qed.

Lemma spends_dispatch_slot w Kind : spends w 0 (dispatch_slot table Kind).
Proof.
  apply spends_quiet. intros st. unfold dispatch_slot.
  destruct (Kind <? 0); [reflexivity |]. now destruct (table !! Z.to_nat Kind).
Qed.

Lemma spends_FuseContextProcess w Context FuseResponse0 FuseRequest0 :
  spends w (per_dispatch w) (Process Context FuseResponse0 FuseRequest0).
Proof.
  unfold FuseContextProcess.
  apply (spends_bind w 0 (per_dispatch w)); [apply spends_load_context | | lia].
  intros c. apply (spends_bind w 0 (per_dispatch w)); [| | lia].
  { destruct (InternalRequest c =? 0); [apply spends_ret |].
    apply (spends_bind w 0 0); [apply spends_load_request | | lia].
    intros r. apply spends_ret. }
  intros Kind. apply (spends_bind w 0 (per_dispatch w)); [| | lia].
  { apply spends_quiet. reflexivity. }
  intros _. apply (spends_bind w 0 (per_dispatch w)); [apply spends_dispatch_slot | | lia].
  intros [handler|]; [| apply spends_weaken with 0%nat; [apply spends_fault | lia]].
  intros st. destruct (handler Context (Heap st) (Response st) (Request st))
    as [[Continue heap'] req'].
  exists [EvDispatch Context Kind]. split; [reflexivity | simpl; lia].
Qed.

Lemma spends_FuseContextCreate w DeviceObject0 InternalRequest0 :
  spends w 0 (Create DeviceObject0 InternalRequest0).
Proof.
  unfold FuseContextCreate. apply (spends_bind w 0 0); [| | lia].
  { destruct (InternalRequest0 =? 0); [apply spends_ret |].
    apply (spends_bind w 0 0); [apply spends_load_request | | lia].
    intros r. apply spends_ret. }
  intros req. cbv zeta.
  apply (spends_bind w 0 0); [apply spends_dispatch_slot | | lia].
  intros [handler|]; [| apply spends_ret].
  destruct (FuseAlloc env =? 0); [apply spends_ret |].
  apply (spends_bind w 0 0); [apply spends_quiet; reflexivity | | lia].
  intros _. apply spends_ret.
Qed.

Lemma spends_FuseContextDelete w Context :
  spends w (per_fini w + 3 * per_free w) (FuseContextDelete Context).
Proof.
  unfold FuseContextDelete.
  apply (spends_bind w 0 (per_fini w + 3 * per_free w));
    [apply spends_load_context | | lia].
  intros c. apply (spends_bind w (per_fini w) (3 * per_free w)); [| | lia].
  { destruct (Fini c =? 0);
      [apply spends_weaken with 0%nat; [apply spends_ret | lia] | apply spends_emit]. }
  intros _. apply (spends_bind w 0 (3 * per_free w)); [apply spends_load_context | | lia].
  intros c1. apply (spends_bind w (per_free w) (2 * per_free w)); [| | lia].
  { destruct (InternalRequest c1 =? 0);
      [apply spends_weaken with 0%nat; [apply spends_ret | lia] | apply spends_FuseFree]. }
  intros _. apply (spends_bind w 0 (2 * per_free w)); [apply spends_load_context | | lia].
  intros c2. apply (spends_bind w (per_free w) (per_free w)); [| | lia].
  { destruct (InternalResponse c2);
      [apply spends_weaken with 0%nat; [apply spends_ret | lia] | apply spends_FuseFree]. }
  intros _. apply spends_FuseFree.
Qed.

Lemma spends_forward w r :
  spends w (per_forward w) (FuseSendTransactInternalIrp_Response env r).
Proof.
  unfold FuseSendTransactInternalIrp_Response.
  apply (spends_bind w (per_forward w) 0); [apply (spends_emit w (EvForward r)) | | lia].
  intros _. apply spends_ret.
Qed.

Lemma spends_queue_op w (f : STATE → STATE) :
  (∀ st, Trace (f st) = Trace st) → spends w 0 (modify f).
Proof. intros H. apply spends_quiet. exact H. Qed.

(** The routing that both phases share once a handler has completed: the
    response is forwarded and the context destroyed. *)
Lemma spends_forward_and_delete w Context :
  spends w (per_forward w + per_fini w + 3 * per_free w)
    (r <- load_response Context ;;
     Result <- FuseSendTransactInternalIrp_Response env r ;;
     FuseContextDelete Context ;;;
     ret Result).
Proof.
  apply (spends_bind w 0 (per_forward w + per_fini w + 3 * per_free w));
    [apply spends_load_response | | lia].
  intros r. apply (spends_bind w (per_forward w) (per_fini w + 3 * per_free w));
    [apply spends_forward | | lia].
  intros Result. apply (spends_bind w (per_fini w + 3 * per_free w) 0);
    [apply spends_FuseContextDelete | | lia].
  intros _. apply spends_ret.
Qed.

Lemma spends_completion_phase w FuseResponse0 :
  spends w (per_dispatch w + per_forward w + per_fini w + 3 * per_free w)
    (Completion FuseResponse0).
Proof.
  unfold completion_phase.
  destruct FuseResponse0; [| apply spends_weaken with 0%nat; [apply spends_ret | lia]].
  apply (spends_bind w 0 (per_dispatch w + per_forward w + per_fini w + 3 * per_free w));
    [apply spends_quiet; reflexivity | | lia].
  intros rsp.
  apply (spends_bind w 0 (per_dispatch w + per_forward w + per_fini w + 3 * per_free w));
    [| | lia].
  { apply spends_quiet. intros st. unfold FuseIoqEndProcessing.
    now destruct (ProcessTable (Ioq st) !! rsp_unique rsp). }
  intros Context.
  destruct (Context =? 0); [apply spends_weaken with 0%nat; [apply spends_ret | lia] |].
  apply (spends_bind w (per_dispatch w) (per_forward w + per_fini w + 3 * per_free w));
    [apply spends_FuseContextProcess | | lia].
  intros [|].
  - apply (spends_bind w 0 0); [apply spends_queue_op; reflexivity | | lia].
    intros _. apply spends_ret.
  - apply (spends_bind w 0 (per_forward w + per_fini w + 3 * per_free w));
      [apply spends_load_context | | lia].
    intros c. destruct (InternalRequest c =? 0).
    + apply (spends_bind w (per_fini w + 3 * per_free w) 0);
        [apply spends_FuseContextDelete | | lia].
      intros _. apply spends_ret.
    + apply (spends_bind w 0 (per_forward w + per_fini w + 3 * per_free w));
        [apply spends_load_response | | lia].
      intros r. apply (spends_bind w (per_forward w) (per_fini w + 3 * per_free w));
        [apply spends_forward | | lia].
      intros Result. apply (spends_bind w (per_fini w + 3 * per_free w) 0);
        [apply spends_FuseContextDelete | | lia].
      intros _. destruct (negb (NT_SUCCESS Result)); apply spends_ret.
Qed.

Lemma spends_bootstrap w DeviceObject0 :
  spends w (per_wait w + per_fetch w + per_dispatch w) (Bootstrap DeviceObject0).
Proof.
  unfold bootstrap.
  apply (spends_bind w 0 (per_wait w + per_fetch w + per_dispatch w));
    [apply spends_quiet; reflexivity | | lia].
  intros VersionMajor0.
  apply (spends_bind w (per_wait w) (per_fetch w + per_dispatch w)); [| | lia].
  { destruct (VersionMajor0 =? 0);
      [| apply spends_weaken with 0%nat; [apply spends_ret | lia]].
    apply (spends_bind w (per_wait w) 0); [| | lia].
    - unfold FsRtlCancellableWaitForSingleObject_InitEvent.
      apply (spends_bind w (per_wait w) 0); [apply (spends_emit w EvWait) | | lia].
      intros _. apply (spends_bind w 0 0); [apply spends_queue_op; reflexivity | | lia].
      intros _. apply spends_ret.
    - intros Result. cbv zeta.
      destruct (negb (NT_SUCCESS _)); [apply spends_ret |].
      apply (spends_bind w 0 0); [apply spends_quiet; reflexivity | | lia].
      intros v. apply spends_ret. }
  intros [Result InternalRequest0 | VersionMajor1];
    [apply spends_weaken with 0%nat; [apply spends_ret | lia] |].
  destruct (VersionMajor1 =? 4294967295);
    [apply spends_weaken with 0%nat; [apply spends_ret | lia] |].
  apply (spends_bind w (per_fetch w) (per_dispatch w)); [| | lia].
  { unfold FuseSendTransactInternalIrp_Request.
    apply (spends_bind w (per_fetch w) 0); [apply (spends_emit w EvFetch) | | lia].
    intros _. apply spends_ret. }
  intros fetched. cbv zeta.
  destruct (negb (NT_SUCCESS (fst fetched)));
    [apply spends_weaken with 0%nat; [apply spends_ret | lia] |].
  destruct (snd fetched =? 0).
  { apply (spends_bind w 0 0); [apply spends_queue_op; reflexivity | | lia].
    intros _. apply spends_ret. }
  apply (spends_bind w 0 (per_dispatch w)); [apply spends_FuseContextCreate | | lia].
  intros Context. destruct (negb (FuseContextIsStatus Context));
    [| apply spends_weaken with 0%nat; [apply spends_ret | lia]].
  apply (spends_bind w (per_dispatch w) 0); [apply spends_FuseContextProcess | | lia].
  intros Continue. apply spends_ret.
Qed.

(** The routing of the request phase, whatever context it is given. *)
Lemma spends_request_routing w Context InternalRequest0 (Continue : bool) :
  spends w (per_forward w + per_fini w + 3 * per_free w)
    (routed <-
       (if Continue then
          FuseIoqStartProcessing Context ;;; ret (Next tt)
        else
          c <- load_context Context ;;
          if InternalRequest c =? 0 then ret (Next tt)
          else
            Result <-
              (if FuseContextIsStatus Context then
                 q <- load_request InternalRequest0 ;;
                 FuseSendTransactInternalIrp_Response env
                   {| Rsp_Size := RSP_SIZE;
                      Rsp_Kind := Req_Kind q;
                      Rsp_Hint := Req_Hint q;
                      Rsp_IoStatus_Status := FuseContextToStatus Context;
                      Rsp_IoStatus_Information := 0 |}
               else
                 r <- load_response Context ;;
                 Result <- FuseSendTransactInternalIrp_Response env r ;;
                 FuseContextDelete Context ;;;
                 ret Result) ;;
            if negb (NT_SUCCESS Result) then ret (Goto_exit Result InternalRequest0)
            else ret (Next tt)) ;;
     match routed with
     | Goto_exit Result InternalRequest1 => ret (Result, InternalRequest1)
     | Next _ =>
         req <- get Request ;;
         modify (set_Information (req_len req)) ;;;
         ret (STATUS_SUCCESS, InternalRequest0)
     end).
Proof.
  apply (spends_bind w (per_forward w + per_fini w + 3 * per_free w) 0); [| | lia].
  - destruct Continue.
    + apply (spends_bind w 0 0); [apply spends_queue_op; reflexivity | | lia].
      intros _. apply spends_ret.
    + apply (spends_bind w 0 (per_forward w + per_fini w + 3 * per_free w));
        [apply spends_load_context | | lia].
      intros c. destruct (InternalRequest c =? 0);
        [apply spends_weaken with 0%nat; [apply spends_ret | lia] |].
      apply (spends_bind w (per_forward w + per_fini w + 3 * per_free w) 0); [| | lia].
      * destruct (FuseContextIsStatus Context); [| apply spends_forward_and_delete].
        apply (spends_bind w 0 (per_forward w)); [apply spends_load_request | | lia].
        intros q. apply spends_forward.
      * intros Result. destruct (negb (NT_SUCCESS Result)); apply spends_ret.
  - intros [Result InternalRequest1 | []]; [apply spends_ret |].
    apply (spends_bind w 0 0); [apply spends_quiet; reflexivity | | lia].
    intros req. apply (spends_bind w 0 0); [apply spends_queue_op; reflexivity | | lia].
    intros _. apply spends_ret.
Qed.

Lemma spends_request_phase w FuseRequest0 DeviceObject0 :
  spends w (per_wait w + per_fetch w + per_dispatch w
            + per_forward w + per_fini w + 3 * per_free w)
    (RequestPhase FuseRequest0 DeviceObject0).
Proof.
  unfold request_phase. destruct FuseRequest0.
  2:{ apply (spends_bind w 0 0); [apply spends_queue_op; reflexivity | | lia].
      intros _. apply spends_ret. }
  apply (spends_bind w 0 (per_wait w + per_fetch w + per_dispatch w
                          + per_forward w + per_fini w + 3 * per_free w));
    [apply spends_queue_op; reflexivity | | lia].
  intros _.
  apply (spends_bind w 0 (per_wait w + per_fetch w + per_dispatch w
                          + per_forward w + per_fini w + 3 * per_free w)); [| | lia].
  { apply spends_quiet. intros st. unfold FuseIoqNextPending.
    now destruct (PendingList (Ioq st)). }
  intros Context.
  apply (spends_bind w (per_wait w + per_fetch w + per_dispatch w)
           (per_forward w + per_fini w + 3 * per_free w)); [| | lia].
  { destruct (Context =? 0); [apply spends_bootstrap |].
    apply (spends_bind w (per_dispatch w) 0); [apply spends_FuseContextProcess | | lia].
    intros Continue. apply spends_ret. }
  intros [Result InternalRequest0 | [[Context' InternalRequest0] Continue]];
    [apply spends_weaken with 0%nat; [apply spends_ret | lia] |].
  apply spends_request_routing.
Qed.

Lemma spends_exit_label w Result InternalRequest0 :
  spends w (per_free w) (exit_label Result InternalRequest0).
Proof.
  unfold exit_label. apply (spends_bind w (per_free w) 0); [| | lia].
  - destruct (InternalRequest0 =? 0);
      [apply spends_weaken with 0%nat; [apply spends_ret | lia] | apply spends_FuseFree].
  - intros _. apply spends_ret.
Qed.

Lemma spends_FuseDeviceTransact w Irp DeviceObject0 :
  spends w (2 * per_dispatch w + per_wait w + per_fetch w
            + 2 * per_forward w + 2 * per_fini w + 7 * per_free w)
    (Transact Irp DeviceObject0).
Proof.
  unfold FuseDeviceTransact. cbv zeta.
  apply (spends_bind w 0 (2 * per_dispatch w + per_wait w + per_fetch w
                          + 2 * per_forward w + 2 * per_fini w + 7 * per_free w));
    [apply spends_quiet; reflexivity | | lia].
  intros rsp.
  destruct (negb (InputBufferLength Irp =? 0) && _);
    [apply spends_weaken with 0%nat; [apply spends_ret | lia] |].
  destruct (negb (OutputBufferLength Irp =? 0) && _);
    [apply spends_weaken with 0%nat; [apply spends_ret | lia] |].
  apply (spends_bind w (per_dispatch w + per_forward w + per_fini w + 3 * per_free w)
           (per_wait w + per_fetch w + per_dispatch w
            + per_forward w + per_fini w + 4 * per_free w));
    [apply spends_completion_phase | | lia].
  intros [Result|].
  - apply spends_weaken with (per_free w); [apply spends_exit_label | lia].
  - apply (spends_bind w (per_wait w + per_fetch w + per_dispatch w
                          + per_forward w + per_fini w + 3 * per_free w) (per_free w));
      [apply spends_request_phase | | lia].
    intros at_exit. apply spends_exit_label.
Qed.

(** X12: every exchange call, whatever the handlers and the surroundings do
    and whether it returns or stops at an invalid access, only appends to
    the trace, and what it appends holds at most two dispatches (one per
    phase), one wait, one fetch, two forwarded responses and two finalize
    calls. *)
Theorem FuseDeviceTransact_bounded_effects Irp DeviceObject st :
  ∃ evs,
    Trace (final_state (Transact Irp DeviceObject st)) = Trace st ++ evs ∧
    (count_events is_dispatch evs ≤ 2)%nat ∧
    (count_events is_wait evs ≤ 1)%nat ∧
    (count_events is_fetch evs ≤ 1)%nat ∧
    (count_events is_forward evs ≤ 2)%nat ∧
    (count_events is_fini evs ≤ 2)%nat.
Proof.
  assert (Hcount : ∀ f w, (∀ e, price w e = if f e : bool then 1%nat else 0%nat) →
            ∀ evs, total w evs = count_events f evs).
  { intros f w Hw evs. unfold count_events.
    induction evs as [|e evs IH]; [reflexivity |].
    simpl. rewrite Hw, IH. now destruct (f e). }
  destruct (spends_FuseDeviceTransact
              {| per_dispatch := 1; per_wait := 0; per_fetch := 0;
                 per_forward := 0; per_fini := 0; per_free := 0 |}
              Irp DeviceObject st) as (evs & E & _).
  exists evs. split; [exact E |].
  assert (Hbound : ∀ f w n,
            (∀ e, price w e = if f e : bool then 1%nat else 0%nat) →
            (2 * per_dispatch w + per_wait w + per_fetch w
             + 2 * per_forward w + 2 * per_fini w + 7 * per_free w ≤ n)%nat →
            (count_events f evs ≤ n)%nat).
  { intros f w n Hw Hn. rewrite <- (Hcount f w Hw).
    destruct (spends_FuseDeviceTransact w Irp DeviceObject st) as (evs' & E' & Hn').
    rewrite E in E'. apply app_inv_head in E'. subst evs'. lia. }
  split; [| split; [| split; [| split]]].
  - apply (Hbound is_dispatch
             {| per_dispatch := 1; per_wait := 0; per_fetch := 0;
                per_forward := 0; per_fini := 0; per_free := 0 |});
      [now intros [] | simpl; lia].
  - apply (Hbound is_wait
             {| per_dispatch := 0; per_wait := 1; per_fetch := 0;
                per_forward := 0; per_fini := 0; per_free := 0 |});
      [now intros [] | simpl; lia].
  - apply (Hbound is_fetch
             {| per_dispatch := 0; per_wait := 0; per_fetch := 1;
                per_forward := 0; per_fini := 0; per_free := 0 |});
      [now intros [] | simpl; lia].
  - apply (Hbound is_forward
             {| per_dispatch := 0; per_wait := 0; per_fetch := 0;
                per_forward := 1; per_fini := 0; per_free := 0 |});
      [now intros [] | simpl; lia].
  - apply (Hbound is_fini
             {| per_dispatch := 0; per_wait := 0; per_fetch := 0;
                per_forward := 0; per_fini := 1; per_free := 0 |});
      [now intros [] | simpl; lia].
Qed.

(** X13: a pending context comes first.  When a context is pending after
    the completion phase, the request phase serves it and does not turn to
    the host framework: whatever the handlers do, the rest of the call holds
    no wait and no fetch, and at most one dispatch. *)
Theorem pending_context_preempts_fetch Irp DeviceObject st st1 Context rest :
  (InputBufferLength Irp = 0 ∨
   RSP_HEADER_SIZE ≤ rsp_len (Response st) ≤ InputBufferLength Irp) →
  OutputBufferLength Irp ≠ 0 →
  REQ_SIZEMIN ≤ OutputBufferLength Irp →
  Completion (negb (InputBufferLength Irp =? 0)) st = Done None st1 →
  PendingList (Ioq st1) = Context :: rest →
  Context ≠ 0 →
  ∃ evs,
    Trace (final_state (Transact Irp DeviceObject st)) = Trace st1 ++ evs ∧
    count_events is_wait evs = 0%nat ∧
    count_events is_fetch evs = 0%nat ∧
    (count_events is_dispatch evs ≤ 1)%nat.
Proof.
  intros Hin Hnz Hout Hcompl Hpend Hctx.
  set (w := {| per_dispatch := 1; per_wait := 2; per_fetch := 2;
               per_forward := 0; per_fini := 0; per_free := 0 |}).
  assert (Hrun : spends w 1
            (at_exit <-
               (Continue <- Process Context false true ;;
                routed <-
                  (if Continue : bool then
                     FuseIoqStartProcessing Context ;;; ret (Next tt)
                   else
                     c <- load_context Context ;;
                     if InternalRequest c =? 0 then ret (Next tt)
                     else
                       Result <-
                         (if FuseContextIsStatus Context then
                            q <- load_request 0 ;;
                            FuseSendTransactInternalIrp_Response env
                              {| Rsp_Size := RSP_SIZE;
                                 Rsp_Kind := Req_Kind q;
                                 Rsp_Hint := Req_Hint q;
                                 Rsp_IoStatus_Status := FuseContextToStatus Context;
                                 Rsp_IoStatus_Information := 0 |}
                          else
                            r <- load_response Context ;;
                            Result <- FuseSendTransactInternalIrp_Response env r ;;
                            FuseContextDelete Context ;;;
                            ret Result) ;;
                       if negb (NT_SUCCESS Result) then ret (Goto_exit Result 0)
                       else ret (Next tt)) ;;
                match routed with
                | Goto_exit Result InternalRequest1 => ret (Result, InternalRequest1)
                | Next _ =>
                    req <- get Request ;;
                    modify (set_Information (req_len req)) ;;;
                    ret (STATUS_SUCCESS, 0)
                end) ;;
             exit_label (fst at_exit) (snd at_exit))).
  { apply (spends_bind w 1 0); [| intros at_exit; apply (spends_exit_label w) | lia].
    apply (spends_bind w 1 0); [apply (spends_FuseContextProcess w) | | lia].
    intros Continue. apply (spends_request_routing w Context 0 Continue). }
  assert (Ecall : Transact Irp DeviceObject st =
                  (at_exit <- RequestPhase true DeviceObject ;;
                   exit_label (fst at_exit) (snd at_exit)) st1).
  { rewrite valid_call by (auto; right; lia).
    rewrite (bind_Done _ _ _ _ _ Hcompl).
    now destruct (Z.eqb_spec (OutputBufferLength Irp) 0). }
  rewrite Ecall. unfold bind at 1.
  rewrite (request_phase_pending _ _ _ _ Hpend Hctx).
  destruct (Hrun (set_Ioq {| PendingList := rest; ProcessTable := ProcessTable (Ioq st1) |}
                    (set_Request (zero_REQ_header (Request st1)) st1)))
    as (evs & E & Hn).
  exists evs. split; [exact E |].
  clear E Hrun Ecall. unfold count_events.
  assert (Hgen : ∀ n, (total w evs ≤ n)%nat → (n ≤ 1)%nat →
            length (List.filter is_wait evs) = 0%nat ∧
            length (List.filter is_fetch evs) = 0%nat ∧
            (length (List.filter is_dispatch evs) ≤ n)%nat).
  { clear Hn. unfold w. induction evs as [|e evs IH]; intros n Hn Hle.
    - simpl. repeat split; lia.
    - simpl in Hn. destruct e; simpl in Hn; try lia.
      + destruct (IH (n - 1)%nat) as (? & ? & ?); [lia | lia |].
        simpl. repeat split; lia.
      + destruct (IH n) as (? & ? & ?); [lia | lia |]. simpl. repeat split; lia.
      + destruct (IH n) as (? & ? & ?); [lia | lia |]. simpl. repeat split; lia.
      + destruct (IH n) as (? & ? & ?); [lia | lia |]. simpl. repeat split; lia. }
  apply (Hgen 1%nat); [exact Hn | lia].
Qed.

(** ** The contexts in the queue *)

Lemma keeps_ret {A} (a : A) : keeps_queue (ret a).
Proof. intros st a' st' H. now injection H as <- <-. Qed.

Lemma keeps_fault {A} f : keeps_queue (@fault A f).
Proof. intros st a st' H. discriminate H. Qed.

Lemma keeps_bind {A B} (m : M A) (k : A → M B) :
  keeps_queue m → (∀ x, keeps_queue (k x)) → keeps_queue (bind m k).
Proof.
  intros Hm Hk st b st2 H. apply bind_inv in H as (a & st1 & H1 & H2).
  rewrite (Hk a _ _ _ H2). exact (Hm _ _ _ H1).
Qed.

Lemma keeps_step {A} (m : M A) :
  (∀ st, Ioq (final_state (m st)) = Ioq st) → keeps_queue m.
Proof. intros H st a st' E. specialize (H st). now rewrite E in H. Qed.

Lemma keeps_load_context p : keeps_queue (load_context p).
Proof. intros st c st' H. now apply load_context_inv in H as [-> _]. Qed.

Lemma keeps_load_request p : keeps_queue (load_request p).
Proof. intros st c st' H. now apply load_request_inv in H as [-> _]. Qed.

Lemma keeps_load_response Context : keeps_queue (load_response Context).
Proof.
  unfold load_response. apply keeps_bind; [apply keeps_load_context |].
  intros c. destruct (InternalResponse c) as [|p]; [apply keeps_ret |].
  apply keeps_step. intros st. now destruct (Heap st !! p) as [[| |]|].
Qed.

Lemma keeps_FuseFree p : keeps_queue (FuseFree p).
Proof. apply keeps_step. intros st. unfold FuseFree. now destruct (Heap st !! p). Qed.

Lemma keeps_dispatch_slot Kind : keeps_queue (dispatch_slot table Kind).
Proof.
  apply keeps_step. intros st. unfold dispatch_slot.
  destruct (Kind <? 0); [reflexivity |]. now destruct (table !! Z.to_nat Kind).
Qed.

Lemma keeps_FuseContextProcess Context FuseResponse0 FuseRequest0 :
  keeps_queue (Process Context FuseResponse0 FuseRequest0).
Proof.
  intros st Continue st' H. now apply FuseContextProcess_keeps in H as [H _].
Qed.

Lemma keeps_FuseContextCreate DeviceObject0 InternalRequest0 :
  keeps_queue (Create DeviceObject0 InternalRequest0).
Proof.
  unfold FuseContextCreate. apply keeps_bind.
  { destruct (InternalRequest0 =? 0); [apply keeps_ret |].
    apply keeps_bind; [apply keeps_load_request | intros r; apply keeps_ret]. }
  intros req. cbv zeta. apply keeps_bind; [apply keeps_dispatch_slot |].
  intros [handler|]; [| apply keeps_ret].
  destruct (FuseAlloc env =? 0); [apply keeps_ret |].
  apply keeps_bind; [apply keeps_step; reflexivity | intros _; apply keeps_ret].
Qed.

Lemma keeps_FuseContextDelete Context : keeps_queue (FuseContextDelete Context).
Proof.
  unfold FuseContextDelete. apply keeps_bind; [apply keeps_load_context |].
  intros c. apply keeps_bind.
  { destruct (Fini c =? 0); [apply keeps_ret | apply keeps_step; reflexivity]. }
  intros _. apply keeps_bind; [apply keeps_load_context |].
  intros c1. apply keeps_bind.
  { destruct (InternalRequest c1 =? 0); [apply keeps_ret | apply keeps_FuseFree]. }
  intros _. apply keeps_bind; [apply keeps_load_context |].
  intros c2. apply keeps_bind; [| intros _; apply keeps_FuseFree].
  destruct (InternalResponse c2); [apply keeps_ret | apply keeps_FuseFree].
Qed.

Lemma keeps_forward r : keeps_queue (FuseSendTransactInternalIrp_Response env r).
Proof.
  unfold FuseSendTransactInternalIrp_Response.
  apply keeps_bind; [apply keeps_step; reflexivity | intros _; apply keeps_ret].
Qed.

Lemma keeps_forward_and_delete Context :
  keeps_queue
    (r <- load_response Context ;;
     Result <- FuseSendTransactInternalIrp_Response env r ;;
     FuseContextDelete Context ;;;
     ret Result).
Proof.
  apply keeps_bind; [apply keeps_load_response |].
  intros r. apply keeps_bind; [apply keeps_forward |].
  intros Result. apply keeps_bind; [apply keeps_FuseContextDelete |].
  intros _. apply keeps_ret.
Qed.

Lemma keeps_exit_label Result InternalRequest0 :
  keeps_queue (exit_label Result InternalRequest0).
Proof.
  unfold exit_label. apply keeps_bind; [| intros _; apply keeps_ret].
  destruct (InternalRequest0 =? 0); [apply keeps_ret | apply keeps_FuseFree].
Qed.

(** The contexts in the queue before and after each operation of the queue. *)

Lemma queued_delete q unique Context :
  ProcessTable q !! unique = Some Context →
  queued q ≡ₚ
  Context :: queued {| PendingList := PendingList q;
                       ProcessTable := delete unique (ProcessTable q) |}.
Proof.
  intros H. unfold queued. simpl.
  rewrite <- (map_to_list_delete _ _ _ H). simpl.
  now rewrite Permutation_middle.
Qed.

Lemma queued_insert q id Context :
  ProcessTable q !! id = None →
  queued {| PendingList := PendingList q;
            ProcessTable := <[id := Context]> (ProcessTable q) |}
  ≡ₚ Context :: queued q.
Proof.
  intros H. unfold queued. simpl.
  rewrite (map_to_list_insert _ _ _ H). simpl.
  now rewrite Permutation_middle.
Qed.

Lemma queued_post q Context :
  queued {| PendingList := PendingList q ++ [Context];
            ProcessTable := ProcessTable q |}
  ≡ₚ Context :: queued q.
Proof.
  unfold queued. simpl. rewrite <- app_assoc. simpl.
  now rewrite <- Permutation_middle.
Qed.

Lemma FuseIoqEndProcessing_inv unique st Context st' :
  FuseIoqEndProcessing unique st = Done Context st' →
  queued (Ioq st') ⊆+ queued (Ioq st) ∧
  (Context ≠ 0 → Context :: queued (Ioq st') ⊆+ queued (Ioq st)).
Proof.
  unfold FuseIoqEndProcessing.
  destruct (ProcessTable (Ioq st) !! unique) as [C|] eqn:E; intros H;
    injection H as <- <-.
  - pose proof (queued_delete _ _ _ E) as Hp. simpl. split.
    + rewrite Hp. now apply submseteq_cons.
    + intros _. now rewrite Hp.
  - split; [reflexivity | intros Hne; now contradiction Hne].
Qed.

Lemma FuseIoqNextPending_inv st Context st' :
  FuseIoqNextPending st = Done Context st' →
  queued (Ioq st') ⊆+ queued (Ioq st) ∧
  (Context ≠ 0 → Context :: queued (Ioq st') ⊆+ queued (Ioq st)).
Proof.
  unfold FuseIoqNextPending, queued.
  destruct (PendingList (Ioq st)) as [|C rest] eqn:E; intros H; injection H as <- <-.
  - rewrite E. split; [reflexivity | intros Hne; now contradiction Hne].
  - simpl. split; [now apply submseteq_cons | intros _; reflexivity].
Qed.

Lemma FuseIoqStartProcessing_inv Context st u st' :
  FuseIoqStartProcessing Context st = Done u st' →
  queued (Ioq st') ≡ₚ Context :: queued (Ioq st).
Proof.
  intros H. injection H as _ <-. simpl.
  apply queued_insert. apply not_elem_of_dom, is_fresh.
Qed.

Lemma FuseIoqPostPending_inv Context st u st' :
  FuseIoqPostPending Context st = Done u st' →
  queued (Ioq st') ≡ₚ Context :: queued (Ioq st).
Proof. intros H. injection H as _ <-. simpl. apply queued_post. Qed.

Lemma completion_phase_queue FuseResponse0 st Result st' :
  Completion FuseResponse0 st = Done Result st' →
  queued (Ioq st') ⊆+ queued (Ioq st).
Proof.
  unfold completion_phase. destruct FuseResponse0.
  2:{ intros H. injection H as <- <-. reflexivity. }
  intros H. apply bind_inv in H as (rsp & st0 & Hget & H). injection Hget as <- <-.
  apply bind_inv in H as (Context & st0 & Hend & H).
  apply FuseIoqEndProcessing_inv in Hend as [Hsub Hmove].
  destruct (Z.eqb_spec Context 0) as [E0 | Hne].
  { injection H as <- <-. exact Hsub. }
  apply bind_inv in H as (Continue & st1 & Hproc & H).
  apply keeps_FuseContextProcess in Hproc.
  destruct Continue.
  - apply bind_inv in H as (u & st2 & Hpost & H). injection H as <- <-.
    apply FuseIoqPostPending_inv in Hpost. rewrite Hpost, Hproc. exact (Hmove Hne).
  - assert (Hkeep : Ioq st' = Ioq st1).
    { revert H. apply keeps_bind; [apply keeps_load_context |].
      intros c. destruct (InternalRequest c =? 0).
      - apply keeps_bind; [apply keeps_FuseContextDelete | intros _; apply keeps_ret].
      - apply keeps_bind; [apply keeps_load_response |].
        intros r. apply keeps_bind; [apply keeps_forward |].
        intros R. apply keeps_bind; [apply keeps_FuseContextDelete |].
        intros _. destruct (negb (NT_SUCCESS R)); apply keeps_ret. }
    rewrite Hkeep, Hproc. exact Hsub.
Qed.

(** What the bootstrap path hands to the routing: a context that asks for
    another round trip is the one just allocated. *)
Lemma bootstrap_queue DeviceObject0 st flow st' :
  Bootstrap DeviceObject0 st = Done flow st' →
  Ioq st' = Ioq st ∧
  ∀ Context InternalRequest0, flow = Next (Context, InternalRequest0, true) →
    Context = FuseAlloc env.
Proof.
  unfold bootstrap. intros H.
  apply bind_inv in H as (v0 & st0 & Hget & H). injection Hget as <- <-.
  apply bind_inv in H as (woken & st1 & Hw & H).
  assert (Hq1 : Ioq st1 = Ioq st).
  { revert Hw. destruct (VersionMajor st =? 0); [| apply keeps_ret].
    apply keeps_bind.
    - unfold FsRtlCancellableWaitForSingleObject_InitEvent.
      apply keeps_bind; [apply keeps_step; reflexivity |].
      intros _. apply keeps_bind; [apply keeps_step; reflexivity |].
      intros _. apply keeps_ret.
    - intros R. cbv zeta. destruct (negb (NT_SUCCESS _)); [apply keeps_ret |].
      apply keeps_bind; [apply keeps_step; reflexivity | intros v; apply keeps_ret]. }
  destruct woken as [R I0 | v1].
  { injection H as <- <-. split; [exact Hq1 | discriminate]. }
  destruct (v1 =? 4294967295).
  { injection H as <- <-. split; [exact Hq1 | discriminate]. }
  apply bind_inv in H as (fetched & st2 & Hf & H).
  assert (Hq2 : Ioq st2 = Ioq st).
  { rewrite <- Hq1. revert Hf. unfold FuseSendTransactInternalIrp_Request.
    apply keeps_bind; [apply keeps_step; reflexivity | intros _; apply keeps_ret]. }
  cbv zeta in H. destruct (negb (NT_SUCCESS (fst fetched))).
  { injection H as <- <-. split; [exact Hq2 | discriminate]. }
  destruct (snd fetched =? 0).
  { apply bind_inv in H as (u & st3 & Hm & H). injection Hm as _ <-.
    injection H as <- <-. split; [exact Hq2 | discriminate]. }
  apply bind_inv in H as (Context & st3 & Hcreate & H).
  assert (Hq3 : Ioq st3 = Ioq st)
    by (rewrite <- Hq2; exact (keeps_FuseContextCreate _ _ _ _ _ Hcreate)).
  assert (Hwhich : FuseContextIsStatus Context = true ∨ Context = FuseAlloc env).
  { revert Hcreate. unfold FuseContextCreate. intros Hc.
    apply bind_inv in Hc as (req & st4 & _ & Hc). cbv zeta in Hc.
    apply bind_inv in Hc as (slot & st5 & _ & Hc).
    destruct slot as [handler|]; [| injection Hc as <- _; now left].
    destruct (FuseAlloc env =? 0); [injection Hc as <- _; now left |].
    apply bind_inv in Hc as (u & st6 & _ & Hc). injection Hc as <- _. now right. }
  destruct (FuseContextIsStatus Context) eqn:Est; simpl in H.
  { injection H as <- <-. split; [exact Hq3 | discriminate]. }
  apply bind_inv in H as (Continue & st4 & Hproc & H). injection H as <- <-.
  split; [rewrite <- Hq3; exact (keeps_FuseContextProcess _ _ _ _ _ _ Hproc) |].
  intros C I0 E. injection E as <- _ _.
  now destruct Hwhich as [Hs | ->].
Qed.

Lemma request_routing_queue Context InternalRequest0 (Continue : bool) st at_exit st' :
  (routed <-
     (if Continue then
        FuseIoqStartProcessing Context ;;; ret (Next tt)
      else
        c <- load_context Context ;;
        if InternalRequest c =? 0 then ret (Next tt)
        else
          Result <-
            (if FuseContextIsStatus Context then
               q <- load_request InternalRequest0 ;;
               FuseSendTransactInternalIrp_Response env
                 {| Rsp_Size := RSP_SIZE;
                    Rsp_Kind := Req_Kind q;
                    Rsp_Hint := Req_Hint q;
                    Rsp_IoStatus_Status := FuseContextToStatus Context;
                    Rsp_IoStatus_Information := 0 |}
             else
               r <- load_response Context ;;
               Result <- FuseSendTransactInternalIrp_Response env r ;;
               FuseContextDelete Context ;;;
               ret Result) ;;
          if negb (NT_SUCCESS Result) then ret (Goto_exit Result InternalRequest0)
          else ret (Next tt)) ;;
   match routed with
   | Goto_exit Result InternalRequest1 => ret (Result, InternalRequest1)
   | Next _ =>
       req <- get Request ;;
       modify (set_Information (req_len req)) ;;;
       ret (STATUS_SUCCESS, InternalRequest0)
   end) st = Done at_exit st' →
  if Continue then queued (Ioq st') ≡ₚ Context :: queued (Ioq st)
  else Ioq st' = Ioq st.
Proof.
  intros H. apply bind_inv in H as (routed & st1 & Hr & H).
  assert (Htail : Ioq st' = Ioq st1).
  { revert H. destruct routed as [R I1 | u]; [apply keeps_ret |].
    apply keeps_bind; [apply keeps_step; reflexivity |].
    intros req. apply keeps_bind; [apply keeps_step; reflexivity |].
    intros _. apply keeps_ret. }
  rewrite Htail. destruct Continue.
  - apply bind_inv in Hr as (u & st2 & Hstart & Hr). injection Hr as _ <-.
    exact (FuseIoqStartProcessing_inv _ _ _ _ Hstart).
  - revert Hr. apply keeps_bind; [apply keeps_load_context |].
    intros c. destruct (InternalRequest c =? 0); [apply keeps_ret |].
    apply keeps_bind.
    + destruct (FuseContextIsStatus Context); [| apply keeps_forward_and_delete].
      apply keeps_bind; [apply keeps_load_request | intros q; apply keeps_forward].
    + intros R. destruct (negb (NT_SUCCESS R)); apply keeps_ret.
Qed.

Lemma request_phase_queue FuseRequest0 DeviceObject0 st at_exit st' :
  RequestPhase FuseRequest0 DeviceObject0 st = Done at_exit st' →
  queued (Ioq st') ⊆+ FuseAlloc env :: queued (Ioq st).
Proof.
  unfold request_phase. destruct FuseRequest0.
  2:{ intros H. apply bind_inv in H as (u & st1 & Hm & H). injection Hm as _ <-.
      injection H as _ <-. simpl. now apply submseteq_cons. }
  intros H. apply bind_inv in H as (u & st0 & Hm & H). injection Hm as _ <-.
  apply bind_inv in H as (Context & st1 & Hnext & H).
  apply FuseIoqNextPending_inv in Hnext as [Hsub Hmove]. simpl in Hsub, Hmove.
  apply bind_inv in H as (obtained & st2 & Hobt & H).
  destruct (Z.eqb_spec Context 0) as [E0 | Hne].
  - apply bootstrap_queue in Hobt as [Hq Halloc].
    destruct obtained as [R I0 | [[C I0] Continue]].
    + injection H as _ <-. rewrite Hq. now apply submseteq_cons.
    + apply request_routing_queue in H. destruct Continue.
      * rewrite H, Hq, (Halloc C I0 eq_refl). now apply submseteq_skip.
      * rewrite H, Hq. now apply submseteq_cons.
  - apply bind_inv in Hobt as (Continue & st3 & Hproc & Hobt). injection Hobt as <- <-.
    apply keeps_FuseContextProcess in Hproc.
    apply request_routing_queue in H. destruct Continue.
    + rewrite H, Hproc. apply submseteq_cons. exact (Hmove Hne).
    + rewrite H, Hproc. now apply submseteq_cons.
Qed.

(** X14: no context is queued twice.  If no context is held twice by the
    queue (not twice in one set, not in both sets) and the address that the
    allocator is about to give is not in the queue, then after any call that
    returns, whatever the handlers do, still no context is held twice, and
    the queue holds only contexts it held before and possibly the new one. *)
Theorem FuseDeviceTransact_keeps_queue_exclusive Irp DeviceObject st Result st' :
  exclusive (Ioq st) →
  FuseAlloc env ∉ queued (Ioq st) →
  Transact Irp DeviceObject st = Done Result st' →
  exclusive (Ioq st') ∧
  ∀ Context, Context ∈ queued (Ioq st') →
    Context = FuseAlloc env ∨ Context ∈ queued (Ioq st).
Proof.
  intros Hex Hfresh Hcall.
  assert (Hsub : queued (Ioq st') ⊆+ FuseAlloc env :: queued (Ioq st)).
  { revert Hcall. unfold FuseDeviceTransact. cbv zeta. intros H.
    apply bind_inv in H as (rsp & st0 & Hget & H). injection Hget as <- <-.
    destruct (negb (InputBufferLength Irp =? 0) && _).
    { injection H as _ <-. now apply submseteq_cons. }
    destruct (negb (OutputBufferLength Irp =? 0) && _).
    { injection H as _ <-. now apply submseteq_cons. }
    apply bind_inv in H as (completed & st1 & Hcompl & H).
    apply completion_phase_queue in Hcompl.
    destruct completed as [R|].
    - apply keeps_exit_label in H. rewrite H. now apply submseteq_cons.
    - apply bind_inv in H as (at_exit & st2 & Hreq & H).
      apply keeps_exit_label in H. apply request_phase_queue in Hreq.
      rewrite H, Hreq. now apply submseteq_skip. }
  split.
  - unfold exclusive in *.
    destruct (submseteq_Permutation _ _ Hsub) as (k & Hk).
    assert (Hnd : NoDup (FuseAlloc env :: queued (Ioq st)))
      by (apply NoDup_cons; now split).
    rewrite Hk in Hnd. now apply NoDup_app in Hnd as [Hnd _].
  - intros Context Hin. apply (elem_of_submseteq _ _ _ Hin) in Hsub.
    now apply elem_of_cons in Hsub.
Qed.

(** ** The exchange buffer after line 161

    The response and the request slot are one buffer.  The bridge reads it
    as a response at lines 116-118 and 136 and hands it to the handler at
    line 140; line 161 then zeroes the header of the request, and from
    there on the buffer is the request.  [Response] stands for the response
    as the caller supplied it and is not written; what follows shows that
    from line 161 on it is not read either. *)

Lemma blind_ret {A} (a : A) : blind (ret a).
Proof. intros r st. reflexivity. Qed.

Lemma blind_fault {A} f : blind (@fault A f).
Proof. intros r st. reflexivity. Qed.

Lemma blind_bind {A B} (m : M A) (k : A → M B) :
  blind m → (∀ x, blind (k x)) → blind (bind m k).
Proof.
  intros Hm Hk r st. unfold bind. rewrite Hm.
  destruct (m st) as [a st'|f st']; [apply Hk | reflexivity].
Qed.

Lemma blind_load_context p : blind (load_context p).
Proof.
  intros r st. unfold load_context. cbn [Heap set_Response].
  now destruct (Heap st !! p) as [[| |]|].
Qed.

Lemma blind_load_request p : blind (load_request p).
Proof.
  intros r st. unfold load_request. cbn [Heap set_Response].
  now destruct (Heap st !! p) as [[| |]|].
Qed.

Lemma blind_load_response Context : blind (load_response Context).
Proof.
  unfold load_response. apply blind_bind; [apply blind_load_context |].
  intros c. destruct (InternalResponse c) as [|p]; [apply blind_ret |].
  intros r st. cbn [Heap set_Response]. now destruct (Heap st !! p) as [[| |]|].
Qed.

Lemma blind_FuseFree p : blind (FuseFree p).
Proof.
  intros r st. unfold FuseFree. cbn [Heap set_Response].
  now destruct (Heap st !! p).
Qed.

Lemma blind_dispatch_slot Kind : blind (dispatch_slot table Kind).
Proof.
  intros r st. unfold dispatch_slot.
  destruct (Kind <? 0); [reflexivity |]. now destruct (table !! Z.to_nat Kind).
Qed.

Lemma blind_emit e : blind (emit e).
Proof. intros r st. reflexivity. Qed.

Lemma blind_forward rsp : blind (FuseSendTransactInternalIrp_Response env rsp).
Proof.
  unfold FuseSendTransactInternalIrp_Response.
  apply blind_bind; [apply blind_emit | intros _; apply blind_ret].
Qed.

Lemma blind_FuseIoqNextPending : blind FuseIoqNextPending.
Proof.
  intros r st. unfold FuseIoqNextPending. cbn [Ioq set_Response].
  now destruct (PendingList (Ioq st)).
Qed.

Lemma blind_FuseIoqStartProcessing Context : blind (FuseIoqStartProcessing Context).
Proof. intros r st. reflexivity. Qed.

Lemma blind_FuseContextDelete Context : blind (FuseContextDelete Context).
Proof.
  unfold FuseContextDelete. apply blind_bind; [apply blind_load_context |].
  intros c. apply blind_bind.
  { destruct (Fini c =? 0); [apply blind_ret | apply blind_emit]. }
  intros _. apply blind_bind; [apply blind_load_context |].
  intros c1. apply blind_bind.
  { destruct (InternalRequest c1 =? 0); [apply blind_ret | apply blind_FuseFree]. }
  intros _. apply blind_bind; [apply blind_load_context |].
  intros c2. apply blind_bind; [| intros _; apply blind_FuseFree].
  destruct (InternalResponse c2); [apply blind_ret | apply blind_FuseFree].
Qed.

Lemma blind_FuseContextCreate DeviceObject0 InternalRequest0 :
  blind (Create DeviceObject0 InternalRequest0).
Proof.
  unfold FuseContextCreate. apply blind_bind.
  { destruct (InternalRequest0 =? 0); [apply blind_ret |].
    apply blind_bind; [apply blind_load_request | intros r; apply blind_ret]. }
  intros req. cbv zeta. apply blind_bind; [apply blind_dispatch_slot |].
  intros [handler|]; [| apply blind_ret].
  destruct (FuseAlloc env =? 0); [apply blind_ret |].
  apply blind_bind; [intros r st; reflexivity | intros _; apply blind_ret].
Qed.

Lemma blind_exit_label Result InternalRequest0 :
  blind (exit_label Result InternalRequest0).
Proof.
  unfold exit_label. apply blind_bind; [| intros _; apply blind_ret].
  destruct (InternalRequest0 =? 0); [apply blind_ret | apply blind_FuseFree].
Qed.

Section Handlers.

(** No handler of the table reads a response through a null pointer. *)
Hypothesis table_reads_no_null_response :
  ∀ Kind (handler : FUSE_PROCESS_DISPATCH),
    table !! Kind = Some (Some handler) → reads_no_null_response handler.

Lemma blind_FuseContextProcess Context FuseRequest0 :
  blind (Process Context false FuseRequest0).
Proof.
  unfold FuseContextProcess. apply blind_bind; [apply blind_load_context |].
  intros c. apply blind_bind.
  { destruct (InternalRequest c =? 0); [apply blind_ret |].
    apply blind_bind; [apply blind_load_request | intros q; apply blind_ret]. }
  intros Kind r st. unfold bind, store_context, modify, dispatch_slot.
  destruct (Kind <? 0); [reflexivity |].
  destruct (table !! Z.to_nat Kind) as [[handler|]|] eqn:Eslot;
    try reflexivity.
  unfold ret. cbn [Heap Request Response set_Heap set_Response].
  set (entered := <[Context := _]> (Heap st)).
  rewrite (table_reads_no_null_response _ _ Eslot Context entered _ r (Response st)
             (Request st) (lookup_insert_eq _ _ _) eq_refl).
  now destruct (handler Context entered (Response st) (Request st)) as [[? ?] ?].
Qed.

Lemma blind_bootstrap DeviceObject : blind (Bootstrap DeviceObject).
Proof.
  unfold bootstrap. apply blind_bind; [intros r st; reflexivity |].
  intros v0. apply blind_bind.
  { destruct (v0 =? 0); [| apply blind_ret].
    apply blind_bind; [intros r st; reflexivity |].
    intros Result. cbv zeta.
    destruct (negb (NT_SUCCESS _)); [apply blind_ret |].
    apply blind_bind; [intros r st; reflexivity | intros v; apply blind_ret]. }
  intros [Result p|v1]; [apply blind_ret |].
  destruct (v1 =? 0xFFFFFFFF); [apply blind_ret |].
  apply blind_bind; [intros r st; reflexivity |].
  intros fetched. cbv zeta.
  destruct (negb (NT_SUCCESS (fst fetched))); [apply blind_ret |].
  destruct (snd fetched =? 0).
  { apply blind_bind; [intros r st; reflexivity | intros _; apply blind_ret]. }
  apply blind_bind; [apply blind_FuseContextCreate |].
  intros Context. destruct (negb (FuseContextIsStatus Context)); [| apply blind_ret].
  apply blind_bind; [apply blind_FuseContextProcess | intros b; apply blind_ret].
Qed.

(** From line 161 on the call does not read the buffer as a response: put
    anything in place of the response the caller supplied, and the request
    phase and the [exit:] label return the same result, or stop at the same
    invalid access, with the same memory, queue, request, reported length
    and trace. *)
Lemma request_phase_blind FuseRequest0 DeviceObject :
  blind (at_exit <- RequestPhase FuseRequest0 DeviceObject ;;
         exit_label (fst at_exit) (snd at_exit)).
Proof.
  apply blind_bind; [| intros at_exit; apply blind_exit_label].
  unfold request_phase. destruct FuseRequest0.
  2:{ apply blind_bind; [intros r st; reflexivity | intros _; apply blind_ret]. }
  apply blind_bind; [intros r st; reflexivity |].
  intros _. apply blind_bind; [apply blind_FuseIoqNextPending |].
  intros Context. apply blind_bind.
  { destruct (Context =? 0); [apply blind_bootstrap |].
    apply blind_bind; [apply blind_FuseContextProcess | intros b; apply blind_ret]. }
  intros [Result p|[[Context1 p] Continue]]; [apply blind_ret |].
  apply blind_bind.
  { destruct Continue.
    - apply blind_bind; [apply blind_FuseIoqStartProcessing | intros _; apply blind_ret].
    - apply blind_bind; [apply blind_load_context |].
      intros c. destruct (InternalRequest c =? 0); [apply blind_ret |].
      apply blind_bind.
      + destruct (FuseContextIsStatus Context1).
        * apply blind_bind; [apply blind_load_request | intros q; apply blind_forward].
        * apply blind_bind; [apply blind_load_response |].
          intros rsp. apply blind_bind; [apply blind_forward |].
          intros Result. apply blind_bind; [apply blind_FuseContextDelete |].
          intros _. apply blind_ret.
      + intros Result. destruct (negb (NT_SUCCESS Result)); apply blind_ret. }
  intros [Result p1|u]; [apply blind_ret |].
  apply blind_bind; [intros r st; reflexivity |].
  intros req. apply blind_bind; [intros r st; reflexivity | intros _; apply blind_ret].
Qed.

End Handlers.
End BridgeMore.

(** * The dispatch table of [DriverEntry] *)

(** X15: as [DriverEntry] fills it, the dispatch table has a handler for
    the reserved kind and for the create kind and for no other kind; so a
    request of any other kind of the table is refused by context creation
    with the status-only context for [STATUS_INVALID_DEVICE_REQUEST],
    whatever the handlers and the allocator are, and memory is not
    touched. *)
Theorem DriverEntry_supports_two_kinds (KindCount : nat)
    (FuseOpReserved FuseOpCreate : FUSE_PROCESS_DISPATCH) :
  (2 ≤ KindCount)%nat →
  let table := DriverEntry KindCount FuseOpReserved FuseOpCreate in
  length table = KindCount ∧
  table !! Z.to_nat FspFsctlTransactReservedKind = Some (Some FuseOpReserved) ∧
  table !! Z.to_nat FspFsctlTransactCreateKind = Some (Some FuseOpCreate) ∧
  (∀ Kind, 2 ≤ Kind < Z.of_nat KindCount → table !! Z.to_nat Kind = Some None) ∧
  (∀ RSP_SIZE env DeviceObject0 InternalRequest0 st r,
     InternalRequest0 ≠ 0 →
     Heap st !! InternalRequest0 = Some (ObjRequest r) →
     2 ≤ Req_Kind r < Z.of_nat KindCount →
     FuseContextCreate RSP_SIZE table env DeviceObject0 InternalRequest0 st
     = Done (FuseContextStatus STATUS_INVALID_DEVICE_REQUEST) st).
Proof.
  intros Hcount table.
  assert (Hlen : length table = KindCount)
    by (unfold table, DriverEntry; now rewrite !length_insert, length_replicate).
  assert (Hother : ∀ Kind, 2 ≤ Kind < Z.of_nat KindCount →
                     table !! Z.to_nat Kind = Some None).
  { intros Kind HK. unfold table, DriverEntry.
    rewrite !list_lookup_insert_ne
      by (unfold FspFsctlTransactCreateKind, FspFsctlTransactReservedKind; lia).
    apply lookup_replicate_2. lia. }
  split; [exact Hlen |]. split; [| split; [| split; [exact Hother |]]].
  - unfold table, DriverEntry.
    rewrite list_lookup_insert_ne by (vm_compute; lia).
    apply list_lookup_insert_eq. rewrite length_replicate. vm_compute. lia.
  - unfold table, DriverEntry. apply list_lookup_insert_eq.
    rewrite length_insert, length_replicate. vm_compute. lia.
  - intros RSP_SIZE env DeviceObject0 p st r Hp Hr HK.
    unfold FuseContextCreate. destruct (Z.eqb_spec p 0); [contradiction |].
    rewrite (bind_Done _ _ st (Some r) st)
      by (unfold bind, load_request; now rewrite Hr).
    cbv zeta. unfold bind, dispatch_slot.
    destruct (Z.ltb_spec (Req_Kind r) 0); [lia |].
    fold table. now rewrite (Hother _ HK).
Qed.

(** * The lifecycle of a volume *)

(** X16: finalization undoes initialization.  On a zeroed extension and
    with constructors that store a handle exactly when they succeed,
    [FuseDeviceInit] stops at the first failure and returns it (the cache is
    not asked for after a failed queue, the init gate is set up, unsignaled,
    only after both exist, and the cache is made case-insensitive exactly
    for a volume that is not case-sensitive); and whatever the outcome,
    [FuseDeviceFini] then deletes exactly what was created, the cache
    before the queue, each once. *)
Theorem FuseDeviceInit_then_Fini (CaseSensitive : bool)
    (IoqResult IoqHandle CacheResult CacheHandle : Z) :
  IoqHandle ≠ 0 →
  CacheHandle ≠ 0 →
  let mk := Device.creators IoqResult IoqHandle CacheResult CacheHandle in
  let init := Device.FuseDeviceInit mk (Device.blank CaseSensitive) in
  fst init =
    (if NT_SUCCESS IoqResult
     then if NT_SUCCESS CacheResult then STATUS_SUCCESS else CacheResult
     else IoqResult) ∧
  Device.InitEvent (Device.Extension (snd init)) =
    (if NT_SUCCESS IoqResult && NT_SUCCESS CacheResult then Some false else None) ∧
  Device.Log (Device.FuseDeviceFini (snd init)) =
    [Device.DevIoqCreate] ++
    (if NT_SUCCESS IoqResult then
       [Device.DevCacheCreate 0 (negb CaseSensitive)] ++
       (if NT_SUCCESS CacheResult
        then [Device.DevInitializeEvent false; Device.DevCacheDelete CacheHandle]
        else []) ++
       [Device.DevIoqDelete IoqHandle]
     else []).
Proof.
  intros Hq Hc mk init. unfold init, mk, Device.FuseDeviceInit, Device.creators.
  cbn [Device.FuseIoqCreate Device.FuseCacheCreate fst snd].
  destruct (NT_SUCCESS IoqResult); [| repeat split].
  destruct (NT_SUCCESS CacheResult); cbn.
  - unfold Device.FuseDeviceFini. cbn.
    destruct (Z.eqb_spec CacheHandle 0); [contradiction |]. cbn.
    destruct (Z.eqb_spec IoqHandle 0); [contradiction |]. repeat split.
  - unfold Device.FuseDeviceFini. cbn.
    destruct (Z.eqb_spec IoqHandle 0); [contradiction |]. repeat split.
Qed.

(** * More runs *)

Import Sample2.

Lemma FuseDeviceTransact_rejects_small_output_witness :
  Transact (surroundings STATUS_SUCCESS context_at) short_poll 1
    (idle_volume FspFsctlTransactCreateKind)
  = Done STATUS_BUFFER_TOO_SMALL (idle_volume FspFsctlTransactCreateKind).
Proof.
  apply (FuseDeviceTransact_rejects_small_output RSP_HEADER_SIZE REQ_SIZEMIN RSP_SIZE table).
  - left. reflexivity.
  - vm_compute. discriminate.
  - vm_compute. reflexivity.
Defined.

Lemma FuseDeviceTransact_without_request_slot_witness :
  Transact (surroundings STATUS_SUCCESS context_at) empty_call 1
    (idle_volume FspFsctlTransactCreateKind)
  = Done STATUS_SUCCESS (set_Information 0 (idle_volume FspFsctlTransactCreateKind)).
Proof.
  destruct (FuseDeviceTransact_without_request_slot RSP_HEADER_SIZE REQ_SIZEMIN RSP_SIZE
              table (surroundings STATUS_SUCCESS context_at) empty_call 1
              (idle_volume FspFsctlTransactCreateKind)
              (idle_volume FspFsctlTransactCreateKind)) as [Hcall _].
  - left. reflexivity.
  - reflexivity.
  - reflexivity.
  - exact Hcall.
Defined.

Lemma FuseDeviceTransact_idle_poll_witness :
  Transact (idle_surroundings context_at) poll 1 (idle_volume FspFsctlTransactCreateKind)
  = Done STATUS_SUCCESS
      (set_Information 0
         (add_Trace EvFetch
            (set_Request (zero_REQ_header stale_request)
               (idle_volume FspFsctlTransactCreateKind)))).
Proof.
  apply (FuseDeviceTransact_idle_poll RSP_HEADER_SIZE REQ_SIZEMIN RSP_SIZE table
           (idle_surroundings context_at) poll 1
           (idle_volume FspFsctlTransactCreateKind)
           (idle_volume FspFsctlTransactCreateKind)).
  - left. reflexivity.
  - vm_compute. discriminate.
  - vm_compute. discriminate.
  - reflexivity.
  - reflexivity.
  - vm_compute. discriminate.
  - vm_compute. discriminate.
  - reflexivity.
  - reflexivity.
Defined.

Lemma FuseDeviceTransact_fetch_fails_witness :
  Transact failing_surroundings poll 1 (idle_volume FspFsctlTransactCreateKind)
  = Done STATUS_INSUFFICIENT_RESOURCES
      (add_Trace (EvFree host_request_at)
         (set_Heap ∅
            (add_Trace EvFetch
               (set_Request (zero_REQ_header stale_request)
                  (idle_volume FspFsctlTransactCreateKind))))).
Proof.
  destruct (FuseDeviceTransact_fetch_fails RSP_HEADER_SIZE REQ_SIZEMIN RSP_SIZE table
              failing_surroundings poll 1
              (idle_volume FspFsctlTransactCreateKind)
              (idle_volume FspFsctlTransactCreateKind)) as [_ Hcall].
  - left. reflexivity.
  - vm_compute. discriminate.
  - vm_compute. discriminate.
  - reflexivity.
  - reflexivity.
  - vm_compute. discriminate.
  - vm_compute. discriminate.
  - reflexivity.
  - unfold Transact.
    rewrite Hcall; [vm_compute; reflexivity | vm_compute; discriminate |].
    vm_compute. eexists. reflexivity.
Defined.

Lemma request_phase_starts_processing_witness :
  ∃ id st3,
    Transact (surroundings STATUS_SUCCESS 0) poll 1 pending_volume
    = Done STATUS_SUCCESS st3 ∧
    ProcessTable (Ioq st3) !! id = Some context_at ∧
    Information st3 = 64.
Proof.
  destruct (request_phase_starts_processing RSP_HEADER_SIZE REQ_SIZEMIN RSP_SIZE table
              (surroundings STATUS_SUCCESS 0) poll 1 pending_volume pending_volume
              context_at [] sent)
    as (id & st3 & Kind & Hcall & _ & Htable & _ & Hinfo & _).
  - left. reflexivity.
  - vm_compute. discriminate.
  - vm_compute. discriminate.
  - reflexivity.
  - reflexivity.
  - vm_compute. discriminate.
  - vm_compute. reflexivity.
  - exists id, st3. split; [exact Hcall |].
    split; [rewrite Htable; apply lookup_insert_eq | exact Hinfo].
Defined.

Lemma reposted_context_dispatched_again_witness :
  ∃ id st3 Kind1 Kind2,
    FuseDeviceTransact RSP_HEADER_SIZE REQ_SIZEMIN RSP_SIZE eager_table
      (idle_surroundings response_buffer_at) exchange 1 processing_volume
    = Done STATUS_SUCCESS st3 ∧
    ProcessTable (Ioq st3) !! id = Some context_at ∧
    PendingList (Ioq st3) = [] ∧
    Information st3 = req_len (Request sent_again) ∧
    Trace st3 = Trace processing_volume
                ++ [EvDispatch context_at Kind1; EvDispatch context_at Kind2].
Proof.
  apply (reposted_context_dispatched_again RSP_HEADER_SIZE REQ_SIZEMIN RSP_SIZE
           eager_table (idle_surroundings response_buffer_at) exchange 1
           processing_volume context_at matched asked_again sent_again).
  - vm_compute. discriminate.
  - vm_compute. split; discriminate.
  - vm_compute. discriminate.
  - vm_compute. discriminate.
  - reflexivity.
  - vm_compute. reflexivity.
  - vm_compute. discriminate.
  - vm_compute. reflexivity.
  - vm_compute. reflexivity.
Defined.

Lemma request_phase_ignores_completed_context_witness :
  ∃ st3 Kind,
    Transact (surroundings STATUS_SUCCESS 0) poll 1 reserved_volume
    = Done STATUS_SUCCESS st3 ∧
    Heap st3 !! context_at = Some (ObjContext (context_in reserved_done context_at)) ∧
    PendingList (Ioq st3) = [] ∧
    ProcessTable (Ioq st3) = ProcessTable (Ioq reserved_volume) ∧
    Information st3 = req_len (Request reserved_done) ∧
    Trace st3 = Trace reserved_volume ++ [EvDispatch context_at Kind].
Proof.
  apply (request_phase_ignores_completed_context RSP_HEADER_SIZE REQ_SIZEMIN RSP_SIZE
           table (surroundings STATUS_SUCCESS 0) poll 1 reserved_volume reserved_volume
           context_at [] reserved_done).
  - left. reflexivity.
  - vm_compute. discriminate.
  - vm_compute. discriminate.
  - reflexivity.
  - reflexivity.
  - vm_compute. discriminate.
  - vm_compute. reflexivity.
  - vm_compute. reflexivity.
  - reflexivity.
Defined.

Lemma created_context_dispatches_witness :
  ∃ st1 Continue st2,
    FuseContextCreate RSP_SIZE table (surroundings STATUS_SUCCESS context_at)
      1 host_request_at (idle_volume FspFsctlTransactCreateKind)
    = Done context_at st1 ∧
    FuseContextProcess table context_at false true st1 = Done Continue st2 ∧
    Trace st2 = [EvDispatch context_at FspFsctlTransactCreateKind].
Proof.
  apply (created_context_dispatches RSP_SIZE table (surroundings STATUS_SUCCESS context_at)
           1 host_request_at (idle_volume FspFsctlTransactCreateKind)
           FspFsctlTransactCreateKind 77 FuseOpCreate false true).
  - vm_compute. reflexivity.
  - vm_compute. discriminate.
  - reflexivity.
  - vm_compute. discriminate.
  - reflexivity.
Defined.

Lemma created_context_deletes_witness :
  ∃ st1 st2,
    FuseContextCreate RSP_SIZE table (surroundings STATUS_SUCCESS context_at)
      1 host_request_at (idle_volume FspFsctlTransactCreateKind)
    = Done context_at st1 ∧
    FuseContextDelete context_at st1 = Done tt st2 ∧
    Heap st2 = ∅ ∧
    Trace st2 = [EvFree host_request_at; EvFree context_at].
Proof.
  destruct (created_context_deletes RSP_SIZE table (surroundings STATUS_SUCCESS context_at)
              1 host_request_at (idle_volume FspFsctlTransactCreateKind)
              FspFsctlTransactCreateKind 77 FuseOpCreate)
    as (st1 & st2 & Hcreate & Hdelete & Hheap & Htrace & _).
  - vm_compute. reflexivity.
  - vm_compute. discriminate.
  - reflexivity.
  - vm_compute. discriminate.
  - reflexivity.
  - exists st1, st2. split; [exact Hcreate |]. split; [exact Hdelete |].
    split; [rewrite Hheap; vm_compute; reflexivity | exact Htrace].
Defined.

Lemma bootstrap_first_dispatch_continues_witness :
  ∃ id st3,
    Transact (surroundings STATUS_SUCCESS context_at) poll 1
      (idle_volume FspFsctlTransactCreateKind) = Done STATUS_SUCCESS st3 ∧
    ProcessTable (Ioq st3) !! id = Some context_at ∧
    Information st3 = 64 ∧
    Trace st3 = [EvFetch; EvDispatch context_at FspFsctlTransactCreateKind].
Proof.
  destruct (bootstrap_first_dispatch_continues RSP_HEADER_SIZE REQ_SIZEMIN RSP_SIZE table
              (surroundings STATUS_SUCCESS context_at) poll 1
              (idle_volume FspFsctlTransactCreateKind)
              (idle_volume FspFsctlTransactCreateKind)
              FspFsctlTransactCreateKind 77 FuseOpCreate)
    as (id & st3 & Hcall & _ & Htable & _ & _ & _ & Hinfo & Htrace).
  - left. reflexivity.
  - vm_compute. discriminate.
  - vm_compute. discriminate.
  - reflexivity.
  - reflexivity.
  - vm_compute. discriminate.
  - vm_compute. discriminate.
  - reflexivity.
  - vm_compute. discriminate.
  - vm_compute. reflexivity.
  - vm_compute. discriminate.
  - reflexivity.
  - vm_compute. reflexivity.
  - reflexivity.
  - vm_compute. reflexivity.
  - exists id, st3. split; [exact Hcall |].
    split; [rewrite Htable; apply lookup_insert_eq |].
    split; [exact Hinfo | exact Htrace].
Defined.

Lemma bootstrap_completes_at_once_witness :
  ∃ st3,
    Heap st3 = ∅ ∧
    FuseDeviceTransact RSP_HEADER_SIZE REQ_SIZEMIN RSP_SIZE quick_table
      (surroundings STATUS_SUCCESS context_at) poll 1
      (idle_volume FspFsctlTransactCreateKind)
    = Done STATUS_SUCCESS (set_Information 0 st3).
Proof.
  destruct (bootstrap_completes_at_once RSP_HEADER_SIZE REQ_SIZEMIN RSP_SIZE quick_table
              (surroundings STATUS_SUCCESS context_at) poll 1
              (idle_volume FspFsctlTransactCreateKind)
              (idle_volume FspFsctlTransactCreateKind)
              FspFsctlTransactCreateKind 77 FuseOpReserved)
    as (st3 & Hheap & _ & _ & _ & Hcall).
  - left. reflexivity.
  - vm_compute. discriminate.
  - vm_compute. discriminate.
  - reflexivity.
  - reflexivity.
  - vm_compute. discriminate.
  - vm_compute. discriminate.
  - reflexivity.
  - vm_compute. discriminate.
  - vm_compute. reflexivity.
  - vm_compute. discriminate.
  - reflexivity.
  - vm_compute. reflexivity.
  - reflexivity.
  - reflexivity.
  - reflexivity.
  - exists st3. split; [rewrite Hheap; vm_compute; reflexivity | exact Hcall].
Defined.

Lemma pending_context_preempts_fetch_witness :
  ∃ evs,
    Trace (final_state (Transact (surroundings STATUS_SUCCESS 0) poll 1 pending_volume))
    = Trace pending_volume ++ evs ∧
    count_events is_wait evs = 0%nat ∧
    count_events is_fetch evs = 0%nat ∧
    (count_events is_dispatch evs ≤ 1)%nat.
Proof.
  apply (pending_context_preempts_fetch RSP_HEADER_SIZE REQ_SIZEMIN RSP_SIZE table
           (surroundings STATUS_SUCCESS 0) poll 1 pending_volume pending_volume
           context_at []).
  - left. reflexivity.
  - vm_compute. discriminate.
  - vm_compute. discriminate.
  - reflexivity.
  - reflexivity.
  - vm_compute. discriminate.
Defined.

Lemma FuseDeviceTransact_keeps_queue_exclusive_witness :
  exclusive (Ioq (state_of exchanged)) ∧
  ∀ Context, Context ∈ queued (Ioq (state_of exchanged)) →
    Context = response_buffer_at ∨ Context ∈ queued (Ioq processing_volume).
Proof.
  apply (FuseDeviceTransact_keeps_queue_exclusive RSP_HEADER_SIZE REQ_SIZEMIN RSP_SIZE
           eager_table (idle_surroundings response_buffer_at) exchange 1
           processing_volume exchanged_result (state_of exchanged)).
  - apply (bool_decide_unpack _). vm_compute. reflexivity.
  - apply (bool_decide_unpack _). vm_compute. reflexivity.
  - vm_compute. reflexivity.
Defined.

Lemma DriverEntry_supports_two_kinds_witness :
  table !! Z.to_nat FspFsctlTransactOverwriteKind = Some None.
Proof.
  destruct (DriverEntry_supports_two_kinds KindCount FuseOpReserved FuseOpCreate)
    as (_ & _ & _ & Hother & _).
  - vm_compute. lia.
  - apply Hother. vm_compute. split; [discriminate | reflexivity].
Defined.

Lemma FuseDeviceInit_then_Fini_witness :
  Device.Log
    (Device.FuseDeviceFini
       (snd (Device.FuseDeviceInit
               (Device.creators STATUS_SUCCESS 0x50000 STATUS_INSUFFICIENT_RESOURCES 0x60000)
               (Device.blank true))))
  = [Device.DevIoqCreate; Device.DevCacheCreate 0 false; Device.DevIoqDelete 0x50000].
Proof.
  destruct (FuseDeviceInit_then_Fini true STATUS_SUCCESS 0x50000
              STATUS_INSUFFICIENT_RESOURCES 0x60000) as (_ & _ & Hlog).
  - discriminate.
  - discriminate.
  - exact Hlog.
Defined.

(** The handlers of [eager_table] read no response at all, so a call with
    them does not depend, from line 161 on, on what the caller supplied as a
    response. *)
Lemma eager_table_reads_no_null_response Kind (handler : FUSE_PROCESS_DISPATCH) :
  eager_table !! Kind = Some (Some handler) → reads_no_null_response handler.
Proof.
  destruct Kind as [|[|Kind]].
  - intros H. injection H as <-. intros ? ? ? ? ? ? _ _. reflexivity.
  - intros H. injection H as <-. intros ? ? ? ? ? ? _ _. reflexivity.
  - intros H. vm_compute in H.
    do 20 (destruct Kind as [|Kind]; [discriminate H |]). discriminate H.
Qed.

Lemma request_phase_blind_sample :
  blind (at_exit <- request_phase RSP_SIZE eager_table
                      (idle_surroundings response_buffer_at) true 1 ;;
         exit_label (fst at_exit) (snd at_exit)).
Proof.
  apply request_phase_blind. exact eager_table_reads_no_null_response.
Qed.
